(** * PWHL-Scraper: upsert scrapers, play-by-play dispatch and query helpers

    A shallow embedding of the parts of [pwhl_scraper] that persist API
    payloads into SQLite:

    - [pwhl_scraper/database/db_manager.py]: [execute_query], [execute_many];
    - [pwhl_scraper/scrapers/basic_info.py]: [update_leagues],
      [update_conferences], [update_divisions], [update_seasons];
    - [pwhl_scraper/scrapers/players.py]: [extract_player_fields],
      [update_player];
    - [pwhl_scraper/scrapers/play_by_play.py]: [process_game_play_by_play],
      [get_game_teams], [get_games_without_play_by_play].

    Python values are the JSON values the API client hands to the scrapers
    (floating-point numbers are left out of the value type); a string holds
    the UTF-8 encoding of the text.  Exceptions are explicit results, and a
    connection is a state that every database operation threads through. *)

From stdpp Require Import gmap strings list fin_maps sorting.
From Stdlib Require Import ZArith Lia Ascii String.

Local Open Scope string_scope.
Local Open Scope list_scope.
Local Open Scope Z_scope.

(** ** Python values *)

#[warnings="-register-all"]
Inductive value : Type :=
| VNone
| VBool (b : bool)
| VInt (z : Z)
| VStr (s : string)
| VList (l : list value)
| VDict (d : list (string * value)).

(** A Python [dict] with string keys, in insertion order. *)
Abbreviation dict := (list (string * value)).

Inductive sqlite3_error : Type :=
| IntegrityError
| OperationalError
| InterfaceError
| ProgrammingError.

(** The exception classes the modelled code can meet; all of them derive
    from [Exception]. *)
Inductive exn : Type :=
| NameError (name : string)
| ValueError
| TypeError
| AttributeError
| KeyError
| IndexError
| OverflowError
| Sqlite3Error (k : sqlite3_error).

Definition is_sqlite3_error (e : exn) : bool :=
  match e with Sqlite3Error _ => true | _ => false end.

Inductive result (A : Type) : Type :=
| Ok (a : A)
| Raise (e : exn).
Arguments Ok {A} a.
Arguments Raise {A} e.

#[global] Instance result_ret : MRet result := λ A a, Ok a.
#[global] Instance result_bind : MBind result := λ A B k r,
  match r with Ok a => k a | Raise e => Raise e end.

(** [d.get(k)] as an option, and [d.get(k, default)]. *)
Fixpoint dict_lookup (d : dict) (k : string) : option value :=
  match d with
  | [] => None
  | (k', v) :: d' => if String.eqb k' k then Some v else dict_lookup d' k
  end.

Definition dict_get (d : dict) (k : string) (default : value) : value :=
  match dict_lookup d k with Some v => v | None => default end.

(** [bool(v)]. *)
Definition truthy (v : value) : bool :=
  match v with
  | VNone => false
  | VBool b => b
  | VInt z => negb (z =? 0)
  | VStr s => negb (String.eqb s "")
  | VList l => match l with [] => false | _ => true end
  | VDict d => match d with [] => false | _ => true end
  end.

(** *** Text

    A [string] holds the UTF-8 encoding of a Python [str].  [chars] reads
    the code points back, each with the bytes that encode it; a byte that
    starts no well-formed sequence stands for the code point of its own
    number. *)

Definition continuation (a : ascii) : option N :=
  let b := N_of_ascii a in
  if ((128 <=? b) && (b <? 192))%N then Some (b - 128)%N else None.

Fixpoint chars (s : string) : list (N * string) :=
  match s with
  | EmptyString => []
  | String a0 s1 =>
      let b0 := N_of_ascii a0 in
      if (b0 <? 128)%N then (b0, String a0 "") :: chars s1 else
      match s1 with
      | String a1 s2 =>
          match continuation a1 with
          | Some x1 =>
              if ((194 <=? b0) && (b0 <? 224))%N then
                (((b0 - 192) * 64 + x1)%N, String a0 (String a1 "")) :: chars s2
              else
                match s2 with
                | String a2 s3 =>
                    match continuation a2 with
                    | Some x2 =>
                        let cp3 := ((b0 - 224) * 4096 + x1 * 64 + x2)%N in
                        if ((224 <=? b0) && (b0 <? 240) && (2048 <=? cp3) &&
                            negb ((55296 <=? cp3) && (cp3 <? 57344)))%N then
                          (cp3, String a0 (String a1 (String a2 ""))) :: chars s3
                        else
                          match s3 with
                          | String a3 s4 =>
                              match continuation a3 with
                              | Some x3 =>
                                  let cp4 :=
                                    ((b0 - 240) * 262144 + x1 * 4096 + x2 * 64 + x3)%N in
                                  if ((240 <=? b0) && (b0 <? 245) && (65536 <=? cp4) &&
                                      (cp4 <? 1114112))%N then
                                    (cp4, String a0 (String a1 (String a2 (String a3 ""))))
                                      :: chars s4
                                  else (b0, String a0 "") :: chars s1
                              | None => (b0, String a0 "") :: chars s1
                              end
                          | EmptyString => (b0, String a0 "") :: chars s1
                          end
                    | None => (b0, String a0 "") :: chars s1
                    end
                | EmptyString => (b0, String a0 "") :: chars s1
                end
          | None => (b0, String a0 "") :: chars s1
          end
      | EmptyString => (b0, String a0 "") :: chars s1
      end
  end.

Definition code_points (s : string) : list N := (chars s).*1.

(** The text of some of the characters of a string. *)
Definition text_of (cs : list (N * string)) : string :=
  fold_right String.append "" cs.*2.

(** White space outside ASCII: U+0085, U+00A0, U+1680, U+2000 to U+200A,
    U+2028, U+2029, U+202F, U+205F and U+3000. *)
Definition unicode_space (cp : N) : bool :=
  ((cp =? 133) || (cp =? 160) || (cp =? 5760) ||
   ((8192 <=? cp) && (cp <=? 8202)) || (cp =? 8232) || (cp =? 8233) ||
   (cp =? 8239) || (cp =? 8287) || (cp =? 12288))%N.

(** *** [str.strip] *)

(** The characters [str.strip] removes: those of [str.isspace], which among
    the ASCII characters are 9 to 13 and 28 to 32. *)
Definition is_space (cp : N) : bool :=
  (((9 <=? cp) && (cp <=? 13)) || ((28 <=? cp) && (cp <=? 32)))%N || unicode_space cp.

Fixpoint lstrip (cs : list (N * string)) : list (N * string) :=
  match cs with
  | c :: cs' => if is_space c.1 then lstrip cs' else cs
  | [] => []
  end.

Definition rstrip (cs : list (N * string)) : list (N * string) :=
  rev (lstrip (rev cs)).

Definition strip (s : string) : string := text_of (rstrip (lstrip (chars s))).

(** *** [int] on a string

    [int] reads a decimal literal: it maps the white space and the decimal
    digits outside ASCII to a blank and to the ASCII digit, then skips
    blanks, reads a sign and the digits, and skips blanks up to the end of
    the text. *)

(** The blanks that [int] skips: the characters 9 to 13 and 32, and the
    white space outside ASCII; not the separators 28 to 31, which
    [str.strip] removes. *)
Definition int_space (cp : N) : bool :=
  (((9 <=? cp) && (cp <=? 13)) || (cp =? 32))%N || unicode_space cp.

(** The digit zero of every script with decimal digits (Unicode 14.0, the
    version of CPython 3.11); the nine code points after each are its
    digits one to nine. *)
Definition decimal_zeros : list N :=
  [48; 1632; 1776; 1984; 2406; 2534; 2662; 2790; 2918; 3046; 3174; 3302; 3430;
   3558; 3664; 3792; 3872; 4160; 4240; 6112; 6160; 6470; 6608; 6784; 6800;
   6992; 7088; 7232; 7248; 42528; 43216; 43264; 43472; 43504; 43600; 44016;
   65296; 66720; 68912; 69734; 69872; 69942; 70096; 70384; 70736; 70864;
   71248; 71360; 71472; 71904; 72016; 72784; 73040; 73120; 92768; 92864;
   93008; 120782; 120792; 120802; 120812; 120822; 123200; 123632; 125264;
   130032]%N.

Definition digit_of (cp : N) : option Z :=
  (λ zero, Z.of_N (cp - zero)) <$>
    find (λ zero, ((zero <=? cp) && (cp <? zero + 10))%N) decimal_zeros.

Fixpoint skip_blanks (cps : list N) : list N :=
  match cps with
  | cp :: cps' => if int_space cp then skip_blanks cps' else cps
  | [] => []
  end.

(** Decimal digits, where a single underscore may separate two digits:
    the number read, how many digits it has and what follows it.  [prev]
    tells whether the previous character was a digit. *)
Fixpoint parse_digits (cps : list N) (acc digits : Z) (prev : bool)
    : option (Z * Z * list N) :=
  match cps with
  | [] => if prev then Some (acc, digits, []) else None
  | cp :: cps' =>
      match digit_of cp with
      | Some d => parse_digits cps' (10 * acc + d) (digits + 1) true
      | None =>
          if (cp =? 95)%N then
            if prev then parse_digits cps' acc digits false else None
          else if prev then Some (acc, digits, cps) else None
      end
  end.

(** The longest literal [int] converts (sys.get_int_max_str_digits()). *)
Definition int_max_str_digits : Z := 4300.

Definition int_of_string (s : string) : option Z :=
  let cps := skip_blanks (code_points s) in
  let '(negative, cps) :=
    match cps with
    | 45%N :: cps' => (true, cps')
    | 43%N :: cps' => (false, cps')
    | _ => (false, cps)
    end in
  match parse_digits cps 0 0 false with
  | Some (z, digits, rest) =>
      if forallb int_space rest && (digits <=? int_max_str_digits)
      then Some (if negative : bool then - z else z)
      else None
  | None => None
  end.

(** [int(v)]: [ValueError] on a string that is no integer literal,
    [TypeError] on [None] and on containers. *)
Definition py_int (v : value) : result Z :=
  match v with
  | VInt z => Ok z
  | VBool b => Ok (if b then 1 else 0)
  | VStr s => match int_of_string s with Some z => Ok z | None => Raise ValueError end
  | VNone | VList _ | VDict _ => Raise TypeError
  end.

(** [needle in hay] on strings. *)
Fixpoint is_prefix (p s : string) : bool :=
  match p, s with
  | EmptyString, _ => true
  | String a p', String b s' => Ascii.eqb a b && is_prefix p' s'
  | String _ _, EmptyString => false
  end.

Fixpoint str_contains (needle hay : string) : bool :=
  is_prefix needle hay ||
  match hay with
  | String _ hay' => str_contains needle hay'
  | EmptyString => false
  end.

(** [v == s] for a string literal [s]. *)
Definition eq_str (v : value) (s : string) : bool :=
  match v with VStr s' => String.eqb s' s | _ => false end.

(** [s in v] for a string literal [s]: substring of a string, element of a
    list, key of a dict; [TypeError] when [v] is not iterable. *)
Definition py_str_in (s : string) (v : value) : result bool :=
  match v with
  | VStr h => Ok (str_contains s h)
  | VList l => Ok (existsb (λ x, eq_str x s) l)
  | VDict d => Ok (bool_decide (is_Some (dict_lookup d s)))
  | VNone | VBool _ | VInt _ => Raise TypeError
  end.

(** ** SQLite values, rows and tables *)

Inductive sqlval : Type :=
| SNull
| SInt (z : Z)
| SText (s : string).

#[global] Instance sqlval_eq_dec : EqDecision sqlval.
Proof. solve_decision. Defined.

(** What [sqlite3] binds for a Python parameter: [None] is NULL, a [bool]
    is its integer, an [int] must fit 64 bits ([OverflowError] otherwise),
    containers are refused. *)
Definition bind_param (v : value) : result sqlval :=
  match v with
  | VNone => Ok SNull
  | VBool b => Ok (SInt (if b then 1 else 0))
  | VInt z =>
      if (- 2 ^ 63 <=? z) && (z <? 2 ^ 63) then Ok (SInt z) else Raise OverflowError
  | VStr s => Ok (SText s)
  | VList _ | VDict _ => Raise (Sqlite3Error InterfaceError)
  end.

Fixpoint bind_params (cv : list (string * value)) : result (list (string * sqlval)) :=
  match cv with
  | [] => Ok []
  | (c, v) :: cv' =>
      b ← bind_param v;
      bs ← bind_params cv';
      mret ((c, b) :: bs)
  end.

(** What the driver hands back for a stored cell. *)
Definition py_of_sql (c : sqlval) : value :=
  match c with
  | SNull => VNone
  | SInt z => VInt z
  | SText s => VStr s
  end.

(** [v == py_of_sql c]: Python equality of a payload value with a value
    read from the database ([True == 1], [False == 0]). *)
Definition py_eq_cell (v : value) (c : sqlval) : bool :=
  match v, c with
  | VNone, SNull => true
  | VBool b, SInt z => (if b then 1 else 0) =? z
  | VInt y, SInt z => y =? z
  | VStr s, SText t => String.eqb s t
  | _, _ => false
  end.

(** Modelled from the spec: the table declarations of [database/models.py]
    are not among the sources.  Identifiers are unique per table: a table
    maps each integer primary key [id] to its row, and a row maps the names
    of the other columns to their cells (a column that is absent is NULL).
    The declared column types are taken to store what the scrapers bind
    unchanged. *)
Abbreviation row := (gmap string sqlval).
Abbreviation table := (gmap Z row).

Definition cell (id : Z) (r : row) (col : string) : sqlval :=
  if String.eqb col "id" then SInt id else default SNull (r !! col).

(** Play-by-play tables have a synthesized text id. *)
Abbreviation pbp_table := (gmap string row).

Record database : Type := {
  tables : gmap string table;
  pbp : gmap string pbp_table
}.

Definition get_table (d : database) (t : string) : table :=
  default ∅ (tables d !! t).

Definition set_table (d : database) (t : string) (rows : table) : database :=
  {| tables := <[t := rows]> (tables d); pbp := pbp d |}.

Definition get_pbp (d : database) (t : string) : pbp_table :=
  default ∅ (pbp d !! t).

(** ** Connections and the statements the scrapers issue *)

Inductive stmt : Type :=
| SELECT (t : string) (id : Z)
| PRAGMA_table_info (t : string)
| UPDATE (t : string) (cols : list string) (id : Z)
| INSERT (t : string) (cols : list string) (id : Z)
| SELECT_games_without_pbp.

Definition is_insert (s : stmt) : bool :=
  match s with INSERT _ _ _ => true | _ => false end.

Definition is_update (s : stmt) : bool :=
  match s with UPDATE _ _ _ => true | _ => false end.

Inductive level : Type := DEBUG | INFO | WARNING | ERROR.

Record logrec : Type := {
  lvl : level;
  msg : string;
  exc : option exn
}.

(** A connection together with what the run has left behind: the database
    as its statements see it, the last committed database, the statements
    issued so far (oldest first), what went to the logger, and the
    play-by-play handlers whose body was entered. *)
Record conn : Type := {
  db : database;
  committed : database;
  trace : list stmt;
  logged : list logrec;
  entered : list string
}.

(** Code that runs against a connection and may raise. *)
Definition M (A : Type) : Type := conn → result A * conn.

#[global] Instance M_ret : MRet M := λ A a c, (Ok a, c).
#[global] Instance M_bind : MBind M := λ A B k m c,
  match m c with
  | (Ok a, c') => k a c'
  | (Raise e, c') => (Raise e, c')
  end.

Definition lift {A} (r : result A) : M A := λ c, (r, c).

Definition raise {A} (e : exn) : M A := λ c, (Raise e, c).

(** [try: body except Exception as e: handler(e)]. *)
Definition try_except {A} (body : M A) (handler : exn → M A) : M A := λ c,
  match body c with
  | (Ok a, c') => (Ok a, c')
  | (Raise e, c') => handler e c'
  end.

Definition logger (l : level) (m : string) (e : option exn) : M unit := λ c,
  (Ok (), {| db := db c; committed := committed c; trace := trace c;
             logged := logged c ++ [{| lvl := l; msg := m; exc := e |}];
             entered := entered c |}).

Definition issue (s : stmt) : M unit := λ c,
  (Ok (), {| db := db c; committed := committed c; trace := trace c ++ [s];
             logged := logged c; entered := entered c |}).

Definition get_db : M database := λ c, (Ok (db c), c).

Definition put_db (d : database) : M unit := λ c,
  (Ok (), {| db := d; committed := committed c; trace := trace c;
             logged := logged c; entered := entered c |}).

(** [conn.commit()] and [conn.rollback()]. *)
Definition commit : M unit := λ c,
  (Ok (), {| db := db c; committed := db c; trace := trace c;
             logged := logged c; entered := entered c |}).

Definition rollback : M unit := λ c,
  (Ok (), {| db := committed c; committed := committed c; trace := trace c;
             logged := logged c; entered := entered c |}).

(** Entering the body of a play-by-play handler. *)
Definition enter (h : string) : M unit := λ c,
  (Ok (), {| db := db c; committed := committed c; trace := trace c;
             logged := logged c; entered := entered c ++ [h] |}).

(** [cursor.execute("SELECT ... FROM t WHERE id = ?", (id,))] followed by
    [cursor.fetchone()]. *)
Definition select_by_id (t : string) (id : Z) : M (option row) :=
  issue (SELECT t id);;
  _ ← lift (bind_param (VInt id));
  d ← get_db;
  mret (get_table d t !! id).

(** [UPDATE t SET c1 = ?, ... WHERE id = ?]: the parameters are bound in
    the order of the statement, the named columns of the row with this id
    are overwritten and every other column and row is left as it is. *)
Definition exec_update (t : string) (cv : list (string * value)) (id : Z) : M unit :=
  issue (UPDATE t cv.*1 id);;
  bs ← lift (bind_params cv);
  _ ← lift (bind_param (VInt id));
  d ← get_db;
  match get_table d t !! id with
  | Some r => put_db (set_table d t (<[id := list_to_map bs ∪ r]> (get_table d t)))
  | None => mret ()
  end.

(** [INSERT INTO t (id, c1, ...) VALUES (?, ?, ...)]: a row whose id is
    taken violates the primary key. *)
Definition exec_insert (t : string) (id : Z) (cv : list (string * value)) : M unit :=
  issue (INSERT t ("id" :: cv.*1) id);;
  _ ← lift (bind_param (VInt id));
  bs ← lift (bind_params cv);
  d ← get_db;
  match get_table d t !! id with
  | Some _ => raise (Sqlite3Error IntegrityError)
  | None => put_db (set_table d t (<[id := list_to_map bs]> (get_table d t)))
  end.

(** A [for] loop that threads the loop-carried variables. *)
Fixpoint for_each {A S} (body : A → S → M S) (l : list A) (s : S) : M S :=
  match l with
  | [] => mret s
  | x :: l' => s' ← body x s; for_each body l' s'
  end.

(** ** [scrapers/basic_info.py] *)

Module basic_info.

(** One iteration of the loop of [update_leagues]. *)
Definition update_league (league : dict) (updated_count : Z) : M Z :=
  league_id ← lift (py_int (dict_get league "id" (VInt 0)));
  if league_id =? 0 then mret updated_count else
  let name := dict_get league "name" (VStr "") in
  let short_name := dict_get league "short_name" (VStr "") in
  let code := dict_get league "code" (VStr "") in
  let logo := dict_get league "logo_image" (VStr "") in
  exists_ ← select_by_id "leagues" league_id;
  (if exists_ is Some _ then
     exec_update "leagues"
       [("name", name); ("short_name", short_name); ("code", code); ("logo", logo)]
       league_id
   else
     exec_insert "leagues" league_id
       [("name", name); ("short_name", short_name); ("code", code); ("logo", logo)]);;
  mret (updated_count + 1).

Definition update_leagues (leagues_data : list dict) : M Z :=
  logger INFO "Updating leagues..." None;;
  updated_count ← for_each update_league leagues_data 0;
  commit;;
  logger INFO "Updated {updated_count} leagues" None;;
  mret updated_count.

(** One iteration of the loop of [update_conferences]. *)
Definition update_conference (conference : dict) (updated_count : Z) : M Z :=
  conf_id ← lift (py_int (dict_get conference "conference_id" (VInt 0)));
  if conf_id =? 0 then mret updated_count else
  let name := dict_get conference "conference_name" (VStr "") in
  exists_ ← select_by_id "conferences" conf_id;
  (if exists_ is Some _ then
     exec_update "conferences" [("name", name)] conf_id
   else
     exec_insert "conferences" conf_id [("name", name)]);;
  mret (updated_count + 1).

Definition update_conferences (conferences_data : list dict) : M Z :=
  logger INFO "Updating conferences..." None;;
  updated_count ← for_each update_conference conferences_data 0;
  commit;;
  logger INFO "Updated {updated_count} conferences" None;;
  mret updated_count.

(** One iteration of the loop of [update_divisions]. *)
Definition update_division (division : dict) (updated_count : Z) : M Z :=
  div_id ← lift (py_int (dict_get division "id" (VInt 0)));
  if div_id =? 0 then mret updated_count else
  let name := dict_get division "name" (VStr "") in
  exists_ ← select_by_id "divisions" div_id;
  (if exists_ is Some _ then
     exec_update "divisions" [("name", name)] div_id
   else
     exec_insert "divisions" div_id [("name", name)]);;
  mret (updated_count + 1).

Definition update_divisions (divisions_data : list dict) : M Z :=
  logger INFO "Updating divisions..." None;;
  updated_count ← for_each update_division divisions_data 0;
  commit;;
  logger INFO "Updated {updated_count} divisions" None;;
  mret updated_count.

(** [season.get("current", "0") == "1" or season.get("current") is True]. *)
Definition flagged_current (season : dict) : bool :=
  eq_str (dict_get season "current" (VStr "0")) "1" ||
  (if dict_lookup season "current" is Some (VBool true) then true else false).

(** The first loop of [update_seasons]: the id of the first season that
    carries the flag, [None] when none does. *)
Fixpoint find_current (seasons_data : list dict) : result (option Z) :=
  match seasons_data with
  | [] => Ok None
  | season :: rest =>
      if flagged_current season then
        id ← py_int (dict_get season "id" (VInt 0)); mret (Some id)
      else find_current rest
  end.

(** [int(season.get("id", 0)) for season in seasons_data]. *)
Fixpoint season_ids (seasons_data : list dict) : result (list Z) :=
  match seasons_data with
  | [] => Ok []
  | season :: rest =>
      id ← py_int (dict_get season "id" (VInt 0));
      ids ← season_ids rest;
      mret (id :: ids)
  end.

(** [max] of a sequence that is not empty. *)
Definition py_max (x : Z) (xs : list Z) : Z := fold_left Z.max xs x.

Definition current_season_id_of (seasons_data : list dict) : result (option Z) :=
  current_season_id ← find_current seasons_data;
  match current_season_id, seasons_data with
  | None, _ :: _ =>
      ids ← season_ids seasons_data;
      match ids with
      | x :: xs => mret (Some (py_max x xs))
      | [] => Raise ValueError
      end
  | _, _ => mret current_season_id
  end.

(** The column values [update_seasons] computes for one season whose id is
    [season_id]. *)
Definition season_columns (current_season_id : option Z) (season_id : Z)
    (season : dict) : result (list (string * value)) :=
  let name := dict_get season "name" (VStr "") in
  pre ← py_str_in "Preseason" name;
  season_type ←
    (if pre : bool then Ok "Preseason"
     else
       play ← py_str_in "Playoffs" name;
       Ok (if play : bool then "Playoffs" else "Regular Season"));
  sort ←
    match py_int (dict_get season "default_sort" (VInt 0)) with
    | Ok z => Ok z
    | Raise ValueError | Raise TypeError => Ok 0
    | Raise e => Raise e
    end;
  let current :=
    if bool_decide (current_season_id = Some season_id) then 1 else 0 in
  let hide_in_standings :=
    if truthy (dict_get season "hide_in_standings" VNone) then 1 else 0 in
  mret [("sort", VInt sort); ("name", name); ("type", VStr season_type);
        ("current", VInt current); ("hide_in_standings", VInt hide_in_standings)].

(** One iteration of the second loop of [update_seasons]. *)
Definition update_season (current_season_id : option Z) (season : dict)
    (updated_count : Z) : M Z :=
  season_id ← lift (py_int (dict_get season "id" (VInt 0)));
  if season_id =? 0 then mret updated_count else
  cols ← lift (season_columns current_season_id season_id season);
  exists_ ← select_by_id "seasons" season_id;
  (if exists_ is Some _ then
     exec_update "seasons" cols season_id
   else
     exec_insert "seasons" season_id (cols ++ [("start_date", VStr "")]));;
  mret (updated_count + 1).

Definition update_seasons (seasons_data : list dict) : M Z :=
  logger INFO "Updating seasons..." None;;
  current_season_id ← lift (current_season_id_of seasons_data);
  updated_count ← for_each (update_season current_season_id) seasons_data 0;
  commit;;
  logger INFO "Updated {updated_count} seasons" None;;
  mret updated_count.

End basic_info.

(** The shape the four loops above share: coerce the id, skip the entry when
    it is zero, compute the columns, look the id up, then update or insert. *)
Section upsert.
Variable t : string.
Variable key_of : dict → result Z.
Variable cols_of : Z → dict → result (list (string * value)).
Variable extra : list (string * value).

Definition upsert_step (e : dict) (n : Z) : M Z :=
  id ← lift (key_of e);
  if id =? 0 then mret n else
  cv ← lift (cols_of id e);
  exists_ ← select_by_id t id;
  (if exists_ is Some _ then exec_update t cv id
   else exec_insert t id (cv ++ extra));;
  mret (n + 1).

End upsert.

(** ** Subscripts, [len] and attribute calls on payload values *)

(** [v.get(k, default)]: only a dict has the method. *)
Definition py_get (v : value) (k : string) (default : value) : result value :=
  match v with
  | VDict d => Ok (dict_get d k default)
  | _ => Raise AttributeError
  end.

(** [v.strip()]: only a string has the method. *)
Definition py_strip (v : value) : result value :=
  match v with
  | VStr s => Ok (VStr (strip s))
  | _ => Raise AttributeError
  end.

(** [len(v)]. *)
Definition py_len (v : value) : result nat :=
  match v with
  | VStr s => Ok (List.length (chars s))
  | VList l => Ok (List.length l)
  | VDict d => Ok (List.length d)
  | VNone | VBool _ | VInt _ => Raise TypeError
  end.

(** [v[i]] for a literal index [i] that is not negative.  The keys of a
    payload dict are strings, so an integer is never among them. *)
Definition py_index (v : value) (i : nat) : result value :=
  match v with
  | VList l => if l !! i is Some x then Ok x else Raise IndexError
  | VStr s => if (chars s).*2 !! i is Some c then Ok (VStr c) else Raise IndexError
  | VDict _ => Raise KeyError
  | VNone | VBool _ | VInt _ => Raise TypeError
  end.

(** [v[k]] for a string key [k]. *)
Definition py_item (v : value) (k : string) : result value :=
  match v with
  | VDict d => if dict_lookup d k is Some x then Ok x else Raise KeyError
  | _ => Raise TypeError
  end.

(** What a [for] loop iterates over: the elements of a list, the keys of a
    dict, the characters of a string. *)
Definition py_iter (v : value) : result (list value) :=
  match v with
  | VList l => Ok l
  | VDict d => Ok (VStr <$> d.*1)
  | VStr s => Ok (VStr <$> (chars s).*2)
  | VNone | VBool _ | VInt _ => Raise TypeError
  end.

(** ** [scrapers/players.py] *)

Module players.
Section players.

(** The converters of [pwhl_scraper.utils.converters] that
    [extract_player_fields] calls are not part of the sources at hand; they
    are arbitrary functions that may raise. *)
Variable extract_hometown_parts : value → result (value * value).
Variable extract_team_id_from_url : value → result value.
Variable extract_height_weight : value → value → result (value * value).

(** The column names that [PRAGMA table_info(players)] reports. *)
Variable players_columns : list string.

Definition extract_player_fields (player_data : dict) : result (option dict) :=
  if negb (truthy (VDict player_data)) then Ok None else
  let player_info := dict_get player_data "info" (VDict []) in
  playerId ← py_get player_info "playerId" (VInt 0);
  player_id ← py_int playerId;
  firstName ← py_get player_info "firstName" (VStr "");
  first_name ← py_strip firstName;
  lastName ← py_get player_info "lastName" (VStr "");
  last_name ← py_strip lastName;
  player_type ← py_get player_info "playerType" VNone;
  position ← py_get player_info "position" VNone;
  let position_analysis :=
    if eq_str position "G" then "G"
    else if eq_str position "D" || eq_str position "LD" || eq_str position "RD" then "D"
    else if eq_str position "F" || eq_str position "C" || eq_str position "LW"
            || eq_str position "RW" then "F"
    else "" in
  birth_date ← py_get player_info "birthDate" VNone;
  height ← py_get player_info "height" VNone;
  weight ← py_get player_info "weight" VNone;
  shoots ← py_get player_info "shoots" VNone;
  catches ← py_get player_info "catches" VNone;
  biography ← py_get player_info "bio" VNone;
  jerseyNumber ← py_get player_info "jerseyNumber" VNone;
  jersey_number ←
    (if truthy jerseyNumber then
       match py_int jerseyNumber with
       | Ok z => Ok (VInt z)
       | Raise ValueError => Ok VNone
       | Raise e => Raise e
       end
     else Ok VNone);
  birth_place ← py_get player_info "birthPlace" (VStr "");
  '(hometown, hometown_div) ← extract_hometown_parts birth_place;
  nationality_obj ← py_get player_info "nationality" (VDict []);
  let nationality :=
    if nationality_obj is VDict d then dict_get d "name" (VStr "") else VStr "" in
  image_url ← py_get player_info "profileImage" VNone;
  let media_section := dict_get player_data "media" (VDict []) in
  let media_images :=
    if media_section is VDict d then dict_get d "images" (VList []) else VList [] in
  n1 ← py_len media_images;
  photo_1_url ←
    (if (0 <? n1)%nat then x ← py_index media_images 0; py_item x "url" else Ok VNone);
  n2 ← py_len media_images;
  photo_2_url ←
    (if (1 <? n2)%nat then x ← py_index media_images 1; py_item x "url" else Ok VNone);
  team_image_url ← py_get player_info "teamImage" VNone;
  team_id ← extract_team_id_from_url team_image_url;
  '(height_cm, weight_kg) ← extract_height_weight height weight;
  Ok (Some [
    ("id", VInt player_id);
    ("team_id", team_id);
    ("jersey_number", jersey_number);
    ("first_name", first_name);
    ("last_name", last_name);
    ("birth_date", birth_date);
    ("type", player_type);
    ("position", position);
    ("position_analysis", VStr position_analysis);
    ("shoots", shoots);
    ("catches", catches);
    ("height_cm", height_cm);
    ("weight_kg", weight_kg);
    ("height", height);
    ("weight", weight);
    ("hometown", hometown);
    ("hometown_div", hometown_div);
    ("nationality", nationality);
    ("biography", biography);
    ("image_url", image_url);
    ("photo_1_url", photo_1_url);
    ("photo_2_url", photo_2_url)]).

(** Fields that are not set to None or to an empty value once they hold a
    value. *)
Definition preserve_fields : list string :=
  ["hometown"; "hometown_div"; "nationality"; "weight_kg"; "height_cm"].

(** The loop that builds [changes]: [existing] is the row of the player and
    [id] its key. *)
Fixpoint changes_of (fields : dict) (id : Z) (existing : row)
    (columns : list string) : dict :=
  match columns with
  | [] => []
  | column :: rest =>
      let more := changes_of fields id existing rest in
      match dict_lookup fields column with
      | Some v =>
          if bool_decide (column ∈ preserve_fields) then
            if truthy v && negb (py_eq_cell v (cell id existing column))
            then (column, v) :: more else more
          else if negb (py_eq_cell v (cell id existing column))
            then (column, v) :: more else more
      | None => more
      end
  end.

(** [fields["id"]] is the [int] that [extract_player_fields] has put there.
    The INSERT names every key of [fields] as a column: SQLite refuses the
    statement with [OperationalError] when the table lacks one of them. *)
Definition update_player (player_data : dict) : M bool :=
  fields ← lift (extract_player_fields player_data);
  match fields with
  | None => mret false
  | Some fields =>
      match dict_lookup fields "id" with
      | Some (VInt player_id) =>
          existing_player ← select_by_id "players" player_id;
          match existing_player with
          | None =>
              let cv := filter (λ kv, kv.1 ≠ "id") fields in
              (if forallb (λ k, bool_decide (k ∈ players_columns)) fields.*1 then
                 exec_insert "players" player_id cv
               else
                 issue (INSERT "players" ("id" :: cv.*1) player_id);;
                 raise (Sqlite3Error OperationalError));;
              commit;;
              logger INFO "Added new player: {first_name} {last_name} (ID: {player_id})" None;;
              mret true
          | Some existing =>
              issue (PRAGMA_table_info "players");;
              let changes := changes_of fields player_id existing players_columns in
              if truthy (VDict changes) then
                exec_update "players" changes player_id;;
                commit;;
                logger INFO "Updated player: {first_name} {last_name} (ID: {player_id})" None;;
                logger DEBUG "Fields changed: {changes}" None;;
                mret true
              else
                logger DEBUG "No changes needed for player ID {player_id}" None;;
                mret false
          end
      | _ => raise KeyError
      end
  end.

End players.
End players.

(** ** [scrapers/play_by_play.py] *)

Module play_by_play.

(** What a name can be bound to. *)
Inductive object : Type :=
| OValue (v : value)
| OConnection
| OClient
| OLogger
| OModule
| OFunction (name : string).

Abbreviation namespace := (list (string * object)).

Fixpoint ns_lookup (ns : namespace) (n : string) : option object :=
  match ns with
  | [] => None
  | (k, o) :: ns' => if String.eqb k n then Some o else ns_lookup ns' n
  end.

(** The names bound at the top level of the module: its imports, its
    logger and its functions. *)
Definition module_globals : namespace :=
  [("sqlite3", OModule); ("logging", OModule);
   ("Dict", OModule); ("Any", OModule); ("List", OModule);
   ("Optional", OModule); ("Tuple", OModule);
   ("PWHLApiClient", OFunction "PWHLApiClient");
   ("create_connection", OFunction "create_connection");
   ("execute_query", OFunction "execute_query");
   ("fetch_one", OFunction "fetch_one");
   ("fetch_all", OFunction "fetch_all");
   ("logger", OLogger);
   ("process_game_play_by_play", OFunction "process_game_play_by_play");
   ("get_game_teams", OFunction "get_game_teams");
   ("process_goalie_change", OFunction "process_goalie_change");
   ("process_faceoff", OFunction "process_faceoff");
   ("process_hit", OFunction "process_hit");
   ("process_shot", OFunction "process_shot");
   ("process_blocked_shot", OFunction "process_blocked_shot");
   ("process_goal", OFunction "process_goal");
   ("process_goal_plus_players", OFunction "process_goal_plus_players");
   ("process_goal_minus_players", OFunction "process_goal_minus_players");
   ("process_penalty", OFunction "process_penalty");
   ("process_shootout", OFunction "process_shootout");
   ("get_games_without_play_by_play", OFunction "get_games_without_play_by_play");
   ("get_season_id_for_game", OFunction "get_season_id_for_game");
   ("update_play_by_play", OFunction "update_play_by_play")].

(** The builtins the module refers to (no builtin is called
    [home_team_id] or [away_team_id]). *)
Definition builtins : namespace :=
  [("int", OFunction "int"); ("len", OFunction "len"); ("str", OFunction "str");
   ("Exception", OFunction "Exception")].

(** Reading a name inside a function: its local variables, then the module,
    then the builtins; [NameError] when none binds it. *)
Definition lookup_name (locals : namespace) (n : string) : result object :=
  match ns_lookup locals n with
  | Some o => Ok o
  | None =>
      match ns_lookup module_globals n with
      | Some o => Ok o
      | None =>
          match ns_lookup builtins n with
          | Some o => Ok o
          | None => Raise (NameError n)
          end
      end
  end.

Fixpoint lookup_names (locals : namespace) (ns : list string) : result (list object) :=
  match ns with
  | [] => Ok []
  | n :: ns' =>
      o ← lookup_name locals n;
      os ← lookup_names locals ns';
      mret (o :: os)
  end.

(** The eight event kinds and the handler of each. *)
Definition handler_of (event_type : value) : option string :=
  if eq_str event_type "goalie_change" then Some "process_goalie_change"
  else if eq_str event_type "faceoff" then Some "process_faceoff"
  else if eq_str event_type "hit" then Some "process_hit"
  else if eq_str event_type "shot" then Some "process_shot"
  else if eq_str event_type "blocked_shot" then Some "process_blocked_shot"
  else if eq_str event_type "goal" then Some "process_goal"
  else if eq_str event_type "penalty" then Some "process_penalty"
  else if eq_str event_type "shootout" then Some "process_shootout"
  else None.

Definition pbp_table_names : list string :=
  ["pbp_faceoffs"; "pbp_shots"; "pbp_goals"; "pbp_hits"; "pbp_penalties";
   "pbp_blocked_shots"; "pbp_goalie_changes"; "pbp_shootouts"].

(** [SELECT DISTINCT game_id FROM t]. *)
Definition distinct_game_ids (d : database) (t : string) : list sqlval :=
  remove_dups ((λ kr, default SNull (kr.2 !! "game_id")) <$> map_to_list (get_pbp d t)).

(** The [UNION] of the eight selections. *)
Definition pbp_game_ids (d : database) : list sqlval :=
  remove_dups (mjoin (distinct_game_ids d <$> pbp_table_names)).

(** [games g LEFT JOIN pbp ON g.id = pbp.game_id]: a game that matches no
    [pbp] row is kept once, with NULL for [pbp.game_id]. *)
Definition left_join (games : list (Z * row)) (ids : list sqlval)
    : list ((Z * row) * sqlval) :=
  g ← games;
  let matches := filter (λ x, x = SInt g.1) ids in
  if matches is [] then [(g, SNull)] else (λ m, (g, m)) <$> matches.

(** [WHERE pbp.game_id IS NULL AND g.status = 'Final']. *)
Definition where_clause (j : (Z * row) * sqlval) : bool :=
  bool_decide (j.2 = SNull) && bool_decide (cell j.1.1 j.1.2 "status" = SText "Final").

(** [ORDER BY g.id]. *)
Definition id_le (a b : Z * sqlval) : Prop := a.1 ≤ b.1.

#[global] Instance id_le_dec : RelDecision id_le.
Proof. intros a b. unfold id_le. apply _. Defined.

Definition order_by_id (l : list (Z * sqlval)) : list (Z * sqlval) :=
  merge_sort id_le l.

Definition games_without_play_by_play (d : database) : list (Z * sqlval) :=
  order_by_id
    ((λ j, (j.1.1, cell j.1.1 j.1.2 "season_id")) <$>
       filter (λ j, where_clause j = true)
         (left_join (map_to_list (get_table d "games")) (pbp_game_ids d))).

Definition get_games_without_play_by_play : M (list (Z * sqlval)) :=
  issue SELECT_games_without_pbp;;
  d ← get_db;
  mret (games_without_play_by_play d).

(** [get_game_teams]: what [SELECT home_team, visiting_team FROM games
    WHERE id = ?] fetches, or a pair of [None]. *)
Definition get_game_teams (game_id : Z) : M (value * value) :=
  result_ ← select_by_id "games" game_id;
  match result_ with
  | Some r => mret (py_of_sql (cell game_id r "home_team"),
                    py_of_sql (cell game_id r "visiting_team"))
  | None => mret (VNone, VNone)
  end.

(** The local variables of [process_game_play_by_play] when its loop over
    the events starts. *)
Definition function_locals (game_id season_id : Z)
    (pbp_data home_team visiting_team events : value) : namespace :=
  [("total_processed", OValue (VInt 0)); ("events", OValue events);
   ("visiting_team", OValue visiting_team); ("home_team", OValue home_team);
   ("pbp_data", OValue pbp_data); ("client", OClient);
   ("season_id", OValue (VInt season_id)); ("game_id", OValue (VInt game_id));
   ("conn", OConnection)].

Section dispatch.

(** What the API client returns for [fetch_play_by_play(game_id)]. *)
Variable fetch_play_by_play : Z → value.

(** The body of each of the eight handlers, by the name of the handler: it
    receives the arguments of the call, runs against the connection and
    returns a bool or raises. *)
Variable handler_body : string → list object → M bool.

(** A call [h(conn, event, game_id, season_id, home_team_id, away_team_id)]:
    the callee and the arguments are read first, then the body runs. *)
Definition call_handler (locals : namespace) (h : string) : M bool :=
  _ ← lift (lookup_name locals h);
  args ← lift (lookup_names locals
            ["conn"; "event"; "game_id"; "season_id"; "home_team_id"; "away_team_id"]);
  enter h;;
  handler_body h args.

(** One iteration of the loop over the events; [locals] holds what the
    function has bound before the loop. *)
Definition process_event (locals : namespace) (event : value)
    (total_processed : Z) : M Z :=
  event_type ← lift (py_get event "event" VNone);
  let locals := ("event_type", OValue event_type) :: ("event", OValue event) :: locals in
  try_except
    (match handler_of event_type with
     | Some h =>
         ok ← call_handler locals h;
         mret (if ok : bool then total_processed + 1 else total_processed)
     | None => mret total_processed
     end)
    (λ e,
       logger ERROR "Error processing {event_type} event in game {game_id}: {e}" (Some e);;
       mret total_processed).

Definition process_game_play_by_play (game_id season_id : Z) : M Z :=
  let pbp_data := fetch_play_by_play game_id in
  has_gc ← lift (if truthy pbp_data then py_str_in "GC" pbp_data else Ok false);
  has_pxp ← lift (if has_gc : bool then
                    gc ← py_item pbp_data "GC"; py_str_in "Pxpverbose" gc
                  else Ok false);
  if negb has_pxp then
    logger WARNING "No play-by-play data found for game {game_id}" None;;
    mret 0
  else
    '(home_team, visiting_team) ← get_game_teams game_id;
    if negb (truthy home_team) || negb (truthy visiting_team) then
      logger ERROR "Could not determine teams for game {game_id}" None;;
      mret 0
    else
      gc ← lift (py_item pbp_data "GC");
      events ← lift (py_item gc "Pxpverbose");
      let locals :=
        function_locals game_id season_id pbp_data home_team visiting_team events in
      event_list ← lift (py_iter events);
      total_processed ← for_each (process_event locals) event_list 0;
      commit;;
      logger INFO "Processed {total_processed} events for game {game_id}" None;;
      mret total_processed.

End dispatch.
End play_by_play.

(** ** [database/db_manager.py] *)

Module db_manager.
Section driver.

(** The driver: what [cursor.execute(query, params)] and
    [cursor.executemany(query, params_list)] do to the database, with the
    row count they leave in the cursor or the exception they raise, and
    whether [conn.commit()] fails. *)
Variable driver_execute : string → list value → database → result Z * database.
Variable driver_executemany : string → list (list value) → database → result Z * database.
Variable driver_commit_error : database → option exn.

Definition cursor_execute (query : string) (params : list value) : M Z := λ c,
  let '(r, d) := driver_execute query params (db c) in
  (r, {| db := d; committed := committed c; trace := trace c;
         logged := logged c; entered := entered c |}).

Definition cursor_executemany (query : string) (params_list : list (list value)) : M Z := λ c,
  let '(r, d) := driver_executemany query params_list (db c) in
  (r, {| db := d; committed := committed c; trace := trace c;
         logged := logged c; entered := entered c |}).

Definition conn_commit : M unit := λ c,
  match driver_commit_error (db c) with
  | Some e => (Raise e, c)
  | None => commit c
  end.

(** [try: body except sqlite3.Error as e: handler(e)]: any other exception
    passes through. *)
Definition try_except_sqlite3 {A} (body : M A) (handler : exn → M A) : M A := λ c,
  match body c with
  | (Ok a, c') => (Ok a, c')
  | (Raise e, c') => if is_sqlite3_error e then handler e c' else (Raise e, c')
  end.

Definition execute_query (query : string) (params : option (list value)) : M Z :=
  try_except_sqlite3
    (rowcount ←
       (match params with
        | Some (p :: ps) => cursor_execute query (p :: ps)
        | Some [] | None => cursor_execute query []
        end);
     conn_commit;;
     mret rowcount)
    (λ e,
       logger ERROR "Query execution error: {e}" (Some e);;
       logger DEBUG "Query: {query}" None;;
       (match params with
        | Some (_ :: _) => logger DEBUG "Parameters: {params}" None
        | Some [] | None => mret ()
        end);;
       rollback;;
       raise e).

Definition execute_many (query : string) (params_list : list (list value)) : M Z :=
  try_except_sqlite3
    (rowcount ← cursor_executemany query params_list;
     conn_commit;;
     mret rowcount)
    (λ e,
       logger ERROR "Executemany error: {e}" (Some e);;
       logger DEBUG "Query: {query}" None;;
       logger DEBUG "Parameter count: {len(params_list)}" None;;
       rollback;;
       raise e).

End driver.
End db_manager.

Definition empty_db : database := {| tables := ∅; pbp := ∅ |}.
Definition fresh_conn (d : database) : conn :=
  {| db := d; committed := d; trace := []; logged := []; entered := [] |}.

(** ** The other functions of [scrapers/basic_info.py] *)

(** [str.lower] on the ASCII letters. *)
Definition lower_ascii (a : ascii) : ascii :=
  let n := nat_of_ascii a in
  if ((65 <=? n)%nat && (n <=? 90)%nat) then ascii_of_nat (n + 32) else a.

Fixpoint str_lower (s : string) : string :=
  match s with
  | String a s' => String (lower_ascii a) (str_lower s')
  | EmptyString => EmptyString
  end.

(** [v.lower()]: only a string has the method. *)
Definition py_lower (v : value) : result string :=
  match v with
  | VStr s => Ok (str_lower s)
  | _ => Raise AttributeError
  end.

Module basic_info_rest.

(** [int(team.get("division_id", 0))], or [None] when the value does not
    coerce. *)
Definition team_division_id (team : dict) : result (option Z) :=
  match py_int (dict_get team "division_id" (VInt 0)) with
  | Ok z => Ok (Some z)
  | Raise ValueError | Raise TypeError => Ok None
  | Raise e => Raise e
  end.

(** The conference of a division: what
    [SELECT conference_id FROM divisions WHERE id = ?] fetches, when it
    fetches a row whose first cell is truthy. *)
Definition lookup_conference (division_id : option Z) : M value :=
  match division_id with
  | Some d =>
      if d =? 0 then mret VNone
      else
        result_ ← select_by_id "divisions" d;
        match result_ with
        | Some r =>
            let v := py_of_sql (cell d r "conference_id") in
            mret (if truthy v then v else VNone)
        | None => mret VNone
        end
  | None => mret VNone
  end.

(** Whether the entry is the "All Teams" dummy: ["all"] occurs in the
    lowered id or, failing that, in the lowered name. *)
Definition is_all_teams (team : dict) : result bool :=
  id_lower ← py_lower (dict_get team "id" (VStr ""));
  if str_contains "all" id_lower then Ok true
  else
    name_lower ← py_lower (dict_get team "name" (VStr ""));
    Ok (str_contains "all" name_lower).

(** One iteration of the loop of [update_teams]. *)
Definition update_team (league_id : Z) (team : dict) (updated_count : Z) : M Z :=
  skip ← lift (is_all_teams team);
  if skip : bool then mret updated_count else
  match py_int (dict_get team "id" (VInt 0)) with
  | Raise ValueError | Raise TypeError => mret updated_count
  | Raise e => raise e
  | Ok team_id =>
      if team_id =? 0 then mret updated_count else
      let name := dict_get team "name" (VStr "") in
      let nickname := dict_get team "nickname" (VStr "") in
      let code := dict_get team "team_code" (VStr "") in
      let city := dict_get team "city" (VStr "") in
      let logo := dict_get team "logo" (VStr "") in
      division_id ← lift (team_division_id team);
      conference_id ← lookup_conference division_id;
      exists_ ← select_by_id "teams" team_id;
      let cols :=
        [("name", name); ("nickname", nickname); ("code", code); ("city", city);
         ("logo", logo); ("league_id", VInt league_id);
         ("conference_id", conference_id);
         ("division_id", if division_id is Some d then VInt d else VNone)] in
      (if exists_ is Some _ then exec_update "teams" cols team_id
       else exec_insert "teams" team_id cols);;
      mret (updated_count + 1)
  end.

Definition update_teams (teams_data : list dict) (season_id league_id : Z) : M Z :=
  logger INFO "Updating teams for season {season_id}..." None;;
  updated_count ← for_each (update_team league_id) teams_data 0;
  commit;;
  logger INFO "Updated {updated_count} teams" None;;
  mret updated_count.

(** [SELECT id FROM seasons WHERE current = 1]: the ids of the flagged
    rows, in the order of a scan of the table (by id). *)
Definition select_current_ids (d : database) : list Z :=
  merge_sort Z.le
    (filter (λ kr, kr.2 !! "current" = Some (SInt 1))
       (map_to_list (get_table d "seasons"))).*1.

(** [SELECT id FROM seasons ORDER BY id DESC LIMIT 1]. *)
Definition select_highest_id (d : database) : option Z :=
  last (merge_sort Z.le (map_to_list (get_table d "seasons")).*1).

(** [get_current_season_id]; the two SELECTs only read. *)
Definition get_current_season_id : M (option Z) :=
  d ← get_db;
  match select_current_ids d with
  | id :: _ => mret (Some id)
  | [] => mret (select_highest_id d)
  end.

End basic_info_rest.

(** ** The other functions of [scrapers/play_by_play.py] *)

(** [l[:n]]: the first [n] elements, or all but the last [-n] when [n] is
    negative. *)
Definition py_slice_to {A} (l : list A) (n : Z) : list A :=
  if 0 <=? n then take (Z.to_nat n) l
  else take (Z.to_nat (Z.of_nat (List.length l) + n)) l.

(** [try: body finally: cleanup]. *)
Definition try_finally {A} (body : M A) (cleanup : M unit) : M A := λ c,
  let '(r, c1) := body c in
  match cleanup c1 with
  | (Ok _, c2) => (r, c2)
  | (Raise e, c2) => (Raise e, c2)
  end.

(** [conn.close()]: what has not been committed is lost. *)
Definition close : M unit := λ c,
  (Ok (), {| db := committed c; committed := committed c; trace := trace c;
             logged := logged c; entered := entered c |}).

Module play_by_play_rest.
Import play_by_play.

(** [get_season_id_for_game]. *)
Definition get_season_id_for_game (game_id : Z) : M value :=
  result_ ← select_by_id "games" game_id;
  match result_ with
  | Some r => mret (py_of_sql (cell game_id r "season_id"))
  | None => mret VNone
  end.

(** The local variables of [process_game_play_by_play] when it is called
    with the season the games table holds, whatever its type. *)
Definition function_locals_v (game_id : Z)
    (season_id pbp_data home_team visiting_team events : value) : namespace :=
  [("total_processed", OValue (VInt 0)); ("events", OValue events);
   ("visiting_team", OValue visiting_team); ("home_team", OValue home_team);
   ("pbp_data", OValue pbp_data); ("client", OClient);
   ("season_id", OValue season_id); ("game_id", OValue (VInt game_id));
   ("conn", OConnection)].

Section update.

Variable fetch_play_by_play : Z → value.
Variable handler_body : string → list object → M bool.

(** [process_game_play_by_play] as [update_play_by_play] calls it: with the
    season read from the games table. *)
Definition process_game_play_by_play_v (game_id : Z) (season_id : value) : M Z :=
  let pbp_data := fetch_play_by_play game_id in
  has_gc ← lift (if truthy pbp_data then py_str_in "GC" pbp_data else Ok false);
  has_pxp ← lift (if has_gc : bool then
                    gc ← py_item pbp_data "GC"; py_str_in "Pxpverbose" gc
                  else Ok false);
  if negb has_pxp then
    logger WARNING "No play-by-play data found for game {game_id}" None;;
    mret 0
  else
    '(home_team, visiting_team) ← get_game_teams game_id;
    if negb (truthy home_team) || negb (truthy visiting_team) then
      logger ERROR "Could not determine teams for game {game_id}" None;;
      mret 0
    else
      gc ← lift (py_item pbp_data "GC");
      events ← lift (py_item gc "Pxpverbose");
      let locals :=
        function_locals_v game_id season_id pbp_data home_team visiting_team events in
      event_list ← lift (py_iter events);
      total_processed ← for_each (process_event handler_body locals) event_list 0;
      commit;;
      logger INFO "Processed {total_processed} events for game {game_id}" None;;
      mret total_processed.

(** The body of the loop over the games to process. *)
Definition process_listed_game (g : Z * sqlval) (total_processed : Z) : M Z :=
  let '(game_id, season_id) := g in
  events_processed ← process_game_play_by_play_v game_id (py_of_sql season_id);
  logger INFO "Processed game {game_id}: {events_processed} events" None;;
  mret (total_processed + events_processed).

(** The branch of one game: [if game_id:]. *)
Definition process_one_game (game_id : Z) : M Z :=
  season_id ← get_season_id_for_game game_id;
  if truthy season_id then
    events_processed ← process_game_play_by_play_v game_id season_id;
    logger INFO "Processed game {game_id}: {events_processed} events" None;;
    mret (0 + events_processed)
  else
    logger ERROR "Could not find season_id for game {game_id}" None;;
    mret 0.

(** [games_to_process[:limit]] under [if limit:]. *)
Definition limited {A} (limit : option Z) (games_to_process : list A) : list A :=
  match limit with
  | Some l => if l =? 0 then games_to_process else py_slice_to games_to_process l
  | None => games_to_process
  end.

(** The branch of the games without play-by-play data. *)
Definition process_backlog (limit : option Z) : M Z :=
  games_to_process ← get_games_without_play_by_play;
  logger INFO "Found {len(games_to_process)} games without play-by-play data" None;;
  for_each process_listed_game (limited limit games_to_process) 0.

(** [update_play_by_play], on the connection that [create_connection] has
    opened; a [game_id] of 0 is as good as none. *)
Definition update_play_by_play (game_id limit : option Z) : M Z :=
  try_finally
    (try_except
       (match game_id with
        | Some g => if g =? 0 then process_backlog limit else process_one_game g
        | None => process_backlog limit
        end)
       (λ e,
          logger ERROR "Error updating play-by-play data: {e}" (Some e);;
          rollback;;
          raise e))
    close.

End update.
End play_by_play_rest.

(** ** The other function of [scrapers/players.py] *)

(** The counters of [update_players]. *)
Record stats : Type := {
  players_checked : Z;
  players_found : Z;
  players_added_or_updated : Z
}.

(** Where a block of statements has got to: the variables it has set, the
    exception that has ended it, if any, and the connection. *)
Abbreviation outcome := ((stats * option exn) * conn)%type.

(** A [for] loop whose variables are read after an exception has ended it. *)
Fixpoint for_each_keep {A} (body : A → stats → conn → outcome) (l : list A)
    (st : stats) (c : conn) : outcome :=
  match l with
  | [] => ((st, None), c)
  | x :: l' =>
      match body x st c with
      | ((st', None), c') => for_each_keep body l' st' c'
      | stopped => stopped
      end
  end.

Module players_rest.
Section players_rest.

Variable extract_hometown_parts : value → result (value * value).
Variable extract_team_id_from_url : value → result value.
Variable extract_height_weight : value → value → result (value * value).
Variable players_columns : list string.

(** What the API client returns for [fetch_player_info(player_id)]. *)
Variable fetch_player_info : Z → value.

(** [update_player] on a payload of any type: an empty payload has no
    fields, and only a dict has the method [get]. *)
Definition update_player_v (player_data : value) : M bool :=
  if negb (truthy player_data) then mret false else
  match player_data with
  | VDict d =>
      players.update_player extract_hometown_parts extract_team_id_from_url
        extract_height_weight players_columns d
  | _ => raise AttributeError
  end.

(** The branch of one player: [players_checked] is set after the update. *)
Definition check_one_player (player_id : Z) (c : conn) : outcome :=
  let player_data := fetch_player_info player_id in
  if truthy player_data then
    match update_player_v player_data c with
    | (Ok true, c') =>
        (({| players_checked := 1; players_found := 1;
             players_added_or_updated := 1 |}, None), c')
    | (Ok false, c') =>
        (({| players_checked := 1; players_found := 1;
             players_added_or_updated := 0 |}, None), c')
    | (Raise e, c') =>
        (({| players_checked := 0; players_found := 1;
             players_added_or_updated := 0 |}, Some e), c')
    end
  else
    (({| players_checked := 1; players_found := 0;
         players_added_or_updated := 0 |}, None), c).

(** One iteration of the loop over [range(max_id + 1)]. *)
Definition check_player (pid : Z) (st : stats) (c : conn) : outcome :=
  let checked := players_checked st + 1 in
  let c1 :=
    if pid `mod` 20 =? 0 then
      (logger INFO "Progress: Checking player ID {pid}/{max_id} ({elapsed:.1f} seconds elapsed)"
         None c).2
    else c in
  let player_data := fetch_player_info pid in
  if truthy player_data then
    let found := players_found st + 1 in
    match update_player_v player_data c1 with
    | (Ok true, c') =>
        (({| players_checked := checked; players_found := found;
             players_added_or_updated := players_added_or_updated st + 1 |}, None), c')
    | (Ok false, c') =>
        (({| players_checked := checked; players_found := found;
             players_added_or_updated := players_added_or_updated st |}, None), c')
    | (Raise e, c') =>
        (({| players_checked := checked; players_found := found;
             players_added_or_updated := players_added_or_updated st |}, Some e), c')
    end
  else
    (({| players_checked := checked; players_found := players_found st;
         players_added_or_updated := players_added_or_updated st |}, None), c1).

(** The [try] block of [update_players]; [player_id is not None] lets the
    id 0 through. *)
Definition check_players (player_id : option Z) (max_id : Z) (c : conn) : outcome :=
  match player_id with
  | Some pid => check_one_player pid c
  | None =>
      for_each_keep check_player (seqZ 0 (max_id + 1))
        {| players_checked := 0; players_found := 0; players_added_or_updated := 0 |} c
  end.

(** [update_players], on the connection that [sqlite3.connect] has opened:
    the exception of the [try] block is logged and rolled back, not raised
    again. *)
Definition update_players (player_id : option Z) (max_id : Z) : M Z := λ c,
  let '((st, e), c1) := check_players player_id max_id c in
  ((match e with
    | Some e => logger ERROR "Error updating players: {e}" (Some e);; rollback
    | None => mret ()
    end);;
   logger INFO "Player data update summary:" None;;
   logger INFO "- Time elapsed: {elapsed:.2f} seconds" None;;
   logger INFO "- Players checked: {players_checked}" None;;
   logger INFO "- Players found in API: {players_found}" None;;
   logger INFO "- Players added or updated: {players_added_or_updated}" None;;
   close;;
   mret (players_added_or_updated st)) c1.

End players_rest.
End players_rest.

(** ** The other helpers of [database/db_manager.py] *)

Module db_manager_rest.
Import db_manager.
Section driver.

Variable driver_execute : string → list value → database → result Z * database.
Variable driver_commit_error : database → option exn.

Local Abbreviation cursor_execute := (db_manager.cursor_execute driver_execute).
Local Abbreviation conn_commit := (db_manager.conn_commit driver_commit_error).

(** The wrapper that [with_transaction(func)] returns; [func] stands for
    the call [func(conn, *args, **kwargs)]. *)
Definition with_transaction {A} (func : M A) : M A :=
  try_except
    (cursor_execute "BEGIN TRANSACTION" [];;
     result_ ← func;
     conn_commit;;
     mret result_)
    (λ e, rollback;; raise e).

Definition create_table (table_name schema : string) : M unit :=
  try_except_sqlite3
    (cursor_execute schema [];;
     conn_commit;;
     logger INFO "Table {table_name} created or already exists" None)
    (λ e,
       logger ERROR "Table creation error for {table_name}: {e}" (Some e);;
       rollback;;
       raise e).

(** One iteration of the loop of [create_indexes]. *)
Definition create_index (index_sql : string) (_ : unit) : M unit :=
  try_except_sqlite3
    (cursor_execute index_sql [];;
     logger DEBUG "Index created or already exists: {index_sql}" None)
    (λ e,
       logger ERROR "Index creation error: {e}" (Some e);;
       logger DEBUG "Index SQL: {index_sql}" None).

Definition create_indexes (indexes : list string) : M unit :=
  for_each create_index indexes ();;
  conn_commit.

(** [DB_SCHEMA] of [pwhl_scraper.database.models], which is not part of the
    sources at hand: the tables with their schema and the groups of index
    statements, in the order of the dicts. *)
Variable schema_tables : list (string * string).
Variable schema_indexes : list (string * list string).

(** [setup_database], on the connection that [create_connection] has
    opened. *)
Definition setup_database : M unit :=
  logger INFO "Setting up database at {db_path}" None;;
  try_finally
    (try_except_sqlite3
       (for_each
          (λ '(table_name, schema) _,
             create_table table_name schema;;
             logger INFO "Created table: {table_name}" None)
          schema_tables ();;
        for_each
          (λ '(index_group, index_list) _,
             logger INFO "Creating indexes for {index_group}" None;;
             create_indexes index_list)
          schema_indexes ();;
        logger INFO "Database setup complete" None)
       (λ e,
          logger ERROR "Database setup failed: {e}" (Some e);;
          raise e))
    close.

End driver.
End db_manager_rest.

(** ** [update_basic_info] *)

(** The five functions above on the payloads as the API returns them:
    whatever [bootstrap_data.get("leagues", [])] and the like hold is
    iterated over, and each loop body starts with [entry.get(...)], which
    only a dict has. *)
Definition on_dict {S} (body : dict → S → M S) (entry : value) (s : S) : M S :=
  match entry with
  | VDict d => body d s
  | _ => raise AttributeError
  end.

Module basic_info_update.
Import basic_info basic_info_rest.

Definition update_leagues_v (leagues_data : value) : M Z :=
  logger INFO "Updating leagues..." None;;
  updated_count ←
    (entries ← lift (py_iter leagues_data);
     for_each (on_dict update_league) entries 0);
  commit;;
  logger INFO "Updated {updated_count} leagues" None;;
  mret updated_count.

Definition update_conferences_v (conferences_data : value) : M Z :=
  logger INFO "Updating conferences..." None;;
  updated_count ←
    (entries ← lift (py_iter conferences_data);
     for_each (on_dict update_conference) entries 0);
  commit;;
  logger INFO "Updated {updated_count} conferences" None;;
  mret updated_count.

Definition update_divisions_v (divisions_data : value) : M Z :=
  logger INFO "Updating divisions..." None;;
  updated_count ←
    (entries ← lift (py_iter divisions_data);
     for_each (on_dict update_division) entries 0);
  commit;;
  logger INFO "Updated {updated_count} divisions" None;;
  mret updated_count.

(** The two scans of [update_seasons] for the current season. *)
Fixpoint find_current_v (entries : list value) : result (option Z) :=
  match entries with
  | [] => Ok None
  | VDict season :: rest =>
      if flagged_current season then
        id ← py_int (dict_get season "id" (VInt 0)); mret (Some id)
      else find_current_v rest
  | _ :: _ => Raise AttributeError
  end.

Fixpoint season_ids_v (entries : list value) : result (list Z) :=
  match entries with
  | [] => Ok []
  | VDict season :: rest =>
      id ← py_int (dict_get season "id" (VInt 0));
      ids ← season_ids_v rest;
      mret (id :: ids)
  | _ :: _ => Raise AttributeError
  end.

Definition current_season_id_of_v (seasons_data : value) : result (option Z) :=
  entries ← py_iter seasons_data;
  current_season_id ← find_current_v entries;
  match current_season_id with
  | None =>
      if truthy seasons_data then
        entries ← py_iter seasons_data;
        ids ← season_ids_v entries;
        match ids with
        | x :: xs => mret (Some (py_max x xs))
        | [] => Raise ValueError
        end
      else mret None
  | Some _ => mret current_season_id
  end.

Definition update_seasons_v (seasons_data : value) : M Z :=
  logger INFO "Updating seasons..." None;;
  updated_count ←
    (current_season_id ← lift (current_season_id_of_v seasons_data);
     entries ← lift (py_iter seasons_data);
     for_each (on_dict (update_season current_season_id)) entries 0);
  commit;;
  logger INFO "Updated {updated_count} seasons" None;;
  mret updated_count.

Definition update_teams_v (teams_data : value) (season_id league_id : Z) : M Z :=
  logger INFO "Updating teams for season {season_id}..." None;;
  updated_count ←
    (entries ← lift (py_iter teams_data);
     for_each (on_dict (update_team league_id)) entries 0);
  commit;;
  logger INFO "Updated {updated_count} teams" None;;
  mret updated_count.

Section client.

(** What the API client returns for [fetch_basic_info()],
    [fetch_seasons_list()] and [fetch_teams_by_season(season_id)]. *)
Variable fetch_basic_info : value.
Variable fetch_seasons_list : value.
Variable fetch_teams_by_season : Z → value.

(** The bootstrap data: leagues, conferences and divisions, and the league
    the teams are filed under. *)
Definition update_bootstrap : M (Z * Z) :=
  let bootstrap_data := fetch_basic_info in
  if truthy bootstrap_data then
    leagues_data ← lift (py_get bootstrap_data "leagues" (VList []));
    leagues ← update_leagues_v leagues_data;
    conferences_data ← lift (py_get bootstrap_data "conferences" (VList []));
    conferences ← update_conferences_v conferences_data;
    divisions_data ← lift (py_get bootstrap_data "divisions" (VList []));
    divisions ← update_divisions_v divisions_data;
    current_league_id ← lift (py_get bootstrap_data "current_league_id" (VInt 1));
    league_id ← lift (py_int current_league_id);
    mret (0 + leagues + conferences + divisions, league_id)
  else
    logger ERROR "Failed to fetch bootstrap data" None;;
    mret (0, 1).

Definition update_seasons_list (total_updated : Z) : M Z :=
  let seasons_response := fetch_seasons_list in
  if truthy seasons_response then
    seasons_data ← lift (py_get seasons_response "seasons" (VList []));
    seasons ← update_seasons_v seasons_data;
    mret (total_updated + seasons)
  else
    logger ERROR "Failed to fetch seasons data" None;;
    mret total_updated.

(** The teams of the season that the seasons table gives as current. *)
Definition update_current_teams (total_updated league_id : Z) : M Z :=
  current_season_id ← get_current_season_id;
  match current_season_id with
  | Some season_id =>
      if season_id =? 0 then
        logger ERROR "No current season found" None;;
        mret total_updated
      else
        let teams_response := fetch_teams_by_season season_id in
        if truthy teams_response then
          teams_data ← lift (py_get teams_response "teams" (VList []));
          teams ← update_teams_v teams_data season_id league_id;
          mret (total_updated + teams)
        else
          logger ERROR "Failed to fetch teams data for season {current_season_id}" None;;
          mret total_updated
  | None =>
      logger ERROR "No current season found" None;;
      mret total_updated
  end.

(** [update_basic_info], on the connection that [create_connection] has
    opened. *)
Definition update_basic_info : M Z :=
  try_finally
    (try_except
       ('(total_updated, league_id) ← update_bootstrap;
        total_updated ← update_seasons_list total_updated;
        update_current_teams total_updated league_id)
       (λ e,
          logger ERROR "Error updating basic info: {e}" (Some e);;
          rollback;;
          raise e))
    close.

End client.
End basic_info_update.

(** * Vocabulary of the statements *)

(** ** Connections after a step *)

(** The connection with more statements issued, another database, or more
    log records. *)
Definition add_trace (c : conn) (ss : list stmt) : conn :=
  {| db := db c; committed := committed c; trace := trace c ++ ss;
     logged := logged c; entered := entered c |}.

Definition with_db (c : conn) (d : database) : conn :=
  {| db := d; committed := committed c; trace := trace c;
     logged := logged c; entered := entered c |}.

Definition add_log (c : conn) (ls : list logrec) : conn :=
  {| db := db c; committed := committed c; trace := trace c;
     logged := logged c ++ ls; entered := entered c |}.

(** The connection after [conn.commit()] and the log records [ls]. *)
Definition committed_with_log (c : conn) (ls : list logrec) : conn :=
  {| db := db c; committed := db c; trace := trace c;
     logged := logged c ++ ls; entered := entered c |}.

(** Log records by level. *)
Definition info (m : string) : logrec := {| lvl := INFO; msg := m; exc := None |}.

Definition debug (m : string) : logrec := {| lvl := DEBUG; msg := m; exc := None |}.

Definition error_with (m : string) (e : exn) : logrec :=
  {| lvl := ERROR; msg := m; exc := Some e |}.

Definition event_error (e : exn) : logrec :=
  {| lvl := ERROR;
     msg := "Error processing {event_type} event in game {game_id}: {e}";
     exc := Some e |}.

(** Statements that change a table. *)
Definition is_write (s : stmt) : bool := is_insert s || is_update s.

(** ** The upsert loops *)

Section upsert_vocabulary.
Variable t : string.
Variable key_of : dict → result Z.
Variable cols_of : Z → dict → result (list (string * value)).

(** The connection after the row of [id] in table [t] has become [rw]. *)
Definition updated (c : conn) (id : Z) (rw : row) : conn :=
  with_db c (set_table (db c) t (<[id := rw]> (get_table (db c) t))).

(** The id of an entry that is not skipped. *)
Definition entry_key (e : dict) : option Z :=
  match key_of e with
  | Ok id => if id =? 0 then None else Some id
  | Raise _ => None
  end.

(** The ids that the loop writes, in the order of the list. *)
Definition keys (l : list dict) : list Z := omap entry_key l.

(** An entry that the loop passes without raising, whatever the table
    holds. *)
Definition entry_ok (e : dict) : Prop :=
  match key_of e with
  | Ok id =>
      id = 0 ∨ ∃ cv bs, cols_of id e = Ok cv ∧ bind_params cv = Ok bs ∧
                        bind_param (VInt id) = Ok (SInt id)
  | Raise _ => False
  end.

(** The statements of an entry whose id is in the table. *)
Definition update_stmts (e : dict) : list stmt :=
  match key_of e with
  | Ok id =>
      if id =? 0 then []
      else match cols_of id e with
           | Ok cv => [SELECT t id; UPDATE t cv.*1 id]
           | Raise _ => []
           end
  | Raise _ => []
  end.

End upsert_vocabulary.

Section basic_info_vocabulary.
Import basic_info.

(** The id and the columns that each of the four loops reads from an
    entry. *)
Definition league_key (e : dict) : result Z := py_int (dict_get e "id" (VInt 0)).

Definition league_cols (_ : Z) (e : dict) : result (list (string * value)) :=
  Ok [("name", dict_get e "name" (VStr ""));
      ("short_name", dict_get e "short_name" (VStr ""));
      ("code", dict_get e "code" (VStr ""));
      ("logo", dict_get e "logo_image" (VStr ""))].

Definition conference_key (e : dict) : result Z :=
  py_int (dict_get e "conference_id" (VInt 0)).

Definition conference_cols (_ : Z) (e : dict) : result (list (string * value)) :=
  Ok [("name", dict_get e "conference_name" (VStr ""))].

Definition division_cols (_ : Z) (e : dict) : result (list (string * value)) :=
  Ok [("name", dict_get e "name" (VStr ""))].

(** The frame the four functions put around their loop. *)
Definition logged_loop (pre post : string) (loop : M Z) : M Z :=
  logger INFO pre None;;
  updated_count ← loop;
  commit;;
  logger INFO post None;;
  mret updated_count.

(** The UPDATE branch for the row [id] of table [t]: the lookup of the id
    and the UPDATE of the columns [cols] of that row. *)
Definition update_branch (t : string) (cols : list string) (id : Z) : list stmt :=
  [SELECT t id; UPDATE t cols id].

(** A second run on the same input takes the UPDATE branch for every entry
    whose id is not zero, in the order of the input, and issues no other
    statement; it returns the same count, which is the number of these
    entries, and the table keeps its ids, hence its number of rows. *)
Definition rerun_adds_no_row (t : string) (key_of : dict → result Z)
    (cols : list string) (update : list dict → M Z) : Prop :=
  ∀ data c n c1,
    update data c = (Ok n, c1) →
    ∃ c2,
      update data c1 = (Ok n, c2) ∧
      n = Z.of_nat (List.length (keys key_of data)) ∧
      dom (get_table (db c2) t) = dom (get_table (db c1) t) ∧
      size (get_table (db c2) t) = size (get_table (db c1) t) ∧
      trace c2 = trace c1 ++ (keys key_of data ≫= update_branch t cols).

(** The columns that the UPDATE of each table sets. *)
Definition league_columns : list string := ["name"; "short_name"; "code"; "logo"].
Definition name_column : list string := ["name"].
Definition season_column_names : list string :=
  ["sort"; "name"; "type"; "current"; "hide_in_standings"].

(** [SELECT c1, ... FROM t]: the named cells of every row. *)
Definition select_columns (cols : list string) (tb : table) : list (list sqlval) :=
  (λ kr, (λ col, cell kr.1 kr.2 col) <$> cols) <$> map_to_list tb.

(** Whether [update_leagues] counts the entry: its id coerces to an
    integer that is not zero. *)
Definition league_has_id (e : dict) : bool :=
  match py_int (dict_get e "id" (VInt 0)) with
  | Ok id => negb (id =? 0)
  | Raise _ => false
  end.

(** The row carries the flag of the current season. *)
Definition is_current (r : row) : bool :=
  bool_decide (r !! "current" = Some (SInt 1)).

(** [SELECT id FROM seasons WHERE current = 1]. *)
Definition current_rows (d : database) : list Z :=
  (filter (λ kr, is_current kr.2 = true) (map_to_list (get_table d "seasons"))).*1.

(** The ids of a seasons payload that [update_seasons] writes: those that
    coerce to a nonzero integer. *)
Definition payload_ids (seasons_data : list dict) : list Z :=
  keys league_key seasons_data.

End basic_info_vocabulary.

(** ** Play-by-play backfill *)

Section backfill_vocabulary.
Import play_by_play.

(** Some row of one of the eight play-by-play tables belongs to game [g]. *)
Definition has_event_row (d : database) (g : Z) : Prop :=
  ∃ t k er, t ∈ pbp_table_names ∧ get_pbp d t !! k = Some er ∧
            er !! "game_id" = Some (SInt g).

End backfill_vocabulary.

(** ** The query helpers *)

Section driver_vocabulary.
Variable driver_commit_error : database → option exn.

(** What the driver does with the statement and the commit that follows:
    the row count and the database after both, or the exception of the
    first of the two that fails and the database at that point. *)
Definition run_and_commit (r : result Z * database) : result Z * database :=
  match r with
  | (Ok rowcount, d) =>
      match driver_commit_error d with
      | None => (Ok rowcount, d)
      | Some e => (Raise e, d)
      end
  | (Raise e, d) => (Raise e, d)
  end.

(** The outcome of a helper whose statement and commit gave [r] and whose
    handler logs [ls]. *)
Definition helper_outcome (r : result Z * database) (ls : exn → list logrec)
    (c : conn) : result Z * conn :=
  match run_and_commit r with
  | (Ok rowcount, d) =>
      (Ok rowcount, {| db := d; committed := d; trace := trace c;
                       logged := logged c; entered := entered c |})
  | (Raise e, d) =>
      if is_sqlite3_error e then
        (Raise e, {| db := committed c; committed := committed c; trace := trace c;
                     logged := logged c ++ ls e; entered := entered c |})
      else (Raise e, with_db c d)
  end.

(** What the handlers of the two helpers log. *)
Definition execute_query_log (params : option (list value)) (e : exn) : list logrec :=
  [error_with "Query execution error: {e}" e; debug "Query: {query}"] ++
  (if params is Some (_ :: _) then [debug "Parameters: {params}"] else []).

Definition execute_many_log (e : exn) : list logrec :=
  [error_with "Executemany error: {e}" e; debug "Query: {query}";
   debug "Parameter count: {len(params_list)}"].

(** A helper either commits and returns the row count of the driver, or
    raises the exception of the driver; when that exception is a
    [sqlite3.Error] the helper has logged it and rolled back. *)
Definition commits_or_reraises (r : result Z * database) (ls : exn → list logrec)
    (c : conn) (out : result Z * conn) : Prop :=
  (∀ rowcount d,
     run_and_commit r = (Ok rowcount, d) →
     out.1 = Ok rowcount ∧ db out.2 = d ∧ committed out.2 = d ∧
     logged out.2 = logged c) ∧
  (∀ e d,
     run_and_commit r = (Raise e, d) →
     out.1 = Raise e ∧
     (is_sqlite3_error e = true →
      db out.2 = committed c ∧ committed out.2 = committed c ∧
      logged out.2 = logged c ++ ls e)) ∧
  (∀ rowcount, out.1 = Ok rowcount → ∃ d, run_and_commit r = (Ok rowcount, d)).

End driver_vocabulary.

(** ** Sample data *)

(** The two league records of the end-to-end example. *)
Definition league_1 : dict :=
  [("id", VInt 1); ("name", VStr "PWHL"); ("code", VStr "pwhl")].

Definition league_1_updated : dict :=
  [("id", VInt 1); ("name", VStr "PWHL Updated"); ("code", VStr "pwhl-new")].

(** A leagues table that holds a row of id 0, a record of that id, and a
    record without an id. *)
Definition league_0_stored : database :=
  {| tables := {[ "leagues" := {[ 0 := {[ "name" := SText "Stored" ]} ]} ]};
     pbp := ∅ |}.

Definition league_0 : dict := [("id", VInt 0); ("name", VStr "Updated")].

Definition league_without_id : dict := [("name", VStr "PWHL")].

(** A seasons table in which season 5 is flagged, and two payload
    entries. *)
Definition seasons_5_current : database :=
  {| tables :=
       {[ "seasons" :=
            {[ 5 := {[ "name" := SText "2023-24 Regular Season";
                       "current" := SInt 1 ]} ]} ]};
     pbp := ∅ |}.

Definition season_5 : dict :=
  [("id", VStr "5"); ("name", VStr "2023-24 Regular Season")].

Definition season_6 : dict :=
  [("id", VStr "6"); ("name", VStr "2024-25 Regular Season")].

(** Two games without any play-by-play row; only the first is final. *)
Definition two_games_no_events : database :=
  {| tables :=
       {[ "games" :=
            {[ 1 := {[ "season_id" := SInt 1; "status" := SText "Final" ]};
               2 := {[ "season_id" := SInt 1; "status" := SText "In Progress" ]} ]} ]};
     pbp := ∅ |}.

(** Stand-ins for the three converters, to run [update_player] on sample
    data. *)
Definition sample_hometown_parts (birth_place : value) : result (value * value) :=
  Ok (birth_place, VNone).

Definition sample_team_id (team_image_url : value) : result value := Ok VNone.

Definition sample_height_weight (height weight : value) : result (value * value) :=
  Ok (VNone, VNone).

Definition sample_columns : list string :=
  ["id"; "first_name"; "last_name"; "hometown"].

(** Player 7 as the API reports her, without a birth place, and as she is
    stored. *)
Definition jane_payload : dict :=
  [("info", VDict [("playerId", VStr "7"); ("firstName", VStr "Jane");
                   ("lastName", VStr "Doe")])].

Definition jane_row : row :=
  {[ "first_name" := SText "Jane"; "last_name" := SText "Doe";
     "hometown" := SText "Toronto" ]}.

Definition jane_stored : database :=
  {| tables := {[ "players" := {[ 7 := jane_row ]} ]}; pbp := ∅ |}.

Definition sample_update_player : dict → M bool :=
  players.update_player sample_hometown_parts sample_team_id sample_height_weight
    sample_columns.

(** The play-by-play payload and the game of the repository's test of
    [process_game_play_by_play]. *)
Definition test_pbp_data : value :=
  VDict [("GC", VDict [("Pxpverbose", VList [
    VDict [("event", VStr "goal"); ("id", VStr "1"); ("team_id", VStr "1");
           ("goal_player_id", VStr "1"); ("home", VStr "1"); ("period", VStr "1");
           ("time", VStr "10:00"); ("s", VStr "600")];
    VDict [("event", VStr "shot"); ("id", VStr "2"); ("player_id", VStr "2");
           ("goalie_id", VStr "3"); ("team_id", VStr "2"); ("home", VStr "0");
           ("period_id", VStr "1"); ("time", VStr "11:00"); ("s", VStr "660")]])])].

Definition test_game : database :=
  {| tables :=
       {[ "games" := {[ 1 := {[ "season_id" := SInt 1; "home_team" := SInt 1;
                                "visiting_team" := SInt 2 ]} ]} ]};
     pbp := ∅ |}.

(** ** Frames and row invariants *)

(** Between two connections, only table [t] may differ. *)
Definition only_table_changed (t : string) (c c' : conn) : Prop :=
  (∀ t', t' ≠ t → get_table (db c') t' = get_table (db c) t') ∧
  pbp (db c') = pbp (db c).

(** A scraper that writes no table but [t], whether it returns or raises. *)
Definition writes_only {A} (t : string) (f : M A) : Prop :=
  ∀ c, only_table_changed t c (f c).2.

(** No division row names a conference. *)
Definition divisions_without_conference (d : database) : Prop :=
  ∀ id r, get_table d "divisions" !! id = Some r → r !! "conference_id" = None.

(** Every team row has NULL in [conference_id]. *)
Definition teams_without_conference (d : database) : Prop :=
  ∀ id r, get_table d "teams" !! id = Some r → cell id r "conference_id" = SNull.

(** A team of the league, and the "All Teams" entry of the API. *)
Definition team_dallas : dict :=
  [("id", VStr "9"); ("name", VStr "Dallas"); ("division_id", VStr "1")].

Definition team_boston : dict :=
  [("id", VStr "1"); ("name", VStr "Boston"); ("nickname", VStr "Fleet");
   ("team_code", VStr "BOS"); ("division_id", VStr "1")].

Definition division_1 : dict := [("id", VStr "1"); ("name", VStr "PWHL")].

(** ** Runs of [update_play_by_play] *)

(** Nothing is stored between [c] and [c']: the database the connection
    sees is the same, a commit can only have committed that database, and
    no handler has been entered. *)
Definition stores_nothing (c c' : conn) : Prop :=
  db c' = db c ∧ (committed c' = committed c ∨ committed c' = db c) ∧
  entered c' = entered c.

(** The games a run reports as processed. *)
Definition game_done_msg : string :=
  "Processed game {game_id}: {events_processed} events".

Definition games_done (c : conn) : nat :=
  List.length (filter (λ r, msg r = game_done_msg) (logged c)).

(** How many of [len] games a limit lets through. *)
Definition games_within (limit : option Z) (len : nat) : nat :=
  match limit with
  | None => len
  | Some l =>
      if l =? 0 then len
      else if 0 <? l then Nat.min (Z.to_nat l) len
      else len - Z.to_nat (- l)
  end.

Definition two_finished_games : database :=
  {| tables :=
       {[ "games" :=
            {[ 1 := {[ "season_id" := SInt 1; "status" := SText "Final" ]};
               2 := {[ "season_id" := SInt 1; "status" := SText "Final" ]} ]} ]};
     pbp := ∅ |}.

(** An API client without data, and handlers that would store anything. *)
Definition no_pbp_data (_ : Z) : value := VNone.
Definition test_client (_ : Z) : value := test_pbp_data.

(** A payload whose first event is null. *)
Definition pbp_with_null_event : value :=
  VDict [("GC", VDict [("Pxpverbose",
    VList [VNone; VDict [("event", VStr "faceoff"); ("id", VStr "2")]])])].

Definition any_handler (_ : string) (_ : list play_by_play.object) : M bool := mret true.

(** ** Runs of [update_players] *)

(** The INSERT and UPDATE statements a connection has been given. *)
Definition writes (c : conn) : Z :=
  Z.of_nat (List.length (filter (λ s, is_write s = true) (trace c))).

(** The failures [update_players] has reported. *)
Definition players_failed (c : conn) : Z :=
  Z.of_nat (List.length
    (filter (λ r, msg r = "Error updating players: {e}") (logged c))).

(** An API client that knows no player but a malformed player 1. *)
Definition malformed_player_1 (pid : Z) : value :=
  if pid =? 1 then VStr "?" else VNone.

Definition sample_update_players : option Z → Z → M Z :=
  players_rest.update_players sample_hometown_parts sample_team_id
    sample_height_weight sample_columns malformed_player_1.

(** ** Runs of the schema helpers *)

(** The driver raises nothing but [sqlite3.Error]. *)
Definition raises_sqlite3_only
    (driver_execute : string → list value → database → result Z * database) : Prop :=
  ∀ query params d e,
    (driver_execute query params d).1 = Raise e → is_sqlite3_error e = true.

(** The index statements [create_indexes] has reported on, as created or
    as failed. *)
Definition index_reports (c : conn) : Z :=
  Z.of_nat (List.length
    (filter (λ r, msg r = "Index created or already exists: {index_sql}" ∨
                  msg r = "Index creation error: {e}") (logged c))).

(** A driver that accepts every statement but the index statements, and a
    function that changes a table and fails. *)
Definition no_index_driver (query : string) (_ : list value) (d : database)
    : result Z * database :=
  if String.prefix "CREATE INDEX" query then (Raise (Sqlite3Error OperationalError), d)
  else (Ok 0, d).

Definition commit_succeeds (_ : database) : option exn := None.

Definition insert_then_fail : M unit := λ c,
  (Raise ValueError, with_db c (set_table (db c) "leagues" {[ 1 := ∅ ]})).

(** ** The fields of a player *)

(** The keys of the dict that [extract_player_fields] returns, in order. *)
Definition player_field_names : list string :=
  ["id"; "team_id"; "jersey_number"; "first_name"; "last_name"; "birth_date";
   "type"; "position"; "position_analysis"; "shoots"; "catches"; "height_cm";
   "weight_kg"; "height"; "weight"; "hometown"; "hometown_div"; "nationality";
   "biography"; "image_url"; "photo_1_url"; "photo_2_url"].

(** The fields of player 7. *)
Definition jane_fields : dict := Eval vm_compute in
    match players.extract_player_fields sample_hometown_parts sample_team_id
            sample_height_weight jane_payload with
    | Ok (Some fields) => fields
    | _ => []
    end.

Definition is_int (v : value) : Prop := ∃ z, v = VInt z.

Definition is_str (v : value) : Prop := ∃ s, v = VStr s.

(** ** Runs of [update_basic_info] *)

(** The loop of an updater over a payload of any type. *)
Definition value_loop (body : dict → Z → M Z) (payload : value) : M Z :=
  entries ← lift (py_iter payload);
  for_each (on_dict body) entries 0.

(** The tables of the basic information. *)
Definition basic_tables : list string :=
  ["leagues"; "conferences"; "divisions"; "seasons"; "teams"].

(** Database [d] holds what [d0] holds outside the tables [ts]. *)
Definition agrees_outside (ts : list string) (d0 d : database) : Prop :=
  (∀ t, t ∉ ts → get_table d t = get_table d0 t) ∧ pbp d = pbp d0.

(** Outside the tables [ts], the connection sees and has committed what
    [d0] holds. *)
Definition kept_outside (ts : list string) (d0 : database) (c : conn) : Prop :=
  agrees_outside ts d0 (db c) ∧ agrees_outside ts d0 (committed c).

(** A block that changes table [t] only and commits nothing. *)
Definition touches {A} (t : string) (f : M A) : Prop :=
  ∀ c, only_table_changed t c (f c).2 ∧ committed (f c).2 = committed c.

(** A seasons response and a teams response to run [update_basic_info]
    on. *)
Definition seasons_response_5_6 : value :=
  VDict [("seasons", VList [VDict season_5; VDict season_6])].

Definition teams_of_season (season_id : Z) : value :=
  if season_id =? 6 then VDict [("teams", VList [VDict team_boston])] else VNone.

Definition no_teams (_ : Z) : value := VNone.

(** Bootstrap data with one league. *)
Definition bootstrap_1 : value := VDict [("leagues", VList [VDict league_1])].

(** * Properties *)

#[local] Set Warnings "-clear-no-such-hyp".

(** ** The connection monad *)

#[local] Arguments bind_param : simpl never.

Lemma conn_eta (c : conn) :
  {| db := db c; committed := committed c; trace := trace c;
     logged := logged c; entered := entered c |} = c.
Proof. by destruct c. Qed.

Lemma add_trace_nil c : add_trace c [] = c.
Proof. unfold add_trace. rewrite app_nil_r. apply conn_eta. Qed.

Lemma add_trace_app c ss1 ss2 :
  add_trace (add_trace c ss1) ss2 = add_trace c (ss1 ++ ss2).
Proof. unfold add_trace; simpl. by rewrite app_assoc. Qed.

Lemma get_table_set d t rows : get_table (set_table d t rows) t = rows.
Proof. unfold get_table, set_table; simpl. by rewrite lookup_insert_eq. Qed.

Lemma get_table_set_ne d t t' rows :
  t ≠ t' → get_table (set_table d t rows) t' = get_table d t'.
Proof. intros ?. unfold get_table, set_table; simpl. by rewrite lookup_insert_ne. Qed.

Lemma bind_param_int_inv id b : bind_param (VInt id) = Ok b → b = SInt id.
Proof. unfold bind_param. case_match; congruence. Qed.

Lemma bind_params_app cv1 cv2 bs :
  bind_params (cv1 ++ cv2) = Ok bs →
  ∃ bs1 bs2, bind_params cv1 = Ok bs1 ∧ bind_params cv2 = Ok bs2 ∧ bs = bs1 ++ bs2.
Proof.
  revert bs. induction cv1 as [|[k v] cv1 IH]; intros bs; simpl.
  - intros H. by exists [], bs.
  - destruct (bind_param v) as [b|]; simpl; [|done].
    destruct (bind_params (cv1 ++ cv2)) as [bs'|] eqn:E; simpl; [|done].
    intros [= <-]. destruct (IH _ eq_refl) as (bs1 & bs2 & -> & -> & ->).
    by exists ((k, b) :: bs1), bs2.
Qed.

Lemma bind_params_fst cv bs : bind_params cv = Ok bs → bs.*1 = cv.*1.
Proof.
  revert bs. induction cv as [|[k v] cv IH]; intros bs; simpl.
  - by intros [= <-].
  - destruct (bind_param v) as [b|]; simpl; [|done].
    destruct (bind_params cv) as [bs'|]; simpl; [|done].
    intros [= <-]. simpl. f_equal. by apply IH.
Qed.

(** ** The shared shape of the upsert loops *)

Section upsert_facts.
Variable t : string.
Variable key_of : dict → result Z.
Variable cols_of : Z → dict → result (list (string * value)).
Variable extra : list (string * value).

Local Abbreviation step := (upsert_step t key_of cols_of extra).
Local Abbreviation tbl c := (get_table (db c) t).
Local Abbreviation updated := (updated t).
Local Abbreviation entry_key := (entry_key key_of).
Local Abbreviation keys := (keys key_of).
Local Abbreviation entry_ok := (entry_ok key_of cols_of).
Local Abbreviation update_stmts := (update_stmts t key_of cols_of).

Lemma upsert_step_unfold e n c :
  step e n c =
  match key_of e with
  | Raise x => (Raise x, c)
  | Ok id =>
      if id =? 0 then (Ok n, c) else
      match cols_of id e with
      | Raise x => (Raise x, c)
      | Ok cv =>
          match bind_param (VInt id) with
          | Raise x => (Raise x, add_trace c [SELECT t id])
          | Ok _ =>
              match tbl c !! id with
              | Some r =>
                  let c2 := add_trace c [SELECT t id; UPDATE t cv.*1 id] in
                  match bind_params cv with
                  | Raise x => (Raise x, c2)
                  | Ok bs => (Ok (n + 1), updated c2 id (list_to_map bs ∪ r))
                  end
              | None =>
                  let c2 := add_trace c [SELECT t id; INSERT t ("id" :: (cv ++ extra).*1) id] in
                  match bind_params (cv ++ extra) with
                  | Raise x => (Raise x, c2)
                  | Ok bs => (Ok (n + 1), updated c2 id (list_to_map bs))
                  end
              end
          end
      end
  end.
Proof.
  unfold upsert_step, mbind, M_bind, mret, M_ret, lift.
  destruct (key_of e) as [id|x]; [|done].
  destruct (id =? 0); [done|].
  destruct (cols_of id e) as [cv|x]; [|done].
  unfold select_by_id, exec_update, exec_insert, issue, get_db, put_db, raise,
    mbind, M_bind, mret, M_ret, lift; simpl.
  destruct (bind_param (VInt id)) as [b|x] eqn:Hb; [|done].
  simpl. destruct (get_table (db c) t !! id) as [r|] eqn:Hr; simpl.
  - destruct (bind_params cv) as [bs|x]; simpl; rewrite <- ?app_assoc; simpl; [|done].
    rewrite Hr. done.
  - destruct (bind_params (cv ++ extra)) as [bs|x]; simpl; rewrite <- ?app_assoc; simpl; [|done].
    rewrite Hr. done.
Qed.

Lemma tbl_updated c ss id rw :
  tbl (updated (add_trace c ss) id rw) = <[id := rw]> (tbl c).
Proof. unfold updated, with_db; simpl. by rewrite get_table_set. Qed.

Lemma upsert_step_ok e n c n' c' :
  step e n c = (Ok n', c') →
  entry_ok e ∧
  match entry_key e with
  | None => n' = n ∧ c' = c
  | Some id =>
      n' = n + 1 ∧
      ∃ cv bs r0, cols_of id e = Ok cv ∧ bind_params cv = Ok bs ∧
                  tbl c' = <[id := list_to_map bs ∪ r0]> (tbl c)
  end.
Proof.
  rewrite upsert_step_unfold. unfold entry_ok, entry_key.
  destruct (key_of e) as [id|x]; [|done].
  destruct (id =? 0) eqn:Hz.
  { intros [= <- <-]. split; [left; lia|done]. }
  destruct (cols_of id e) as [cv|x]; [|done].
  destruct (bind_param (VInt id)) as [b|x] eqn:Hb; [|done].
  apply bind_param_int_inv in Hb as Hb'. subst b.
  destruct (tbl c !! id) as [r|] eqn:Hr; simpl.
  - destruct (bind_params cv) as [bs|x] eqn:Hbs; [|done].
    intros [= <- <-]. split; [right; eauto|]. split; [done|].
    exists cv, bs, r. rewrite tbl_updated. done.
  - destruct (bind_params (cv ++ extra)) as [bs|x] eqn:Hbs; [|done].
    intros [= <- <-]. apply bind_params_app in Hbs as (bs1 & bs2 & ? & ? & ->).
    split; [right; eauto|]. split; [done|].
    exists cv, bs1, (list_to_map bs2). rewrite tbl_updated, list_to_map_app. done.
Qed.

Lemma loop_ok l : ∀ n c n' c',
  for_each step l n c = (Ok n', c') →
  n' = n + Z.of_nat (List.length (keys l)) ∧
  Forall entry_ok l ∧
  dom (tbl c') = dom (tbl c) ∪ list_to_set (keys l).
Proof.
  induction l as [|e l IH]; intros n c n' c'; simpl.
  - intros [= <- <-]. split; [lia|]. split; [constructor|]. set_solver.
  - unfold mbind, M_bind at 1.
    destruct (step e n c) as [[n1|x] c1] eqn:Hs; [|done].
    intros Hl. apply upsert_step_ok in Hs as [Hok Hs].
    apply IH in Hl as (-> & Hall & Hdom).
    split; [|split; [by constructor|]].
    + unfold keys; simpl. fold (keys l). destruct (entry_key e).
      * destruct Hs as [-> _]. simpl. lia.
      * destruct Hs as [-> _]. lia.
    + rewrite Hdom. unfold keys; simpl. fold (keys l). destruct (entry_key e) as [id|].
      * destruct Hs as [_ (cv & bs & r0 & _ & _ & ->)]. rewrite dom_insert_L. set_solver.
      * destruct Hs as [_ ->]. done.
Qed.

Lemma upsert_step_update e n c :
  entry_ok e →
  (∀ id, entry_key e = Some id → is_Some (tbl c !! id)) →
  ∃ c', step e n c = (Ok (n + Z.of_nat (List.length (keys [e]))), c') ∧
        dom (tbl c') = dom (tbl c) ∧
        trace c' = trace c ++ update_stmts e.
Proof.
  intros Hok Hin. rewrite upsert_step_unfold.
  unfold entry_ok, entry_key, keys, update_stmts in *. simpl. unfold entry_key.
  destruct (key_of e) as [id|x]; [|done].
  destruct (id =? 0) eqn:Hz.
  { exists c. simpl. rewrite Z.add_0_r, app_nil_r. done. }
  destruct Hok as [->|(cv & bs & -> & Hbs & ->)]; [done|].
  destruct (Hin id eq_refl) as [r Hr]. rewrite Hr; simpl. rewrite Hbs.
  eexists. split; [done|]. split; [|done].
  rewrite tbl_updated, dom_insert_L.
  apply elem_of_dom_2 in Hr. set_solver.
Qed.

(** Once every id of the list is in the table, the loop only updates. *)
Lemma loop_rerun l : ∀ n c,
  Forall entry_ok l →
  (∀ id, id ∈ keys l → is_Some (tbl c !! id)) →
  ∃ c', for_each step l n c = (Ok (n + Z.of_nat (List.length (keys l))), c') ∧
        dom (tbl c') = dom (tbl c) ∧
        trace c' = trace c ++ (l ≫= update_stmts).
Proof.
  induction l as [|e l IH]; intros n c Hall Hin; simpl.
  - exists c. rewrite Z.add_0_r, app_nil_r. done.
  - apply Forall_cons in Hall as [Hok Hall].
    destruct (upsert_step_update e n c Hok) as (c1 & Hs & Hdom1 & Htr1).
    { intros id Hid. apply Hin. unfold keys; simpl. rewrite Hid. set_solver. }
    destruct (IH (n + Z.of_nat (List.length (keys [e]))) c1 Hall) as (c' & Hl & Hdom & Htr).
    { intros id Hid. apply elem_of_dom. rewrite Hdom1. apply elem_of_dom, Hin.
      unfold keys; simpl. fold (keys l). destruct (entry_key e); set_solver. }
    exists c'. unfold mbind, M_bind at 1. rewrite Hs, Hl. split; [|split].
    + do 2 f_equal. unfold keys; simpl. destruct (entry_key e); simpl; lia.
    + congruence.
    + rewrite Htr, Htr1, <- app_assoc. done.
Qed.

(** Running the loop again on what it has just processed. *)
Lemma loop_twice l n c n1 c1 :
  for_each step l n c = (Ok n1, c1) →
  ∃ c2, for_each step l n c1 = (Ok n1, c2) ∧
        size (tbl c2) = size (tbl c1) ∧
        trace c2 = trace c1 ++ (l ≫= update_stmts).
Proof.
  intros H1. apply loop_ok in H1 as (-> & Hall & Hdom).
  destruct (loop_rerun l n c1 Hall) as (c2 & H2 & Hdom2 & Htr).
  { intros id Hid. apply elem_of_dom. rewrite Hdom. set_solver. }
  exists c2. split; [done|]. split; [|done].
  by rewrite <- !size_dom, Hdom2.
Qed.

Lemma update_stmts_no_insert l :
  Forall (λ s, is_insert s = false) (l ≫= update_stmts).
Proof.
  apply Forall_forall. intros s Hs. apply list_elem_of_bind in Hs as (e & Hs & _).
  unfold update_stmts in Hs.
  destruct (key_of e) as [id|]; [|set_solver].
  destruct (id =? 0); [set_solver|].
  destruct (cols_of id e); [|set_solver].
  apply elem_of_cons in Hs as [->|Hs]; [done|].
  apply elem_of_cons in Hs as [->|Hs]; [done|]. set_solver.
Qed.

Lemma update_stmts_count l :
  Forall entry_ok l →
  List.length (filter (λ s, is_update s = true) (l ≫= update_stmts)) = List.length (keys l).
Proof.
  induction 1 as [|e l Hok _ IH]; [done|].
  change ((e :: l) ≫= update_stmts) with (update_stmts e ++ (l ≫= update_stmts)).
  rewrite filter_app, length_app, IH.
  change (keys (e :: l)) with (from_option (λ k, k :: keys l) (keys l) (entry_key e)).
  unfold entry_ok, update_stmts, entry_key in *.
  destruct (key_of e) as [id|]; [|done].
  destruct (id =? 0) eqn:Hz; [done|].
  destruct Hok as [->|(cv & bs & -> & _)]; [done|]. done.
Qed.

(** A column whose value every entry derives from its id alone: after the
    loop, the rows of the ids of the list hold that value, and the other
    rows are as they were. *)
Lemma loop_column (k : string) (f : Z → sqlval) :
  (∀ e id cv bs,
     key_of e = Ok id → cols_of id e = Ok cv → bind_params cv = Ok bs →
     (list_to_map bs : row) !! k = Some (f id)) →
  ∀ l n c n' c',
    for_each step l n c = (Ok n', c') →
    ∀ id,
      (id ∈ keys l → ∃ r, tbl c' !! id = Some r ∧ r !! k = Some (f id)) ∧
      (id ∉ keys l → tbl c' !! id = tbl c !! id).
Proof.
  intros Hcol. induction l as [|e l IH]; intros n c n' c'; simpl.
  - intros [= <- <-] id. split; [|done]. unfold keys. simpl. set_solver.
  - unfold mbind, M_bind at 1.
    destruct (step e n c) as [[n1|x] c1] eqn:Hs; [|done].
    intros Hl id. apply upsert_step_ok in Hs as [_ Hs].
    specialize (IH _ _ _ _ Hl id) as [IH1 IH2].
    change (keys (e :: l)) with (from_option (λ k, k :: keys l) (keys l) (entry_key e)).
    unfold entry_key in *.
    destruct (key_of e) as [ide|] eqn:Hk; simpl in *; [|by destruct Hs as [_ ->]].
    destruct (ide =? 0) eqn:Hz; simpl in *; [by destruct Hs as [_ ->]|].
    destruct Hs as [_ (cv & bs & r0 & Hcv & Hbs & Ht)].
    destruct (decide (id ∈ keys l)) as [Hin|Hnin].
    + split; [intros _; by apply IH1|]. set_solver.
    + split.
      * intros Hid. assert (id = ide) as -> by set_solver.
        rewrite IH2, Ht, lookup_insert_eq by done.
        eexists. split; [done|].
        apply lookup_union_Some_l. by eapply Hcol.
      * intros Hid. rewrite IH2, Ht by done.
        apply lookup_insert_ne. set_solver.
Qed.

(** Entries that pass raise nowhere, whatever the table holds. *)
Lemma loop_total l : ∀ n c,
  (∃ bs, bind_params extra = Ok bs) →
  Forall entry_ok l → ∃ n' c', for_each step l n c = (Ok n', c').
Proof.
  induction l as [|e l IH]; intros n c Hextra Hall; simpl; [by eexists _, _|].
  apply Forall_cons in Hall as [Hok Hall].
  assert (∃ n1 c1, step e n c = (Ok n1, c1)) as (n1 & c1 & Hs).
  { rewrite upsert_step_unfold. unfold entry_ok in Hok.
    destruct (key_of e) as [id|]; [|done].
    destruct (id =? 0) eqn:Hz; [by eexists _, _|].
    destruct Hok as [->|(cv & bs & -> & Hbs & ->)]; [done|].
    destruct (tbl c !! id); simpl.
    - rewrite Hbs. by eexists _, _.
    - destruct (bind_params (cv ++ extra)) eqn:Hx; [by eexists _, _|].
      exfalso. revert Hx. clear -Hbs Hextra. revert bs Hbs.
      induction cv as [|[k v] cv IHcv]; intros bs Hbs; simpl in *.
      + destruct Hextra as [bs' ->]. done.
      + destruct (bind_param v); simpl in *; [|done].
        destruct (bind_params cv) as [bs'|] eqn:E; [|done].
        specialize (IHcv _ eq_refl).
        destruct (bind_params (cv ++ extra)); simpl; [done|]. intros. by eapply IHcv. }
  destruct (IH n1 c1 Hextra Hall) as (n' & c' & Hl).
  exists n', c'. unfold mbind, M_bind at 1. by rewrite Hs.
Qed.

End upsert_facts.

(** ** [update_leagues], [update_conferences], [update_divisions],
    [update_seasons] *)

Section basic_info_facts.
Import basic_info.

Lemma update_league_shape :
  update_league = upsert_step "leagues" league_key league_cols [].
Proof. reflexivity. Qed.

Lemma update_conference_shape :
  update_conference = upsert_step "conferences" conference_key conference_cols [].
Proof. reflexivity. Qed.

Lemma update_division_shape :
  update_division = upsert_step "divisions" league_key division_cols [].
Proof. reflexivity. Qed.

Lemma update_season_shape cur :
  update_season cur =
  upsert_step "seasons" league_key (season_columns cur) [("start_date", VStr "")].
Proof. reflexivity. Qed.

Lemma logged_loop_inv pre post loop c n c' :
  logged_loop pre post loop c = (Ok n, c') →
  ∃ c1, loop (add_log c [{| lvl := INFO; msg := pre; exc := None |}]) = (Ok n, c1) ∧
        db c' = db c1 ∧ trace c' = trace c1.
Proof.
  unfold logged_loop, mbind, M_bind, logger, commit, mret, M_ret. simpl.
  fold (add_log c [{| lvl := INFO; msg := pre; exc := None |}]).
  destruct (loop _) as [[n1|x] c1]; [|done].
  intros [= <- <-]. by exists c1.
Qed.

Lemma logged_loop_run pre post loop c n c1 :
  loop (add_log c [{| lvl := INFO; msg := pre; exc := None |}]) = (Ok n, c1) →
  ∃ c', logged_loop pre post loop c = (Ok n, c') ∧
        db c' = db c1 ∧ trace c' = trace c1.
Proof.
  intros H. unfold logged_loop, mbind, M_bind, logger, commit, mret, M_ret. simpl.
  fold (add_log c [{| lvl := INFO; msg := pre; exc := None |}]).
  rewrite H. by eexists.
Qed.

(** On entries that the loop passes, the statements of a rerun are the
    UPDATE branch of every id that is not zero. *)
Lemma update_stmts_branch t key_of cols_of cols l :
  (∀ id e cv, cols_of id e = Ok cv → cv.*1 = cols) →
  Forall (entry_ok key_of cols_of) l →
  l ≫= update_stmts t key_of cols_of = keys key_of l ≫= update_branch t cols.
Proof.
  intros Hcols. induction 1 as [|e l Hok _ IH]; [done|].
  change ((e :: l) ≫= update_stmts t key_of cols_of)
    with (update_stmts t key_of cols_of e ++ (l ≫= update_stmts t key_of cols_of)).
  change (keys key_of (e :: l))
    with (from_option (λ k, k :: keys key_of l) (keys key_of l) (entry_key key_of e)).
  rewrite IH. unfold entry_ok, update_stmts, entry_key in *.
  destruct (key_of e) as [id|]; [|done].
  destruct (id =? 0) eqn:Hz; [done|].
  destruct Hok as [->|(cv & bs & Hcv & _)]; [done|].
  rewrite Hcv. simpl. by rewrite (Hcols _ _ _ Hcv).
Qed.

Lemma logged_loop_rerun t key_of cols_of extra cols pre post :
  (∀ id e cv, cols_of id e = Ok cv → cv.*1 = cols) →
  rerun_adds_no_row t key_of cols
    (λ data, logged_loop pre post (for_each (upsert_step t key_of cols_of extra) data 0)).
Proof.
  intros Hcols data c n c1 H.
  apply logged_loop_inv in H as (c0 & H & Hdb & Htr).
  apply loop_ok in H as (-> & Hall & Hdom).
  set (c1' := add_log c1 [{| lvl := INFO; msg := pre; exc := None |}]).
  destruct (loop_rerun t key_of cols_of extra data 0 c1' Hall) as (c2' & H2 & Hdom2 & Htr2).
  { intros id Hid. apply elem_of_dom. simpl. rewrite Hdb, Hdom. set_solver. }
  apply (logged_loop_run pre post) in H2 as (c2 & H2 & Hdb2 & Htr2').
  exists c2. split; [done|]. split; [lia|].
  assert (dom (get_table (db c2) t) = dom (get_table (db c1) t)) as Hsame
    by (by rewrite Hdb2, Hdom2).
  split; [exact Hsame|]. split; [by rewrite <- !size_dom, Hsame|].
  rewrite Htr2', Htr2. simpl. f_equal. by apply update_stmts_branch.
Qed.

Lemma season_columns_names cur id e cv :
  season_columns cur id e = Ok cv → cv.*1 = season_column_names.
Proof.
  unfold season_columns, mbind, result_bind, mret, result_ret.
  destruct (py_str_in "Preseason" _) as [pre|]; [|done].
  destruct (if pre then _ else _) as [season_type|]; [|done].
  destruct (match py_int _ with Ok _ => _ | Raise _ => _ end) as [sort|]; [|done].
  by intros [= <-].
Qed.

(** C6, as amended: running [update_leagues], [update_conferences],
    [update_divisions] or [update_seasons] a second time with the input of
    a run that has just returned leaves the rows of the table as many as
    they were; the second run returns the same count and takes the UPDATE
    branch for every record whose id is not zero, in the order of the
    input: it looks the id up and updates its row, and issues no INSERT nor
    any other statement.  A record whose id is missing or zero is skipped by
    both runs. *)
Theorem update_twice_keeps_row_count :
  rerun_adds_no_row "leagues" league_key league_columns update_leagues ∧
  rerun_adds_no_row "conferences" conference_key name_column update_conferences ∧
  rerun_adds_no_row "divisions" league_key name_column update_divisions ∧
  rerun_adds_no_row "seasons" league_key season_column_names update_seasons.
Proof.
  split; [|split; [|split]].
  - apply (logged_loop_rerun "leagues" league_key league_cols []).
    by intros id e cv [= <-].
  - apply (logged_loop_rerun "conferences" conference_key conference_cols []).
    by intros id e cv [= <-].
  - apply (logged_loop_rerun "divisions" league_key division_cols []).
    by intros id e cv [= <-].
  - intros data c n c1 H.
    unfold update_seasons in *.
    unfold mbind at 2, M_bind at 2, lift at 1 in H.
    unfold mbind at 2, M_bind at 2, lift at 1.
    destruct (current_season_id_of data) as [cur|x] eqn:Hcur.
    + apply (logged_loop_rerun "seasons" league_key (season_columns cur)
               [("start_date", VStr "")] season_column_names _ _
               (season_columns_names cur) data c n c1 H).
    + exfalso. revert H. unfold mbind, M_bind, logger. simpl. done.
Qed.

(** C6 fails as stated for a record without an id: both runs skip it, so
    that the second run does not take the UPDATE branch for it; it issues
    no statement at all. *)
Lemma update_twice_skips_record_counterexample :
  let c1 := (update_leagues [league_without_id] (fresh_conn empty_db)).2 in
  let rc2 := update_leagues [league_without_id] c1 in
  rc2.1 = Ok 0 ∧ trace rc2.2 = [] ∧
  size (get_table (db rc2.2) "leagues") = 0%nat.
Proof. cbv zeta. split_and!; vm_compute; reflexivity. Qed.

Lemma bind_param_int_range id :
  - 2 ^ 63 ≤ id < 2 ^ 63 → bind_param (VInt id) = Ok (SInt id).
Proof.
  intros [Hlo Hhi]. unfold bind_param.
  apply Z.leb_le in Hlo. apply Z.ltb_lt in Hhi. by rewrite Hlo, Hhi.
Qed.

(** C1, as amended: for a league record whose id coerces to an integer
    that is not zero and is in the leagues table (a 64-bit key), the loop
    body of [update_leagues] issues the SELECT and then an UPDATE on that
    primary key and no INSERT; the ids of the table stay the same and, when
    the values bind, the row of that id takes them.  End to end: inserting
    [{id:1, name:"PWHL", code:"pwhl"}] and then feeding
    [{id:1, name:"PWHL Updated", code:"pwhl-new"}] leaves exactly one row,
    [(1, "PWHL Updated", "pwhl-new")]. *)
Theorem update_leagues_updates_existing_id :
  (∀ league n c id r,
     py_int (dict_get league "id" (VInt 0)) = Ok id →
     id ≠ 0 →
     - 2 ^ 63 ≤ id < 2 ^ 63 →
     get_table (db c) "leagues" !! id = Some r →
     ∃ res c',
       update_league league n c = (res, c') ∧
       trace c' = trace c ++
         [SELECT "leagues" id;
          UPDATE "leagues" ["name"; "short_name"; "code"; "logo"] id] ∧
       dom (get_table (db c') "leagues") = dom (get_table (db c) "leagues") ∧
       ∀ bs,
         bind_params [("name", dict_get league "name" (VStr ""));
                      ("short_name", dict_get league "short_name" (VStr ""));
                      ("code", dict_get league "code" (VStr ""));
                      ("logo", dict_get league "logo_image" (VStr ""))] = Ok bs →
         res = Ok (n + 1) ∧
         get_table (db c') "leagues" =
           <[id := list_to_map bs ∪ r]> (get_table (db c) "leagues")) ∧
  (let c1 := (update_leagues [league_1] (fresh_conn empty_db)).2 in
   let rc2 := update_leagues [league_1_updated] c1 in
   rc2.1 = Ok 1 ∧
   select_columns ["id"; "name"; "code"] (get_table (db rc2.2) "leagues")
     = [[SInt 1; SText "PWHL Updated"; SText "pwhl-new"]] ∧
   size (get_table (db rc2.2) "leagues") = 1%nat ∧
   drop (List.length (trace c1)) (trace rc2.2) =
     [SELECT "leagues" 1;
      UPDATE "leagues" ["name"; "short_name"; "code"; "logo"] 1]).
Proof.
  split.
  - intros league n c id r Hid Hnz Hrange Hr.
    rewrite update_league_shape, upsert_step_unfold.
    unfold league_key, league_cols. rewrite Hid.
    apply Z.eqb_neq in Hnz as ->.
    rewrite (bind_param_int_range id Hrange), Hr. cbv zeta.
    destruct (bind_params _) as [bs|x] eqn:Hbs.
    + eexists _, _. split; [done|]. split; [done|].
      rewrite tbl_updated. split.
      * rewrite dom_insert_L. apply elem_of_dom_2 in Hr. set_solver.
      * by intros ? [= <-].
    + eexists _, _. split; [done|]. split; [done|]. split; [done|].
      done.
  - vm_compute. done.
Qed.

(** The theorem at the row of league 1 of a table that holds it. *)
Lemma update_leagues_updates_existing_id_witness :
  ∃ res c',
    update_league league_1_updated 0
      ((update_leagues [league_1] (fresh_conn empty_db)).2) = (res, c') ∧
    drop 2 (trace c') =
      [SELECT "leagues" 1;
       UPDATE "leagues" ["name"; "short_name"; "code"; "logo"] 1].
Proof.
  destruct (proj1 update_leagues_updates_existing_id league_1_updated 0
              ((update_leagues [league_1] (fresh_conn empty_db)).2) 1
              {[ "name" := SText "PWHL"; "short_name" := SText "";
                 "code" := SText "pwhl"; "logo" := SText "" ]})
    as (res & c' & H & Htr & _).
  - reflexivity.
  - lia.
  - lia.
  - vm_compute. reflexivity.
  - exists res, c'. split; [exact H|]. rewrite Htr. reflexivity.
Defined.

(** C1 fails as stated for the id 0: the row of id 0 is in the table, the
    record of id 0 is skipped by [if not league_id: continue], no UPDATE is
    issued and the row keeps what it held. *)
Lemma update_leagues_zero_id_counterexample :
  is_Some (get_table league_0_stored "leagues" !! 0) ∧
  py_int (dict_get league_0 "id" (VInt 0)) = Ok 0 ∧
  (let rc := update_leagues [league_0] (fresh_conn league_0_stored) in
   rc.1 = Ok 0 ∧ trace rc.2 = [] ∧
   select_columns ["id"; "name"] (get_table (db rc.2) "leagues")
     = [[SInt 0; SText "Stored"]]).
Proof.
  split; [by eexists|]. split; [reflexivity|].
  cbv zeta. split_and!; vm_compute; reflexivity.
Qed.

Lemma keys_length key_of (l : list dict) :
  List.length (keys key_of l) =
  List.length (filter (λ e, is_Some (entry_key key_of e)) l).
Proof.
  induction l as [|e l IH]; [done|].
  change (keys key_of (e :: l))
    with (from_option (λ k, k :: keys key_of l) (keys key_of l) (entry_key key_of e)).
  destruct (entry_key key_of e) eqn:E; simpl.
  - rewrite filter_cons_True by (rewrite E; eauto). simpl. by rewrite IH.
  - rewrite filter_cons_False by (rewrite E; by intros [? ?]). done.
Qed.

(** A run returns whenever every id coerces to an integer that fits 64
    bits and every value binds. *)
Lemma update_leagues_returns data c :
  Forall (entry_ok league_key league_cols) data →
  ∃ n c', update_leagues data c = (Ok n, c').
Proof.
  intros Hall.
  destruct (loop_total "leagues" league_key league_cols [] data 0
              (add_log c [info "Updating leagues..."])) as (n & c1 & H);
    [by exists []|done|].
  rewrite <- update_league_shape in H.
  apply (logged_loop_run "Updating leagues..." "Updated {updated_count} leagues") in H
    as (c' & H & _).
  by exists n, c'.
Qed.

(** C9: [update_leagues] skips an entry whose "id" key is missing or
    coerces to 0: the iteration leaves the connection and the count as they
    were, so that no statement is issued for it; the total that a run
    returns is the number of entries whose id coerces to a nonzero
    integer. *)
Theorem update_leagues_skips_zero_ids :
  (∀ league n c,
     dict_lookup league "id" = None ∨
     py_int (dict_get league "id" (VInt 0)) = Ok 0 →
     update_league league n c = (Ok n, c)) ∧
  (∀ data c n c',
     update_leagues data c = (Ok n, c') →
     n = Z.of_nat (List.length (filter (λ e, league_has_id e = true) data))).
Proof.
  split.
  - intros league n c H.
    assert (py_int (dict_get league "id" (VInt 0)) = Ok 0) as H0.
    { destruct H as [H|H]; [|done]. unfold dict_get. by rewrite H. }
    rewrite update_league_shape, upsert_step_unfold. unfold league_key.
    by rewrite H0.
  - intros data c n c' H.
    apply (logged_loop_inv _ _ (for_each update_league data 0)) in H as (c1 & H & _).
    rewrite update_league_shape in H. apply loop_ok in H as (-> & _ & _).
    rewrite keys_length. rewrite Z.add_0_l. do 2 f_equal.
    apply list_filter_iff. intros e. unfold entry_key, league_has_id, league_key.
    destruct (py_int _) as [id|]; [|split; [by intros [? ?]|done]].
    destruct (id =? 0); simpl; split; eauto; try done.
Qed.

Lemma update_leagues_skips_zero_ids_witness :
  update_league [("name", VStr "PWHL")] 0 (fresh_conn empty_db)
    = (Ok 0, fresh_conn empty_db) ∧
  1 = Z.of_nat (List.length (filter (λ e, league_has_id e = true)
        [[("id", VStr "1")]; [("name", VStr "PWHL")]; [("id", VInt 0)]])).
Proof.
  split.
  - apply (proj1 update_leagues_skips_zero_ids). left. reflexivity.
  - apply (proj2 update_leagues_skips_zero_ids _ (fresh_conn empty_db) 1
             (update_leagues [[("id", VStr "1")]; [("name", VStr "PWHL")];
                              [("id", VInt 0)]] (fresh_conn empty_db)).2).
    vm_compute. reflexivity.
Defined.

Lemma update_twice_keeps_row_count_witness :
  let c1 := (update_leagues [league_1; league_without_id] (fresh_conn empty_db)).2 in
  ∃ c2,
    update_leagues [league_1; league_without_id] c1 = (Ok 1, c2) ∧
    1 = Z.of_nat (List.length (keys league_key [league_1; league_without_id])) ∧
    dom (get_table (db c2) "leagues") = dom (get_table (db c1) "leagues") ∧
    size (get_table (db c2) "leagues") = size (get_table (db c1) "leagues") ∧
    trace c2 = trace c1 ++
      (keys league_key [league_1; league_without_id]
         ≫= update_branch "leagues" league_columns).
Proof.
  apply (proj1 update_twice_keeps_row_count [league_1; league_without_id]
           (fresh_conn empty_db)).
  vm_compute. reflexivity.
Defined.

(** *** The current season *)

Lemma bind_params_lookup cv bs k :
  bind_params cv = Ok bs →
  (list_to_map bs : row) !! k =
  match dict_lookup cv k with
  | Some v => if bind_param v is Ok b then Some b else None
  | None => None
  end.
Proof.
  revert bs. induction cv as [|[k' v] cv IH]; intros bs; simpl.
  - by intros [= <-].
  - destruct (bind_param v) as [b|] eqn:Hb; simpl; [|done].
    destruct (bind_params cv) as [bs'|]; simpl; [|done].
    intros [= <-]. simpl. destruct (String.eqb_spec k' k) as [->|Hne].
    + by rewrite lookup_insert_eq, Hb.
    + rewrite lookup_insert_ne by done. by apply IH.
Qed.

Lemma season_columns_current cur id e cv bs :
  season_columns cur id e = Ok cv →
  bind_params cv = Ok bs →
  (list_to_map bs : row) !! "current"
    = Some (SInt (if bool_decide (cur = Some id) then 1 else 0)).
Proof.
  unfold season_columns, mbind, result_bind, mret, result_ret.
  intros Hcv Hbs. rewrite (bind_params_lookup _ _ "current" Hbs).
  destruct (py_str_in "Preseason" _) as [pre|]; [|done].
  destruct (match py_int _ with Ok z => Ok z | Raise _ => _ end) as [sort|] eqn:Hsort.
  - destruct pre.
    + injection Hcv as <-. simpl. by destruct (bool_decide _).
    + destruct (py_str_in "Playoffs" _) as [play|]; [|done].
      injection Hcv as <-. simpl. by destruct (bool_decide _).
  - destruct pre; [done|]. by destruct (py_str_in "Playoffs" _).
Qed.

Lemma elem_of_keys key_of (l : list dict) e id :
  e ∈ l → key_of e = Ok id → id ≠ 0 → id ∈ keys key_of l.
Proof.
  intros He Hk Hnz. apply list_elem_of_omap. exists e. split; [done|].
  unfold entry_key. rewrite Hk. by apply Z.eqb_neq in Hnz as ->.
Qed.

Lemma find_current_elem data cur :
  find_current data = Ok (Some cur) → ∃ e, e ∈ data ∧ league_key e = Ok cur.
Proof.
  induction data as [|e data IH]; simpl; [done|].
  destruct (flagged_current e).
  - unfold mbind, result_bind. fold (league_key e).
    destruct (league_key e) as [id|] eqn:Hk; [|done].
    intros [= <-]. exists e. split; [left|done].
  - intros H. destruct (IH H) as (e' & ? & ?). exists e'. split; [by right|done].
Qed.

Lemma season_ids_elem data ids id :
  season_ids data = Ok ids → id ∈ ids → ∃ e, e ∈ data ∧ league_key e = Ok id.
Proof.
  revert ids. induction data as [|e data IH]; intros ids; simpl.
  - intros [= <-] H. by apply elem_of_nil in H.
  - unfold mbind, result_bind. fold (league_key e).
    destruct (league_key e) as [ide|] eqn:Hk; [|done].
    destruct (season_ids data) as [ids'|]; [|done].
    intros [= <-] [->|Hin]%elem_of_cons.
    + exists e. split; [left|done].
    + destruct (IH _ eq_refl Hin) as (e' & ? & ?). exists e'. split; [by right|done].
Qed.

Lemma py_max_elem x xs : py_max x xs ∈ x :: xs.
Proof.
  unfold py_max. revert x. induction xs as [|y xs IH]; intros x; simpl; [left|].
  pose proof (IH (Z.max x y)) as [Heq|Hin]%elem_of_cons.
  - rewrite Heq. destruct (Z.max_spec x y) as [[_ ->]|[_ ->]].
    + right; left.
    + left.
  - right; by right.
Qed.

Lemma current_season_id_elem data cur :
  current_season_id_of data = Ok (Some cur) →
  ∃ e, e ∈ data ∧ league_key e = Ok cur.
Proof.
  unfold current_season_id_of, mbind, result_bind.
  destruct (find_current data) as [[c0|]|] eqn:Hf; [| |done].
  - intros [= ->]. by apply find_current_elem.
  - destruct data as [|e0 data0]; [done|].
    destruct (season_ids (e0 :: data0)) as [[|x xs]|] eqn:Hids; [done| |done].
    intros [= <-]. eapply season_ids_elem; [done|]. apply py_max_elem.
Qed.

Lemma nodup_all_eq (l : list Z) x :
  NoDup l → x ∈ l → (∀ y, y ∈ l → y = x) → l = [x].
Proof.
  intros Hnd Hin Hall. destruct l as [|a l]; [by apply elem_of_nil in Hin|].
  assert (a = x) as -> by (apply Hall; left).
  destruct l as [|b l]; [done|].
  assert (b = x) as -> by (apply Hall; right; left).
  apply NoDup_cons in Hnd as [Hnd _]. exfalso. apply Hnd. left.
Qed.




End basic_info_facts.

(** ** [get_games_without_play_by_play] *)

Section backfill_facts.
Import play_by_play.

#[local] Instance id_le_total : Total id_le.
Proof. intros a b. unfold id_le. lia. Qed.

Lemma elem_of_pbp_game_ids d g :
  SInt g ∈ pbp_game_ids d ↔ has_event_row d g.
Proof.
  unfold pbp_game_ids, has_event_row.
  rewrite elem_of_remove_dups, list_elem_of_join. split.
  - intros (l & Hg & [t [-> Ht]]%list_elem_of_fmap).
    unfold distinct_game_ids in Hg.
    apply elem_of_remove_dups, list_elem_of_fmap in Hg as ([k er] & Hg & Her).
    apply elem_of_map_to_list in Her. simpl in Hg.
    exists t, k, er. split; [done|]. split; [done|].
    destruct (er !! "game_id"); simpl in Hg; congruence.
  - intros (t & k & er & Ht & Her & Hg).
    exists (distinct_game_ids d t). split.
    + unfold distinct_game_ids. apply elem_of_remove_dups, list_elem_of_fmap.
      exists (k, er). split; [by simpl; rewrite Hg|]. by apply elem_of_map_to_list.
    + apply list_elem_of_fmap. by exists t.
Qed.

Lemma filter_eq_nil {A} (P : A → Prop) `{∀ x, Decision (P x)} (l : list A) :
  filter P l = [] ↔ ∀ x, x ∈ l → ¬ P x.
Proof.
  split.
  - intros Hf x Hx HP. by eapply filter_nil_not_elem_of.
  - intros Hall. induction l as [|a l IH]; [done|].
    rewrite filter_cons_False by (apply Hall; left).
    apply IH. intros x Hx. apply Hall. by right.
Qed.

Lemma elem_of_left_join_null games ids g r :
  ((g, r), SNull) ∈ filter (λ j, where_clause j = true) (left_join games ids) ↔
  (g, r) ∈ games ∧ (SInt g ∉ ids) ∧ cell g r "status" = SText "Final".
Proof.
  assert (where_clause ((g, r), SNull) = true ↔ cell g r "status" = SText "Final") as Hw.
  { unfold where_clause. rewrite andb_true_iff, !bool_decide_eq_true. simpl. tauto. }
  rewrite list_elem_of_filter. cbv beta. rewrite Hw. unfold left_join.
  rewrite list_elem_of_bind. split.
  - intros [Hst ([g' r'] & Hj & Hg)]. simpl in Hj.
    destruct (filter (λ x, x = SInt g') ids) as [|m ms] eqn:Hf.
    + apply list_elem_of_singleton in Hj. injection Hj as -> ->.
      split; [done|]. split; [|done].
      intros Hin. by eapply (filter_nil_not_elem_of _ _ _ Hf).
    + apply list_elem_of_fmap in Hj as (m' & [= -> -> <-] & Hm').
      rewrite <- Hf in Hm'. apply list_elem_of_filter in Hm' as [? _]. done.
  - intros (Hg & Hnin & Hst). split; [done|].
    exists (g, r). split; [|done]. simpl.
    assert (filter (λ x, x = SInt g) ids = []) as ->; [|left].
    apply filter_eq_nil. intros x Hx ->. done.
Qed.

Lemma left_join_row_fst (g : Z * row) (ids : list sqlval) j :
  j ∈ (let matches := filter (λ x, x = SInt g.1) ids in
       if matches is [] then [(g, SNull)] else (λ m, (g, m)) <$> matches) →
  j.1 = g.
Proof.
  cbv zeta. destruct (filter (λ x, x = SInt g.1) ids) as [|m ms].
  - intros ->%list_elem_of_singleton. done.
  - intros (? & -> & _)%list_elem_of_fmap. done.
Qed.

Lemma where_clause_null j : where_clause j = true → j.2 = SNull.
Proof.
  unfold where_clause. rewrite andb_true_iff, bool_decide_eq_true. by intros [? _].
Qed.

(** C2, as the code has it: [get_games_without_play_by_play] returns, in
    the order of their ids, exactly the games whose status is ['Final'] and
    that have no row in any of the eight play-by-play tables, each with its
    season id; it changes nothing in the database. *)
Theorem get_games_without_play_by_play_final_only :
  (∀ c, get_games_without_play_by_play c
        = (Ok (games_without_play_by_play (db c)), add_trace c [SELECT_games_without_pbp])) ∧
  (∀ d g s,
     (g, s) ∈ games_without_play_by_play d ↔
     ∃ r, get_table d "games" !! g = Some r ∧
          cell g r "status" = SText "Final" ∧
          s = cell g r "season_id" ∧
          ¬ has_event_row d g) ∧
  (∀ d, Sorted id_le (games_without_play_by_play d) ∧
        NoDup (games_without_play_by_play d).*1).
Proof.
  split; [done|]. split.
  - intros d g s. unfold games_without_play_by_play, order_by_id.
    rewrite merge_sort_Permutation, list_elem_of_fmap. split.
    + intros ([[g' r] m] & [= -> ->] & Hj). simpl in *.
      assert (m = SNull) as ->.
      { apply list_elem_of_filter in Hj as [Hw _]. by apply where_clause_null in Hw. }
      apply elem_of_left_join_null in Hj as (Hg & Hnin & Hst).
      apply elem_of_map_to_list in Hg. rewrite elem_of_pbp_game_ids in Hnin.
      by exists r.
    + intros (r & Hr & Hst & -> & Hno).
      exists ((g, r), SNull). split; [done|].
      apply elem_of_left_join_null. split; [by apply elem_of_map_to_list|].
      split; [|done]. by rewrite elem_of_pbp_game_ids.
  - intros d. split; [apply Sorted_merge_sort; apply _|].
    unfold games_without_play_by_play, order_by_id.
    rewrite merge_sort_Permutation.
    rewrite <- list_fmap_compose.
    set (js := filter _ _).
    assert (∀ j, j ∈ js → j.1 ∈ map_to_list (get_table d "games") ∧ j.2 = SNull) as Hjs.
    { intros [[g r] m] Hj. simpl.
      assert (m = SNull) as ->.
      { apply list_elem_of_filter in Hj as [Hw _]. by apply where_clause_null in Hw. }
      apply elem_of_left_join_null in Hj as (Hg & _). done. }
    assert (NoDup js) as Hnd.
    { apply NoDup_filter. unfold left_join.
      apply NoDup_bind.
      - intros [g1 r1] [g2 r2] j _ _ H1 H2.
        apply left_join_row_fst in H1, H2. congruence.
      - intros [g r] _. simpl.
        destruct (filter (λ x, x = SInt g) (pbp_game_ids d)) as [|m ms] eqn:Hf.
        + apply NoDup_singleton.
        + rewrite <- Hf. apply NoDup_fmap_2; [by intros ?? [=]|].
          apply NoDup_filter, NoDup_remove_dups.
      - apply NoDup_map_to_list. }
    clearbody js. induction Hnd as [|j js Hj Hnd IH]; [constructor|].
    simpl. apply NoDup_cons. split.
    + intros [j' [Heq Hj']]%list_elem_of_fmap. simpl in Heq.
      destruct (Hjs j) as [Hg1 Hn1]; [left|].
      destruct (Hjs j') as [Hg2 Hn2]; [by right|].
      destruct j as [[g1 r1] m1], j' as [[g2 r2] m2]. simpl in *. subst.
      apply elem_of_map_to_list in Hg1, Hg2.
      assert (r1 = r2) as -> by congruence. done.
    + apply IH. intros j' Hj'. apply Hjs. by right.
Qed.

(** C2 fails as stated: game 2 has no row in any play-by-play table, its
    status is not ['Final'], and it is not returned. *)
Lemma get_games_without_play_by_play_counterexample :
  is_Some (get_table two_games_no_events "games" !! 2) ∧
  Forall (λ t, get_pbp two_games_no_events t = ∅) pbp_table_names ∧
  (get_games_without_play_by_play (fresh_conn two_games_no_events)).1
    = Ok [(1, SInt 1)].
Proof.
  split; [by eexists|]. split; [|vm_compute; reflexivity].
  repeat constructor.
Qed.

End backfill_facts.

(** ** [process_game_play_by_play] *)

Section dispatch_facts.
Import play_by_play.
Variable fetch_play_by_play : Z → value.
Variable handler_body : string → list object → M bool.

Lemma handler_of_global event_type h :
  handler_of event_type = Some h → is_Some (ns_lookup module_globals h).
Proof.
  unfold handler_of. repeat case_match; intros [= <-]; by eexists.
Qed.

Lemma process_event_unfold locals (d : dict) total c :
  process_event handler_body locals (VDict d) total c =
  let event_type := dict_get d "event" VNone in
  let locals' := ("event_type", OValue event_type) :: ("event", OValue (VDict d)) :: locals in
  match handler_of event_type with
  | Some h =>
      match call_handler handler_body locals' h c with
      | (Ok ok, c1) => (Ok (if ok then total + 1 else total), c1)
      | (Raise e, c1) => (Ok total, add_log c1 [event_error e])
      end
  | None => (Ok total, c)
  end.
Proof.
  unfold process_event, try_except, mbind, M_bind, mret, M_ret, lift, logger. simpl.
  destruct (handler_of _); [|done].
  destruct (call_handler _ _ _ _) as [[ok|e] c1]; done.
Qed.


Lemma call_handler_name_error game_id season_id pbp_data home_team visiting_team
    events event event_type h c :
  handler_of event_type = Some h →
  call_handler handler_body
    (("event_type", OValue event_type) :: ("event", OValue event)
       :: function_locals game_id season_id pbp_data home_team visiting_team events)
    h c = (Raise (NameError "home_team_id"), c).
Proof.
  unfold handler_of. repeat case_match; intros [= <-]; reflexivity.
Qed.

Lemma process_event_name_error game_id season_id pbp_data home_team visiting_team
    events (d : dict) h total c :
  handler_of (dict_get d "event" VNone) = Some h →
  process_event handler_body
    (function_locals game_id season_id pbp_data home_team visiting_team events)
    (VDict d) total c
  = (Ok total, add_log c [event_error (NameError "home_team_id")]).
Proof.
  intros Hh. rewrite process_event_unfold. cbv zeta. rewrite Hh.
  by rewrite (call_handler_name_error _ _ _ _ _ _ _ _ _ _ Hh).
Qed.

Lemma events_loop_enters_nothing game_id season_id pbp_data home_team visiting_team
    events (l : list value) : ∀ total c,
  let rc := for_each (process_event handler_body
              (function_locals game_id season_id pbp_data home_team visiting_team events))
              l total c in
  entered rc.2 = entered c ∧ db rc.2 = db c ∧ ∀ n, rc.1 = Ok n → n = total.
Proof.
  induction l as [|ev l IH]; intros total c; simpl.
  - split; [done|]. split; [done|]. by intros n [= <-].
  - unfold mbind, M_bind.
    destruct ev as [| | | | |d];
      try (simpl; split; [done|]; split; [done|]; by intros n [=]).
    rewrite process_event_unfold. cbv zeta.
    destruct (handler_of _) as [h|] eqn:Hh; [|exact (IH total c)].
    rewrite (call_handler_name_error _ _ _ _ _ _ _ _ _ _ Hh).
    exact (IH total (add_log c [event_error (NameError "home_team_id")])).
Qed.

(** C3: where the dispatcher calls a handler, neither [home_team_id] nor
    [away_team_id] is bound (the function binds [home_team] and
    [visiting_team]; the module and the builtins bind neither name), so that
    for every recognized event the call raises [NameError] while its
    arguments are read, inside the [try] block: the error is logged, the
    count stays as it was, and no handler body is ever entered. *)
Theorem dispatcher_team_ids_are_undefined :
  (∀ game_id season_id pbp_data home_team visiting_team events event event_type,
     let locals :=
       ("event_type", OValue event_type) :: ("event", OValue event)
         :: function_locals game_id season_id pbp_data home_team visiting_team events in
     lookup_name locals "home_team" = Ok (OValue home_team) ∧
     lookup_name locals "visiting_team" = Ok (OValue visiting_team) ∧
     lookup_name locals "home_team_id" = Raise (NameError "home_team_id") ∧
     lookup_name locals "away_team_id" = Raise (NameError "away_team_id")) ∧
  (∀ game_id season_id pbp_data home_team visiting_team events (d : dict) h total c,
     handler_of (dict_get d "event" VNone) = Some h →
     process_event handler_body
       (function_locals game_id season_id pbp_data home_team visiting_team events)
       (VDict d) total c
     = (Ok total, add_log c [event_error (NameError "home_team_id")])) ∧
  (∀ game_id season_id c,
     let rc := process_game_play_by_play fetch_play_by_play handler_body
                 game_id season_id c in
     entered rc.2 = entered c ∧ ∀ n, rc.1 = Ok n → n = 0).
Proof.
  split; [done|]. split.
  - intros. by eapply process_event_name_error.
  - intros game_id season_id c. cbv zeta.
    unfold process_game_play_by_play.
    set (pbp_data := fetch_play_by_play game_id).
    unfold get_game_teams, select_by_id, issue, get_db, lift, logger, commit,
      mbind, M_bind, mret, M_ret.
    destruct (if truthy pbp_data then _ else _) as [has_gc|x]; [|by split].
    destruct (if has_gc then _ else _) as [has_pxp|x]; [|by split].
    destruct has_pxp; simpl; [|split; [done|]; by intros n [= <-]].
    destruct (bind_param (VInt game_id)); simpl; [|by split].
    destruct (get_table (db c) "games" !! game_id) as [r0|]; simpl;
      [|split; [done|]; by intros n [= <-]].
    match goal with |- context [if ?b then _ else _] => destruct b end; simpl;
      [split; [done|]; by intros n [= <-]|].
    all: destruct (py_item pbp_data "GC") as [gc|x]; simpl; [|by split].
    all: destruct (py_item gc "Pxpverbose") as [events|x]; simpl; [|by split].
    all: destruct (py_iter events) as [event_list|x]; simpl; [|by split].
    all: match goal with
         | |- context [for_each (process_event _ (function_locals ?a ?b ?p ?h ?v ?e)) ?l ?t ?c0] =>
             pose proof (events_loop_enters_nothing a b p h v e l t c0) as H;
             cbv zeta in H;
             destruct (for_each (process_event handler_body (function_locals a b p h v e)) l t c0)
               as [[total|x] c2]
         end; simpl in *; destruct H as (H1 & H2 & H3).
    all: split; [done|]; try done.
    all: intros n [= <-]; by apply H3.
Qed.

End dispatch_facts.

Lemma dispatcher_team_ids_are_undefined_witness :
  play_by_play.process_event (λ _ _, mret true)
    (play_by_play.function_locals 1 1 VNone (VInt 1) (VInt 2) (VList []))
    (VDict [("event", VStr "goal"); ("team_id", VStr "1")]) 0 (fresh_conn empty_db)
  = (Ok 0, add_log (fresh_conn empty_db) [event_error (NameError "home_team_id")]).
Proof.
  apply (proj1 (proj2 (dispatcher_team_ids_are_undefined (λ _, VNone) (λ _ _, mret true)))
           1 1 VNone (VInt 1) (VInt 2) (VList [])
           [("event", VStr "goal"); ("team_id", VStr "1")] "process_goal").
  reflexivity.
Defined.



(** ** [update_player] *)

Section players_facts.
Import players.
Variable extract_hometown_parts : value → result (value * value).
Variable extract_team_id_from_url : value → result value.
Variable extract_height_weight : value → value → result (value * value).
Variable players_columns : list string.

Local Abbreviation extract_player_fields :=
  (players.extract_player_fields extract_hometown_parts extract_team_id_from_url
     extract_height_weight).
Local Abbreviation update_player :=
  (players.update_player extract_hometown_parts extract_team_id_from_url
     extract_height_weight players_columns).

#[local] Arguments truthy : simpl never.
#[local] Arguments bind_params : simpl never.

Lemma update_player_unfold player_data c :
  update_player player_data c =
  match extract_player_fields player_data with
  | Raise x => (Raise x, c)
  | Ok None => (Ok false, c)
  | Ok (Some fields) =>
      match dict_lookup fields "id" with
      | Some (VInt player_id) =>
          match bind_param (VInt player_id) with
          | Raise x => (Raise x, add_trace c [SELECT "players" player_id])
          | Ok _ =>
              match get_table (db c) "players" !! player_id with
              | None =>
                  let cv := filter (λ kv, kv.1 ≠ "id") fields in
                  let c2 := add_trace c [SELECT "players" player_id;
                                         INSERT "players" ("id" :: cv.*1) player_id] in
                  if forallb (λ k, bool_decide (k ∈ players_columns)) fields.*1 then
                    match bind_params cv with
                    | Raise x => (Raise x, c2)
                    | Ok bs =>
                        (Ok true,
                         committed_with_log
                           (updated "players" c2 player_id (list_to_map bs))
                           [info "Added new player: {first_name} {last_name} (ID: {player_id})"])
                    end
                  else (Raise (Sqlite3Error OperationalError), c2)
              | Some existing =>
                  let changes := changes_of fields player_id existing players_columns in
                  if truthy (VDict changes) then
                    let c3 := add_trace c [SELECT "players" player_id;
                                           PRAGMA_table_info "players";
                                           UPDATE "players" changes.*1 player_id] in
                    match bind_params changes with
                    | Raise x => (Raise x, c3)
                    | Ok bs =>
                        (Ok true,
                         committed_with_log
                           (updated "players" c3 player_id (list_to_map bs ∪ existing))
                           [info "Updated player: {first_name} {last_name} (ID: {player_id})";
                            debug "Fields changed: {changes}"])
                    end
                  else
                    (Ok false,
                     add_log (add_trace c [SELECT "players" player_id;
                                           PRAGMA_table_info "players"])
                       [debug "No changes needed for player ID {player_id}"])
              end
          end
      | _ => (Raise KeyError, c)
      end
  end.
Proof.
  unfold players.update_player, mbind, M_bind, mret, M_ret, lift at 1.
  destruct extract_player_fields as [[fields|]|x]; [|done|done].
  destruct (dict_lookup fields "id") as [[| | player_id | | |]|]; try done.
  unfold select_by_id, exec_update, exec_insert, issue, get_db, put_db, raise,
    commit, logger, mbind, M_bind, mret, M_ret, lift; simpl.
  unfold committed_with_log, updated, with_db, add_trace, add_log, info, debug; simpl.
  destruct (bind_param (VInt player_id)) as [b|x] eqn:Hb; [|done].
  simpl. destruct (get_table (db c) "players" !! player_id) as [existing|] eqn:Hr; simpl.
  - remember (changes_of fields player_id existing players_columns) as changes.
    destruct (truthy (VDict changes)); simpl; rewrite <- ?app_assoc; [|done].
    destruct (bind_params changes) as [bs|x] eqn:Hbs; simpl; [|done].
    rewrite Hr. simpl. rewrite <- ?app_assoc. done.
  - destruct (forallb _ _); simpl; rewrite <- ?app_assoc; simpl; [|done].
    destruct (bind_params _) as [bs|x] eqn:Hbs; simpl; rewrite <- ?app_assoc; simpl; [|done].
    rewrite Hr. simpl. rewrite <- ?app_assoc. done.
Qed.

Lemma changes_of_elem fields id existing columns col v :
  (col, v) ∈ changes_of fields id existing columns →
  col ∈ columns ∧ dict_lookup fields col = Some v ∧
  py_eq_cell v (cell id existing col) = false ∧
  (col ∈ preserve_fields → truthy v = true).
Proof.
  induction columns as [|column rest IH]; simpl; [by intros ?%elem_of_nil|].
  intros Hin.
  assert ((col, v) ∈ changes_of fields id existing rest →
          col ∈ column :: rest ∧ dict_lookup fields col = Some v ∧
          py_eq_cell v (cell id existing col) = false ∧
          (col ∈ preserve_fields → truthy v = true)) as Hrest.
  { intros H. destruct (IH H) as (? & ? & ? & ?). split; [by right|done]. }
  destruct (dict_lookup fields column) as [v0|] eqn:Hv0; [|by apply Hrest].
  case_bool_decide as Hp.
  - destruct (truthy v0) eqn:Ht; simpl in Hin; [|by apply Hrest].
    destruct (py_eq_cell v0 _) eqn:He; simpl in Hin; [by apply Hrest|].
    apply elem_of_cons in Hin as [[= -> ->]|Hin]; [|by apply Hrest].
    split; [left|]. done.
  - destruct (py_eq_cell v0 _) eqn:He; simpl in Hin; [by apply Hrest|].
    apply elem_of_cons in Hin as [[= -> ->]|Hin]; [|by apply Hrest].
    split; [left|]. done.
Qed.

Lemma changes_of_nil fields id existing columns :
  (∀ col v, col ∈ columns → dict_lookup fields col = Some v →
            py_eq_cell v (cell id existing col) = true ∨
            (col ∈ preserve_fields ∧ truthy v = false)) →
  changes_of fields id existing columns = [].
Proof.
  intros H. destruct (changes_of fields id existing columns) as [|[col v] l] eqn:E; [done|].
  assert ((col, v) ∈ changes_of fields id existing columns) as Hin by (rewrite E; left).
  apply changes_of_elem in Hin as (Hc & Hv & He & Hp).
  destruct (H col v Hc Hv) as [?|[Hpr ?]]; [congruence|].
  specialize (Hp Hpr). congruence.
Qed.

Lemma bind_param_eq_cell v b : bind_param v = Ok b → py_eq_cell v b = true.
Proof.
  unfold bind_param. destruct v as [|[]|z|s| |]; try (intros [= <-]; simpl; done).
  - case_match; intros [= <-]. simpl. apply Z.eqb_refl.
  - intros [= <-]. simpl. apply String.eqb_refl.
Qed.

Lemma bind_params_head c0 v cv bs :
  bind_params ((c0, v) :: cv) = Ok bs →
  ∃ b bs', bind_param v = Ok b ∧ bs = (c0, b) :: bs'.
Proof.
  unfold bind_params; fold bind_params. unfold mbind, result_bind.
  destruct (bind_param v) as [b|]; [|done].
  destruct (bind_params cv) as [bs'|]; [|done].
  intros [= <-]. by eexists _, _.
Qed.

(** C5: for a player that is stored, a preserve-listed field whose
    extracted value is empty keeps the value it had in the row, whatever
    else the call changes and whether it returns or raises. *)
Theorem update_player_preserves_fields player_data fields player_id existing
    column v c :
  extract_player_fields player_data = Ok (Some fields) →
  dict_lookup fields "id" = Some (VInt player_id) →
  get_table (db c) "players" !! player_id = Some existing →
  column ∈ preserve_fields →
  dict_lookup fields column = Some v →
  truthy v = false →
  ∃ existing',
    get_table (db (update_player player_data c).2) "players" !! player_id
      = Some existing' ∧
    existing' !! column = existing !! column.
Proof.
  intros Hx Hid Hr Hp Hv Ht.
  rewrite update_player_unfold, Hx, Hid.
  destruct (bind_param (VInt player_id)) as [b|x]; [|by exists existing].
  rewrite Hr. cbv zeta.
  destruct (truthy (VDict _)); [|by exists existing].
  destruct (bind_params _) as [bs|x] eqn:Hbs; [|by exists existing].
  simpl. rewrite get_table_set, lookup_insert_eq. eexists. split; [done|].
  apply lookup_union_r, not_elem_of_list_to_map_1.
  rewrite (bind_params_fst _ _ Hbs).
  intros [[col v'] [Hcol Hin]]%list_elem_of_fmap. simpl in Hcol. subst col.
  apply changes_of_elem in Hin as (_ & Hv' & _ & Hpr).
  rewrite Hv in Hv'. injection Hv' as <-. specialize (Hpr Hp). congruence.
Qed.

(** C10: for a player that is stored, when every extracted field that is a
    column of the table equals the stored value or is an empty value of a
    preserve-listed field, [update_player] issues the SELECT and the PRAGMA
    only, leaves the database as it was and returns False.  And whenever it
    returns, it returns True exactly when it issued an INSERT or an UPDATE;
    on False the database is as it was, on True the players table has
    changed. *)
Theorem update_player_writes_iff_true :
  (∀ player_data fields player_id existing c,
     extract_player_fields player_data = Ok (Some fields) →
     dict_lookup fields "id" = Some (VInt player_id) →
     - 2 ^ 63 ≤ player_id < 2 ^ 63 →
     get_table (db c) "players" !! player_id = Some existing →
     (∀ col v, col ∈ players_columns → dict_lookup fields col = Some v →
               py_eq_cell v (cell player_id existing col) = true ∨
               (col ∈ preserve_fields ∧ truthy v = false)) →
     update_player player_data c =
       (Ok false,
        add_log (add_trace c [SELECT "players" player_id; PRAGMA_table_info "players"])
          [debug "No changes needed for player ID {player_id}"])) ∧
  (∀ player_data c b c',
     update_player player_data c = (Ok b, c') →
     (b = true ↔
      Exists (λ s, is_write s = true) (drop (List.length (trace c)) (trace c'))) ∧
     (b = false → db c' = db c ∧ committed c' = committed c) ∧
     (b = true → get_table (db c') "players" ≠ get_table (db c) "players")).
Proof.
  split.
  - intros player_data fields player_id existing c Hx Hid Hrange Hr Hsame.
    rewrite update_player_unfold, Hx, Hid, (bind_param_int_range _ Hrange), Hr.
    cbv zeta. by rewrite (changes_of_nil _ _ _ _ Hsame).
  - intros player_data c b c'. rewrite update_player_unfold.
    destruct extract_player_fields as [[fields|]|x]; [| |done].
    2:{ intros [= <- <-]. rewrite drop_all. split; [|done].
        split; [done|]. by intros ?%Exists_nil. }
    destruct (dict_lookup fields "id") as [[| | player_id | | |]|] eqn:Hid; try done.
    destruct (bind_param (VInt player_id)) as [bid|x]; [|done].
    destruct (get_table (db c) "players" !! player_id) as [existing|] eqn:Hr; cbv zeta.
    + destruct (changes_of _ _ _ _) as [|[col v] changes] eqn:Hch.
      * intros [= <- <-]. simpl. rewrite drop_app_length. split; [|done].
        split; [done|]. intros H.
        apply Exists_cons in H as [H|H]; [done|].
        apply Exists_cons in H as [H|H]; [done|]. by apply Exists_nil in H.
      * replace (truthy (VDict ((col, v) :: changes))) with true by done.
        destruct (bind_params _) as [bs|x] eqn:Hbs; [|done].
        intros [= <- <-]. simpl. rewrite drop_app_length. split; [|split; [done|]].
        { split; [|done]. intros _. do 2 right. by left. }
        intros _. rewrite get_table_set. intros Heq.
        assert (list_to_map bs ∪ existing = existing) as Hrow.
        { apply (f_equal (λ m : table, m !! player_id)) in Heq.
          rewrite lookup_insert_eq, Hr in Heq. by injection Heq. }
        apply bind_params_head in Hbs as (b & bs' & Hb & ->).
        assert ((col, v) ∈ changes_of fields player_id existing players_columns) as Hin
          by (rewrite Hch; left).
        apply changes_of_elem in Hin as (_ & Hv & He & _).
        apply (f_equal (λ m : row, m !! col)) in Hrow.
        rewrite (lookup_union_Some_l _ _ _ b) in Hrow by apply lookup_insert_eq.
        apply bind_param_eq_cell in Hb as Hbe.
        unfold cell in He. destruct (String.eqb_spec col "id") as [->|Hne].
        { rewrite Hid in Hv. injection Hv as <-. simpl in He.
          by rewrite Z.eqb_refl in He. }
        rewrite <- Hrow in He. simpl in He. congruence.
    + destruct (forallb _ _); [|done].
      destruct (bind_params _) as [bs|x] eqn:Hbs; [|done].
      intros [= <- <-]. simpl. rewrite drop_app_length. split; [|split; [done|]].
      { split; [|done]. intros _. right. by left. }
      intros _. rewrite get_table_set. intros Heq.
      apply (f_equal (λ m : table, m !! player_id)) in Heq.
      rewrite lookup_insert_eq, Hr in Heq. done.
Qed.

End players_facts.

(** ** [execute_query] and [execute_many] *)

Section driver_facts.
Import db_manager.
Variable driver_execute : string → list value → database → result Z * database.
Variable driver_executemany : string → list (list value) → database → result Z * database.
Variable driver_commit_error : database → option exn.

Local Abbreviation execute_query := (db_manager.execute_query driver_execute driver_commit_error).
Local Abbreviation execute_many := (db_manager.execute_many driver_executemany driver_commit_error).
Local Abbreviation run_and_commit := (run_and_commit driver_commit_error).
Local Abbreviation helper_outcome := (helper_outcome driver_commit_error).
Local Abbreviation commits_or_reraises := (commits_or_reraises driver_commit_error).

Lemma execute_query_outcome query params c :
  execute_query query params c =
  helper_outcome (driver_execute query (default [] params) (db c))
    (execute_query_log params) c.
Proof.
  unfold db_manager.execute_query, try_except_sqlite3, helper_outcome, run_and_commit,
    cursor_execute, conn_commit, commit, rollback, logger, raise, with_db,
    execute_query_log, error_with, debug, mbind, M_bind, mret, M_ret.
  destruct params as [[|p ps]|]; simpl.
  all: destruct (driver_execute _ _ _) as [[rowcount|e] d]; simpl.
  all: try (destruct (driver_commit_error d) as [e|]; simpl; [|done]).
  all: destruct (is_sqlite3_error e); simpl; rewrite <- ?app_assoc; done.
Qed.

Lemma execute_many_outcome query params_list c :
  execute_many query params_list c =
  helper_outcome (driver_executemany query params_list (db c)) execute_many_log c.
Proof.
  unfold db_manager.execute_many, try_except_sqlite3, helper_outcome, run_and_commit,
    cursor_executemany, conn_commit, commit, rollback, logger, raise, with_db,
    execute_many_log, error_with, debug, mbind, M_bind, mret, M_ret.
  destruct (driver_executemany _ _ _) as [[rowcount|e] d]; simpl.
  all: try (destruct (driver_commit_error d) as [e|]; simpl; [|done]).
  all: destruct (is_sqlite3_error e); simpl; rewrite <- ?app_assoc; done.
Qed.

Lemma helper_outcome_spec r ls c :
  commits_or_reraises r ls c (helper_outcome r ls c).
Proof.
  unfold commits_or_reraises, helper_outcome.
  destruct (run_and_commit r) as [[rowcount|e] d]; split_and!.
  - by intros ?? [= <- <-].
  - done.
  - intros ? [= <-]. by eexists.
  - done.
  - intros ?? [= <- <-]. destruct (is_sqlite3_error e) eqn:He; [|done].
    split; [done|]. intros _. simpl. by split_and!.
  - destruct (is_sqlite3_error e); by intros.
Qed.

(** C7: for every query and parameters, [execute_query] and
    [execute_many] either commit and return the row count that the driver
    reports, or raise the very exception that the driver raised; when it is
    a [sqlite3.Error] they have logged it at level ERROR and rolled the
    transaction back first.  They return normally only when the driver and
    the commit succeeded, so that no database error is swallowed. *)
Theorem execute_helpers_commit_or_reraise :
  (∀ query params c,
     commits_or_reraises (driver_execute query (default [] params) (db c))
       (execute_query_log params) c (execute_query query params c)) ∧
  (∀ query params_list c,
     commits_or_reraises (driver_executemany query params_list (db c))
       execute_many_log c (execute_many query params_list c)).
Proof.
  split.
  - intros. rewrite execute_query_outcome. apply helper_outcome_spec.
  - intros. rewrite execute_many_outcome. apply helper_outcome_spec.
Qed.

End driver_facts.

(** A driver whose every statement fails with [sqlite3.OperationalError]:
    [execute_query] raises that exception after logging it and rolling the
    pending insert of league 1 back. *)
Lemma execute_helpers_commit_or_reraise_witness :
  let failing : string → list value → database → result Z * database :=
    λ _ _ d, (Raise (Sqlite3Error OperationalError), d) in
  let c := with_db (fresh_conn empty_db)
             (db (basic_info.update_leagues [league_1] (fresh_conn empty_db)).2) in
  let out := db_manager.execute_query failing (λ _, None)
               "UPDATE leagues SET name = ? WHERE id = ?"
               (Some [VStr "PWHL"; VInt 1]) c in
  out.1 = Raise (Sqlite3Error OperationalError) ∧
  (db out.2 = empty_db ∧ committed out.2 = empty_db ∧
   logged out.2 =
     [error_with "Query execution error: {e}" (Sqlite3Error OperationalError);
      debug "Query: {query}"; debug "Parameters: {params}"]).
Proof.
  intros failing c out.
  destruct (proj1 (execute_helpers_commit_or_reraise failing
                     (λ _ _ d, (Ok 0, d)) (λ _, None))
              "UPDATE leagues SET name = ? WHERE id = ?"
              (Some [VStr "PWHL"; VInt 1]) c) as (_ & H & _).
  destruct (H (Sqlite3Error OperationalError) (db c) eq_refl) as [H1 H2].
  split; [exact H1|]. exact (H2 eq_refl).
Defined.

(** The payload of player 7 has no birth place, so that the extracted
    hometown is the empty string: the stored hometown stays. *)
Lemma update_player_preserves_fields_witness :
  ∃ existing',
    get_table (db (sample_update_player jane_payload (fresh_conn jane_stored)).2)
      "players" !! 7 = Some existing' ∧
    existing' !! "hometown" = Some (SText "Toronto").
Proof.
  eapply (update_player_preserves_fields sample_hometown_parts sample_team_id
            sample_height_weight sample_columns jane_payload _ 7 jane_row
            "hometown" (VStr "") (fresh_conn jane_stored)).
  - vm_compute. reflexivity.
  - reflexivity.
  - vm_compute. reflexivity.
  - vm_compute. left.
  - reflexivity.
  - reflexivity.
Defined.

Lemma update_player_writes_iff_true_witness :
  sample_update_player jane_payload (fresh_conn jane_stored) =
    (Ok false,
     add_log (add_trace (fresh_conn jane_stored)
                [SELECT "players" 7; PRAGMA_table_info "players"])
       [debug "No changes needed for player ID {player_id}"]) ∧
  (false = true ↔
   Exists (λ s, is_write s = true)
     (drop 0 (trace (sample_update_player jane_payload (fresh_conn jane_stored)).2))).
Proof.
  pose proof (update_player_writes_iff_true sample_hometown_parts sample_team_id
                sample_height_weight sample_columns) as [H1 H2].
  split.
  - eapply (H1 jane_payload _ 7 jane_row (fresh_conn jane_stored)).
    + vm_compute. reflexivity.
    + reflexivity.
    + lia.
    + vm_compute. reflexivity.
    + intros col v Hc Hv. unfold sample_columns in Hc.
      repeat (apply elem_of_cons in Hc as [->|Hc]); try (by apply elem_of_nil in Hc);
        vm_compute in Hv; injection Hv as <-.
      * left. reflexivity.
      * left. reflexivity.
      * left. reflexivity.
      * right. split; [|reflexivity]. unfold players.preserve_fields. left.
  - refine (proj1 (H2 jane_payload (fresh_conn jane_stored) false
                     (sample_update_player jane_payload (fresh_conn jane_stored)).2 _)).
    vm_compute. reflexivity.
Defined.

(** ** The model on concrete inputs *)

Example py_int_of_padded_string : py_int (VStr "  12 ") = Ok 12.
Proof. reflexivity. Qed.

Example py_int_of_grouped_digits : py_int (VStr "-1_000") = Ok (-1000).
Proof. reflexivity. Qed.

Example py_int_of_text : py_int (VStr "all") = Raise ValueError.
Proof. reflexivity. Qed.

(** The separators 28 to 31 are blanks for [str.strip] and not for [int];
    digits and blanks outside ASCII are read. *)
Example py_int_of_separators :
  py_int (VStr (String "0" (String (ascii_of_nat 31) ""))) = Raise ValueError ∧
  py_int (VStr (String (ascii_of_nat 28) "7")) = Raise ValueError ∧
  strip (String (ascii_of_nat 28) "7") = "7".
Proof. split_and!; reflexivity. Qed.

Example py_int_of_other_scripts :
  py_int (VStr "٠") = Ok 0 ∧ py_int (VStr "-٣٤") = Ok (-34) ∧
  py_int (VStr (String (ascii_of_nat 194) (String (ascii_of_nat 160) "12"))) = Ok 12 ∧
  py_int (VStr "１２　") = Ok 12.
Proof. split_and!; reflexivity. Qed.

(** An id written with a zero of another script coerces to 0 and is
    skipped. *)
Example update_league_arabic_zero :
  basic_info.update_league [("id", VStr "٠"); ("name", VStr "PWHL")] 0
    (fresh_conn empty_db) = (Ok 0, fresh_conn empty_db) ∧
  basic_info.update_league [("id", VStr (String (ascii_of_nat 28) "7"))] 0
    (fresh_conn empty_db) = (Raise ValueError, fresh_conn empty_db).
Proof. split; reflexivity. Qed.

Example py_int_of_misplaced_signs :
  py_int (VStr "- 1") = Raise ValueError ∧ py_int (VStr "1__0") = Raise ValueError ∧
  py_int (VStr "_1") = Raise ValueError ∧ py_int (VStr "+") = Raise ValueError ∧
  py_int (VStr "") = Raise ValueError.
Proof. split_and!; reflexivity. Qed.

Example py_int_of_none : py_int VNone = Raise TypeError.
Proof. reflexivity. Qed.

Example preseason_in_name :
  py_str_in "Preseason" (VStr "2024 Preseason") = Ok true ∧
  py_str_in "Playoffs" VNone = Raise TypeError.
Proof. split; reflexivity. Qed.

(** Both handlers return True in the repository's test, which expects 2:
    the run returns 0 and logs one [NameError] for each of the two
    events. *)
Example process_game_play_by_play_on_test_data :
  play_by_play.process_game_play_by_play (λ _, test_pbp_data) (λ _ _, mret true) 1 1
    (fresh_conn test_game)
  = (Ok 0,
     {| db := test_game; committed := test_game;
        trace := [SELECT "games" 1];
        logged := [event_error (NameError "home_team_id");
                   event_error (NameError "home_team_id");
                   info "Processed {total_processed} events for game {game_id}"];
        entered := [] |}).
Proof. vm_compute. reflexivity. Qed.

(** A game whose teams are unknown is not processed at all. *)
Example process_game_play_by_play_without_game :
  (play_by_play.process_game_play_by_play (λ _, test_pbp_data) (λ _ _, mret true) 9 1
     (fresh_conn test_game)).1 = Ok 0.
Proof. vm_compute. reflexivity. Qed.

(** A new player is inserted when the table has every extracted column,
    and refused otherwise. *)
Example update_player_inserts :
  let all_columns :=
    ["id"; "team_id"; "jersey_number"; "first_name"; "last_name"; "birth_date";
     "type"; "position"; "position_analysis"; "shoots"; "catches"; "height_cm";
     "weight_kg"; "height"; "weight"; "hometown"; "hometown_div"; "nationality";
     "biography"; "image_url"; "photo_1_url"; "photo_2_url"; "active"] in
  let rc := players.update_player sample_hometown_parts sample_team_id
              sample_height_weight all_columns jane_payload (fresh_conn empty_db) in
  rc.1 = Ok true ∧
  select_columns ["id"; "first_name"; "last_name"; "hometown"; "active"]
    (get_table (db rc.2) "players")
    = [[SInt 7; SText "Jane"; SText "Doe"; SText ""; SNull]] ∧
  (sample_update_player jane_payload (fresh_conn empty_db)).1
    = Raise (Sqlite3Error OperationalError).
Proof. vm_compute. done. Qed.

(** A changed name is updated, the empty hometown is not. *)
Example update_player_updates_changed_columns :
  let payload : dict :=
    [("info", VDict [("playerId", VInt 7); ("firstName", VStr " Janet ");
                     ("lastName", VStr "Doe")])] in
  let rc := sample_update_player payload (fresh_conn jane_stored) in
  rc.1 = Ok true ∧
  trace rc.2 = [SELECT "players" 7; PRAGMA_table_info "players";
                UPDATE "players" ["first_name"] 7] ∧
  select_columns ["id"; "first_name"; "last_name"; "hometown"]
    (get_table (db rc.2) "players")
    = [[SInt 7; SText "Janet"; SText "Doe"; SText "Toronto"]].
Proof. vm_compute. done. Qed.

(** * The other functions of the four files *)

(** ** [get_current_season_id] *)

Section current_season_facts.
Import basic_info basic_info_rest.

Lemma merge_sort_head_min (l : list Z) x l' :
  merge_sort Z.le l = x :: l' → x ∈ l ∧ ∀ y, y ∈ l → x ≤ y.
Proof.
  intros Hs. pose proof (StronglySorted_merge_sort Z.le l) as Hss.
  pose proof (merge_sort_Permutation Z.le l) as Hp.
  rewrite Hs in Hss, Hp. split.
  - rewrite <- Hp. left.
  - intros y Hy. rewrite <- Hp in Hy.
    apply elem_of_cons in Hy as [->|Hy]; [done|].
    apply StronglySorted_inv in Hss as [_ Hall].
    by apply (proj1 (Forall_forall _ _) Hall).
Qed.

Lemma merge_sort_last_max (l : list Z) x :
  last (merge_sort Z.le l) = Some x → x ∈ l ∧ ∀ y, y ∈ l → y ≤ x.
Proof.
  intros [l' Hs]%last_Some.
  pose proof (StronglySorted_merge_sort Z.le l) as Hss.
  pose proof (merge_sort_Permutation Z.le l) as Hp.
  rewrite Hs in Hss, Hp. split.
  - rewrite <- Hp. apply elem_of_app. right. left.
  - intros y Hy. rewrite <- Hp in Hy.
    apply elem_of_app in Hy as [Hy|Hy].
    + eapply (StronglySorted_app_1_elem_of Z.le); [done..|left].
    + apply list_elem_of_singleton in Hy as ->. done.
Qed.

Lemma elem_of_flagged_ids (d : database) id :
  id ∈ (filter (λ kr : Z * row, kr.2 !! "current" = Some (SInt 1))
          (map_to_list (get_table d "seasons"))).*1 ↔
  ∃ r, get_table d "seasons" !! id = Some r ∧ r !! "current" = Some (SInt 1).
Proof.
  rewrite list_elem_of_fmap. split.
  - intros ([id' r] & -> & [Hc Hr%elem_of_map_to_list]%list_elem_of_filter). by exists r.
  - intros (r & Hr & Hc). exists (id, r). split; [done|].
    apply list_elem_of_filter. split; [done|]. by apply elem_of_map_to_list.
Qed.

(** X1: [get_current_season_id] only reads.  It returns the id of a season
    flagged [current = 1] when there is one; when no season is flagged, the
    highest id of the table; and [None] only when the table is empty. *)
Theorem get_current_season_id_choice (c : conn) :
  ∃ res,
    get_current_season_id c = (Ok res, c) ∧
    match res with
    | Some id =>
        ∃ r, get_table (db c) "seasons" !! id = Some r ∧
             (r !! "current" = Some (SInt 1) ∨
              ((∀ id' r', get_table (db c) "seasons" !! id' = Some r' →
                          r' !! "current" ≠ Some (SInt 1)) ∧
               ∀ id' r', get_table (db c) "seasons" !! id' = Some r' → id' ≤ id))
    | None => get_table (db c) "seasons" = ∅
    end.
Proof.
  unfold get_current_season_id, get_db, mbind, M_bind, mret, M_ret.
  destruct (select_current_ids (db c)) as [|id ids] eqn:Hf.
  - assert (∀ id' r', get_table (db c) "seasons" !! id' = Some r' →
                      r' !! "current" ≠ Some (SInt 1)) as Hnone.
    { intros id' r' Hr Hc.
      assert (id' ∈ select_current_ids (db c)) as Hin.
      { unfold select_current_ids. rewrite merge_sort_Permutation.
        apply elem_of_flagged_ids. eauto. }
      rewrite Hf in Hin. by apply elem_of_nil in Hin. }
    exists (select_highest_id (db c)). split; [done|].
    unfold select_highest_id.
    destruct (last _) as [id|] eqn:Hl.
    + apply merge_sort_last_max in Hl as [Hin Hmax].
      apply list_elem_of_fmap in Hin as ([id' r] & -> & Hr%elem_of_map_to_list).
      exists r. split; [done|]. right. split; [done|].
      intros id'' r'' Hr''. apply Hmax, list_elem_of_fmap.
      exists (id'', r''). split; [done|]. by apply elem_of_map_to_list.
    + apply last_None in Hl.
      assert ((map_to_list (get_table (db c) "seasons")).*1 = []) as Hnil.
      { apply Permutation_nil_r. rewrite <- Hl. by rewrite merge_sort_Permutation. }
      apply fmap_nil_inv in Hnil. by apply map_to_list_empty_iff in Hnil.
  - exists (Some id). split; [done|].
    apply merge_sort_head_min in Hf as [Hin Hmin].
    apply elem_of_flagged_ids in Hin as (r & Hr & Hc).
    exists r. split; [done|]. by left.
Qed.

(** What [update_seasons] leaves in the column [current]: the rows of the
    payload hold 1 for the chosen season and 0 otherwise. *)
Lemma update_seasons_flags data c n c' cur :
  update_seasons data c = (Ok n, c') →
  current_season_id_of data = Ok (Some cur) →
  cur ≠ 0 →
  (∀ id r, get_table (db c) "seasons" !! id = Some r →
           r !! "current" = Some (SInt 1) → id ∈ payload_ids data) →
  is_Some (get_table (db c') "seasons" !! cur) ∧
  ∀ id r, get_table (db c') "seasons" !! id = Some r →
          r !! "current" = Some (SInt 1) ↔ id = cur.
Proof.
  intros Hrun Hcur Hnz Hstale.
  unfold update_seasons in Hrun.
  unfold mbind at 2, M_bind at 2, lift at 1 in Hrun. rewrite Hcur in Hrun.
  apply (logged_loop_inv _ _ (for_each (update_season (Some cur)) data 0)) in Hrun
    as (c1 & Hloop & Hdb & _).
  rewrite update_season_shape in Hloop.
  pose proof (loop_column "seasons" league_key (season_columns (Some cur)) _
                "current" (λ id, SInt (if bool_decide (Some cur = Some id) then 1 else 0))
                (λ e id cv bs _ H1 H2, season_columns_current _ _ _ _ _ H1 H2)
                _ _ _ _ _ Hloop) as Hcol.
  simpl in Hcol. rewrite Hdb.
  assert (cur ∈ payload_ids data) as Hin.
  { destruct (current_season_id_elem _ _ Hcur) as (e & He & Hk).
    by eapply elem_of_keys. }
  split.
  - destruct (Hcol cur) as [H1 _]. destruct (H1 Hin) as (r & -> & _). by eexists.
  - intros id r Hr. destruct (Hcol id) as [H1 H2].
    destruct (decide (id ∈ payload_ids data)) as [Hid|Hid].
    + destruct (H1 Hid) as (r' & Hr' & Hc). rewrite Hr in Hr'. injection Hr' as <-.
      rewrite Hc. case_bool_decide as Heq.
      * injection Heq as ->. done.
      * split; [done|]. intros ->. done.
    + rewrite (H2 Hid) in Hr. split.
      * intros Hc. exfalso. apply Hid. by eapply Hstale.
      * intros ->. done.
Qed.

(** When one season is flagged, it is the current season. *)
Lemma get_current_season_id_of_flag c cur :
  is_Some (get_table (db c) "seasons" !! cur) →
  (∀ id r, get_table (db c) "seasons" !! id = Some r →
           r !! "current" = Some (SInt 1) ↔ id = cur) →
  get_current_season_id c = (Ok (Some cur), c).
Proof.
  intros [r Hr] Hiff.
  unfold get_current_season_id, get_db, mbind, M_bind, mret, M_ret.
  assert (select_current_ids (db c) = [cur]) as ->; [|done].
  unfold select_current_ids. apply Permutation_singleton_r.
  rewrite merge_sort_Permutation.
  apply Permutation_singleton_r, nodup_all_eq.
  - apply NoDup_fmap_fst.
    + intros id r1 r2 [_ H1%elem_of_map_to_list]%list_elem_of_filter
        [_ H2%elem_of_map_to_list]%list_elem_of_filter. congruence.
    + apply NoDup_filter, NoDup_map_to_list.
  - apply elem_of_flagged_ids. exists r. split; [done|]. by apply (Hiff cur r).
  - intros id (r' & Hr' & Hc)%elem_of_flagged_ids. by apply (Hiff id r').
Qed.


End current_season_facts.


(** ** What the upsert scrapers leave alone *)

Section upsert_frame_facts.
Variable t : string.
Variable key_of : dict → result Z.
Variable cols_of : Z → dict → result (list (string * value)).
Variable extra : list (string * value).

Local Abbreviation step := (upsert_step t key_of cols_of extra).
Local Abbreviation tbl c := (get_table (db c) t).

Lemma only_table_changed_refl t' c : only_table_changed t' c c.
Proof. by split. Qed.

Lemma only_table_changed_trans t' c1 c2 c3 :
  only_table_changed t' c1 c2 → only_table_changed t' c2 c3 →
  only_table_changed t' c1 c3.
Proof.
  intros [H1 H1'] [H2 H2']. split; [|congruence].
  intros t'' Hne. by rewrite H2, H1.
Qed.

Lemma only_table_changed_updated t' c ss id rw :
  only_table_changed t' c (updated t' (add_trace c ss) id rw).
Proof.
  split; [|done]. intros t'' Hne. unfold updated, with_db; simpl.
  by apply get_table_set_ne.
Qed.

Lemma only_table_changed_add_trace t' c ss : only_table_changed t' c (add_trace c ss).
Proof. by split. Qed.

Lemma upsert_step_frame e n c : only_table_changed t c (step e n c).2.
Proof.
  rewrite upsert_step_unfold.
  destruct (key_of e) as [id|x]; [|apply only_table_changed_refl].
  destruct (id =? 0); [apply only_table_changed_refl|].
  destruct (cols_of id e) as [cv|x]; [|apply only_table_changed_refl].
  destruct (bind_param (VInt id)) as [b|x]; [|apply only_table_changed_add_trace].
  destruct (tbl c !! id) as [r|]; cbv zeta.
  - destruct (bind_params cv);
      [apply only_table_changed_updated|apply only_table_changed_add_trace].
  - destruct (bind_params (cv ++ extra));
      [apply only_table_changed_updated|apply only_table_changed_add_trace].
Qed.

Lemma for_each_frame {A} (body : A → Z → M Z) t' :
  (∀ x n c, only_table_changed t' c (body x n c).2) →
  ∀ l n c, only_table_changed t' c (for_each body l n c).2.
Proof.
  intros Hbody. induction l as [|x l IH]; intros n c; simpl.
  - apply only_table_changed_refl.
  - unfold mbind, M_bind. specialize (Hbody x n c).
    destruct (body x n c) as [[n1|e] c1]; simpl in *; [|done].
    eapply only_table_changed_trans; [done|apply IH].
Qed.

Lemma logged_loop_frame t' pre post loop :
  writes_only t' loop → writes_only t' (logged_loop pre post loop).
Proof.
  intros Hloop c. unfold logged_loop, mbind, M_bind, logger, commit, mret, M_ret. simpl.
  specialize (Hloop (add_log c [info pre])). unfold add_log, info in Hloop.
  destruct (loop _) as [[n|e] c1]; simpl in *; exact Hloop.
Qed.

(** What the row of an entry is made of: the bound columns over the row
    that was there, or over the extra columns of the INSERT. *)
Lemma upsert_step_row e n c n' c' id :
  step e n c = (Ok n', c') →
  entry_key key_of e = Some id →
  ∃ cv bs r0,
    cols_of id e = Ok cv ∧ bind_params cv = Ok bs ∧
    (tbl c !! id = Some r0 ∨
     (tbl c !! id = None ∧ ∃ bs2, bind_params extra = Ok bs2 ∧ r0 = list_to_map bs2)) ∧
    tbl c' = <[id := list_to_map bs ∪ r0]> (tbl c).
Proof.
  rewrite upsert_step_unfold. unfold entry_key.
  destruct (key_of e) as [id'|x]; [|done].
  destruct (id' =? 0) eqn:Hz; [done|].
  intros H [= ->]. revert H.
  destruct (cols_of id e) as [cv|x]; [|done].
  destruct (bind_param (VInt id)) as [b|x] eqn:Hb; [|done].
  destruct (tbl c !! id) as [r|] eqn:Hr; cbv zeta.
  - destruct (bind_params cv) as [bs|x] eqn:Hbs; [|done].
    intros [= <- <-]. exists cv, bs, r. rewrite tbl_updated. eauto.
  - destruct (bind_params (cv ++ extra)) as [bs|x] eqn:Hbs; [|done].
    intros [= <- <-]. apply bind_params_app in Hbs as (bs1 & bs2 & ? & ? & ->).
    exists cv, bs1, (list_to_map bs2). rewrite tbl_updated, list_to_map_app.
    split; [done|]. split; [done|]. split; [|done]. right. eauto.
Qed.

(** A property of rows that every write of the loop establishes holds of
    every row after the loop when it held before. *)
Lemma loop_rows (P : row → Prop) :
  (∀ e id cv bs r0,
     key_of e = Ok id → cols_of id e = Ok cv → bind_params cv = Ok bs →
     (P r0 ∨ ∃ bs2, bind_params extra = Ok bs2 ∧ r0 = list_to_map bs2) →
     P (list_to_map bs ∪ r0)) →
  ∀ l n c n' c',
    for_each step l n c = (Ok n', c') →
    (∀ id r, tbl c !! id = Some r → P r) →
    ∀ id r, tbl c' !! id = Some r → P r.
Proof.
  intros HP. induction l as [|e l IH]; intros n c n' c'; simpl.
  - by intros [= <- <-].
  - unfold mbind, M_bind at 1.
    destruct (step e n c) as [[n1|x] c1] eqn:Hs; [|done].
    intros Hl Hc. apply (IH _ _ _ _ Hl). clear Hl IH.
    destruct (entry_key key_of e) as [ide|] eqn:Hk.
    + destruct (upsert_step_row _ _ _ _ _ _ Hs Hk) as (cv & bs & r0 & Hcv & Hbs & Hr0 & ->).
      intros id r. destruct (decide (ide = id)) as [->|Hne].
      * rewrite lookup_insert_eq. intros [= <-].
        unfold entry_key in Hk. destruct (key_of e) as [id'|] eqn:Hke; [|done].
        destruct (id' =? 0); [done|]. injection Hk as ->.
        eapply HP; [done..|]. destruct Hr0 as [Hr0|[_ Hr0]]; [left; by eapply Hc|by right].
      * rewrite lookup_insert_ne by done. apply Hc.
    + apply upsert_step_ok in Hs as [_ Hs]. rewrite Hk in Hs. by destruct Hs as [_ ->].
Qed.

End upsert_frame_facts.

(** ** [update_teams] *)

Section teams_facts.
Import basic_info basic_info_rest.
#[local] Arguments bind_params : simpl never.

Lemma py_int_raises v e : py_int v = Raise e → e = ValueError ∨ e = TypeError.
Proof.
  destruct v; simpl; try (intros [= <-]; by right); try done.
  destruct (int_of_string s); [done|]. intros [= <-]. by left.
Qed.

Lemma bind_params_bound cv bs k v :
  bind_params cv = Ok bs → dict_lookup cv k = Some v → ∃ b, bind_param v = Ok b.
Proof.
  revert bs. induction cv as [|[k' v'] cv IH]; intros bs; [done|].
  unfold bind_params; fold bind_params. unfold mbind, result_bind. simpl.
  destruct (bind_param v') as [b'|] eqn:Hb'; [|done].
  destruct (bind_params cv) as [bs'|]; [|done]. intros _.
  destruct (String.eqb k' k); [intros [= <-]; by exists b'|]. by apply (IH bs').
Qed.

Lemma lookup_conference_reads division_id c :
  ∃ res ss, lookup_conference division_id c = (res, add_trace c ss) ∧
            (divisions_without_conference (db c) → ∀ v, res = Ok v → v = VNone).
Proof.
  unfold lookup_conference. destruct division_id as [d|].
  2:{ exists (Ok VNone), []. rewrite add_trace_nil. split; [done|]. by intros _ v [= <-]. }
  destruct (d =? 0).
  { exists (Ok VNone), []. rewrite add_trace_nil. split; [done|]. by intros _ v [= <-]. }
  unfold select_by_id, issue, get_db, lift, mbind, M_bind, mret, M_ret. simpl.
  fold (add_trace c [SELECT "divisions" d]).
  destruct (bind_param (VInt d)); simpl.
  2:{ eexists _, _. split; [done|]. by intros. }
  destruct (get_table (db c) "divisions" !! d) as [r|] eqn:Hr; simpl.
  - eexists _, _. split; [done|]. intros Hno v [= <-].
    unfold cell. simpl. by rewrite (Hno d r Hr).
  - eexists _, _. split; [done|]. by intros _ v [= <-].
Qed.

(** One iteration either leaves the database as it is or sets the row of
    one team, whose conference is the one the lookup has found. *)
Lemma update_team_effect league_id team n c :
  let rc := update_team league_id team n c in
  db rc.2 = db c ∨
  ∃ id bs r0 conf,
    db rc.2 = set_table (db c) "teams"
                (<[id := list_to_map bs ∪ r0]> (get_table (db c) "teams")) ∧
    (get_table (db c) "teams" !! id = Some r0 ∨ r0 = ∅) ∧
    (list_to_map bs : row) !! "conference_id" = Some conf ∧
    (divisions_without_conference (db c) → conf = SNull).
Proof.
  cbv zeta. unfold update_team. unfold mbind, M_bind, lift. cbv beta.
  destruct (is_all_teams team) as [[|]|x]; [by left| |by left].
  destruct (py_int (dict_get team "id" (VInt 0))) as [team_id|e] eqn:Hid.
  2:{ destruct (py_int_raises _ _ Hid) as [->| ->]; by left. }
  destruct (team_id =? 0); [by left|]. cbv beta.
  destruct (team_division_id team) as [division_id|x]; [|by left].
  destruct (lookup_conference_reads division_id c) as (res & ss & -> & Hconf).
  destruct res as [conference_id|x]; [|by left].
  unfold select_by_id, exec_update, exec_insert, issue, get_db, put_db, raise, lift,
    mbind, M_bind, mret, M_ret. simpl.
  destruct (bind_param (VInt team_id)); simpl; [|by left].
  match goal with |- context [bind_params ?l] => set (cols := l) end.
  destruct (get_table (db c) "teams" !! team_id) as [r|] eqn:Hr; simpl.
  - destruct (bind_params cols) as [bs|x] eqn:Hbs; simpl; [|by left].
    rewrite Hr. simpl. right.
    pose proof (bind_params_lookup _ _ "conference_id" Hbs) as Hl. simpl in Hl.
    destruct (bind_param conference_id) as [conf|] eqn:Hb.
    2:{ destruct (bind_params_bound _ _ "conference_id" conference_id Hbs eq_refl).
        congruence. }
    exists team_id, bs, r, conf. split; [done|]. split; [by left|]. split; [done|].
    intros Hno. rewrite (Hconf Hno _ eq_refl) in Hb. by injection Hb.
  - destruct (bind_params cols) as [bs|x] eqn:Hbs; simpl; [|by left].
    rewrite Hr. simpl. right.
    pose proof (bind_params_lookup _ _ "conference_id" Hbs) as Hl. simpl in Hl.
    destruct (bind_param conference_id) as [conf|] eqn:Hb.
    2:{ destruct (bind_params_bound _ _ "conference_id" conference_id Hbs eq_refl).
        congruence. }
    exists team_id, bs, ∅, conf. rewrite (right_id_L ∅ (∪)).
    split; [done|]. split; [by right|]. split; [done|].
    intros Hno. rewrite (Hconf Hno _ eq_refl) in Hb. by injection Hb.
Qed.

Lemma update_team_frame league_id team n c :
  only_table_changed "teams" c (update_team league_id team n c).2.
Proof.
  destruct (update_team_effect league_id team n c) as [H|(id & bs & r0 & conf & H & _)].
  - split; intros; by rewrite H.
  - split; [|by rewrite H]. intros t' Hne. rewrite H. by apply get_table_set_ne.
Qed.

Lemma update_team_no_conference league_id team n c :
  divisions_without_conference (db c) →
  teams_without_conference (db c) →
  let c' := (update_team league_id team n c).2 in
  divisions_without_conference (db c') ∧ teams_without_conference (db c').
Proof.
  intros Hd Ht. cbv zeta.
  destruct (update_team_effect league_id team n c) as [H|(id & bs & r0 & conf & H & Hr0 & Hc & Hn)].
  - by rewrite H.
  - rewrite H. split.
    + intros d r. rewrite get_table_set_ne by done. apply Hd.
    + intros id' r. rewrite get_table_set.
      destruct (decide (id = id')) as [->|Hne].
      * rewrite lookup_insert_eq. intros [= <-]. unfold cell. simpl.
        rewrite (lookup_union_Some_l _ _ _ _ Hc). simpl. by apply Hn.
      * rewrite lookup_insert_ne by done. apply Ht.
Qed.

Lemma update_teams_loop_no_conference league_id teams : ∀ n c,
  divisions_without_conference (db c) →
  teams_without_conference (db c) →
  let c' := (for_each (update_team league_id) teams n c).2 in
  divisions_without_conference (db c') ∧ teams_without_conference (db c').
Proof.
  induction teams as [|team teams IH]; intros n c Hd Ht; simpl; [done|].
  unfold mbind, M_bind.
  destruct (update_team_no_conference league_id team n c Hd Ht) as [Hd1 Ht1].
  destruct (update_team league_id team n c) as [[n1|x] c1]; simpl in *; [|done].
  by apply IH.
Qed.

(** X3: [update_teams] filters its entries by text.  An entry whose id or
    name contains "all" in any letter case is skipped: nothing is issued
    for it and it is not counted.  An entry whose id is present and is not
    a string raises [AttributeError]. *)
Theorem update_teams_skips_all_teams :
  (∀ league_id team n c id name,
     dict_get team "id" (VStr "") = VStr id →
     dict_get team "name" (VStr "") = VStr name →
     str_contains "all" (str_lower id) || str_contains "all" (str_lower name) = true →
     update_team league_id team n c = (Ok n, c)) ∧
  (∀ league_id team n c v,
     dict_lookup team "id" = Some v →
     (∀ s, v ≠ VStr s) →
     update_team league_id team n c = (Raise AttributeError, c)).
Proof.
  split.
  - intros league_id team n c id name Hid Hname Hall.
    unfold update_team, is_all_teams. rewrite Hid, Hname. simpl.
    unfold mbind at 1, M_bind at 1, lift at 1.
    destruct (str_contains "all" (str_lower id)); [done|].
    simpl in Hall. simpl. by rewrite Hall.
  - intros league_id team n c v Hv Hns.
    unfold update_team, is_all_teams, dict_get. rewrite Hv.
    destruct v; try done. by destruct (Hns s).
Qed.

(** X4: while no division names a conference, [update_teams] stores NULL
    as the conference of every team it writes.  [update_divisions] writes
    the name of a division only, so that after it has filled an empty
    divisions table, [update_teams] leaves every team without a
    conference. *)
Theorem update_teams_after_update_divisions divisions_data teams_data
    season_id league_id c0 n0 c1 :
  get_table (db c0) "divisions" = ∅ →
  teams_without_conference (db c0) →
  update_divisions divisions_data c0 = (Ok n0, c1) →
  teams_without_conference (db (update_teams teams_data season_id league_id c1).2).
Proof.
  intros Hempty Ht H.
  apply (logged_loop_inv _ _ (for_each update_division divisions_data 0)) in H
    as (c' & Hloop & Hdb & _).
  assert (divisions_without_conference (db c1)) as Hd1.
  { rewrite update_division_shape in Hloop.
    unfold divisions_without_conference. rewrite Hdb.
    refine (loop_rows "divisions" league_key division_cols []
              (λ r, r !! "conference_id" = None) _ divisions_data 0 _ n0 c' Hloop _).
    - intros e ide cv bs r0 _ [= <-] Hbs Hr0.
      apply lookup_union_None. split.
      + rewrite (bind_params_lookup _ _ _ Hbs). done.
      + destruct Hr0 as [?|(bs2 & [= <-] & ->)]; done.
    - intros ide r'. simpl. by rewrite Hempty. }
  assert (teams_without_conference (db c1)) as Ht1.
  { rewrite Hdb. intros id r.
    rewrite update_division_shape in Hloop.
    pose proof (for_each_frame _ "divisions"
                  (upsert_step_frame "divisions" league_key division_cols [])
                  divisions_data 0
                  (add_log c0 [{| lvl := INFO; msg := "Updating divisions..."; exc := None |}]))
      as Hf.
    rewrite Hloop in Hf. destruct Hf as [Hf _]. simpl in Hf.
    rewrite (Hf "teams") by done. apply Ht. }
  unfold update_teams, mbind, M_bind, logger, commit, mret, M_ret. simpl.
  pose proof (update_teams_loop_no_conference league_id teams_data 0
                (add_log c1 [info "Updating teams for season {season_id}..."]) Hd1 Ht1)
    as [_ Hres].
  unfold add_log, info in Hres. clear Hloop.
  destruct (for_each _ _ _ _) as [[n|x] c2]; simpl in *; exact Hres.
Qed.

(** X5: each of the five upsert scrapers changes no table but its own,
    whether it returns or raises. *)
Theorem upsert_scrapers_write_own_table_only :
  (∀ data, writes_only "leagues" (update_leagues data)) ∧
  (∀ data, writes_only "conferences" (update_conferences data)) ∧
  (∀ data, writes_only "divisions" (update_divisions data)) ∧
  (∀ data, writes_only "seasons" (update_seasons data)) ∧
  (∀ data season_id league_id,
     writes_only "teams" (update_teams data season_id league_id)).
Proof.
  split_and!.
  - intros data. apply (logged_loop_frame _ _ _ (for_each update_league data 0)).
    intros c. apply for_each_frame. rewrite update_league_shape. apply upsert_step_frame.
  - intros data. apply (logged_loop_frame _ _ _ (for_each update_conference data 0)).
    intros c. apply for_each_frame. rewrite update_conference_shape. apply upsert_step_frame.
  - intros data. apply (logged_loop_frame _ _ _ (for_each update_division data 0)).
    intros c. apply for_each_frame. rewrite update_division_shape. apply upsert_step_frame.
  - intros data c. unfold update_seasons.
    unfold mbind at 2, M_bind at 2, lift at 1.
    destruct (current_season_id_of data) as [cur|x].
    + apply (logged_loop_frame _ _ _ (for_each (update_season cur) data 0)).
      intros c'. apply for_each_frame. rewrite update_season_shape. apply upsert_step_frame.
    + unfold mbind, M_bind, logger. simpl. by split.
  - intros data season_id league_id.
    apply (logged_loop_frame _ _ _ (for_each (update_team league_id) data 0)).
    intros c. apply for_each_frame. apply update_team_frame.
Qed.

End teams_facts.

Lemma update_teams_skips_all_teams_witness :
  basic_info_rest.update_team 1 team_dallas 0 (fresh_conn empty_db)
    = (Ok 0, fresh_conn empty_db) ∧
  basic_info_rest.update_team 1 [("id", VInt 9); ("name", VStr "Boston")] 0
    (fresh_conn empty_db) = (Raise AttributeError, fresh_conn empty_db).
Proof.
  split.
  - apply (proj1 update_teams_skips_all_teams 1 team_dallas 0 (fresh_conn empty_db)
             "9" "Dallas"); reflexivity.
  - apply (proj2 update_teams_skips_all_teams 1 _ 0 (fresh_conn empty_db) (VInt 9));
      [reflexivity|done].
Defined.

Lemma update_teams_after_update_divisions_witness :
  teams_without_conference
    (db (basic_info_rest.update_teams [team_boston] 1 1
           (basic_info.update_divisions [division_1] (fresh_conn empty_db)).2).2).
Proof.
  apply (update_teams_after_update_divisions [division_1] [team_boston] 1 1
           (fresh_conn empty_db) 1).
  - reflexivity.
  - intros id r Hr. vm_compute in Hr. done.
  - vm_compute. reflexivity.
Defined.

(** ** [update_play_by_play] *)

Section update_play_by_play_facts.
Import play_by_play play_by_play_rest.
Variable fetch_play_by_play : Z → value.
Variable handler_body : string → list object → M bool.

Lemma stores_nothing_refl c : stores_nothing c c.
Proof. split; [done|]. split; [by left|done]. Qed.

Lemma stores_nothing_trans c1 c2 c3 :
  stores_nothing c1 c2 → stores_nothing c2 c3 → stores_nothing c1 c3.
Proof.
  intros (Hd & Hc & He) (Hd' & Hc' & He'). split; [congruence|].
  split; [|congruence]. destruct Hc' as [->| ->]; [done|]. right. done.
Qed.

Lemma games_done_log c l m e :
  games_done {| db := db c; committed := committed c; trace := trace c;
                logged := logged c ++ [{| lvl := l; msg := m; exc := e |}];
                entered := entered c |}
  = (games_done c + if decide (m = game_done_msg) then 1 else 0)%nat.
Proof.
  unfold games_done. simpl. rewrite filter_app, length_app. f_equal.
  rewrite filter_cons. simpl. by destruct (decide (m = game_done_msg)).
Qed.

(** The season the games table holds for a game is passed on as it is; for
    an integer the function is the one of the dispatcher. *)
Lemma process_game_play_by_play_v_int game_id season_id :
  process_game_play_by_play_v fetch_play_by_play handler_body game_id (VInt season_id)
  = process_game_play_by_play fetch_play_by_play handler_body game_id season_id.
Proof. reflexivity. Qed.

Lemma call_handler_name_error_v game_id season_id pbp_data home_team visiting_team
    events event event_type h c :
  handler_of event_type = Some h →
  call_handler handler_body
    (("event_type", OValue event_type) :: ("event", OValue event)
       :: function_locals_v game_id season_id pbp_data home_team visiting_team events)
    h c = (Raise (NameError "home_team_id"), c).
Proof.
  unfold handler_of. repeat case_match; intros [= <-]; reflexivity.
Qed.

Lemma events_loop_stores_nothing game_id season_id pbp_data home_team visiting_team
    events (l : list value) : ∀ total c,
  let rc := for_each (process_event handler_body
              (function_locals_v game_id season_id pbp_data home_team visiting_team events))
              l total c in
  db rc.2 = db c ∧ committed rc.2 = committed c ∧ entered rc.2 = entered c ∧
  games_done rc.2 = games_done c ∧ trace rc.2 = trace c ∧
  ∀ n, rc.1 = Ok n → n = total.
Proof.
  induction l as [|ev l IH]; intros total c; simpl.
  - repeat (split; [done|]). by intros n [= <-].
  - unfold mbind, M_bind.
    destruct ev as [| | | | |d];
      try (simpl; repeat (split; [done|]); by intros n [=]).
    rewrite process_event_unfold. cbv zeta.
    destruct (handler_of _) as [h|] eqn:Hh; [|exact (IH total c)].
    rewrite (call_handler_name_error_v _ _ _ _ _ _ _ _ _ _ Hh).
    destruct (IH total (add_log c [event_error (NameError "home_team_id")]))
      as (H1 & H2 & H3 & H4 & H5 & H6).
    repeat (split; [done|]). split; [|done].
    rewrite H4. unfold add_log, event_error. by rewrite games_done_log.
Qed.

Lemma games_done_app c c' ls :
  logged c' = logged c ++ ls →
  games_done c' = (games_done c + List.length (filter (λ r, msg r = game_done_msg) ls))%nat.
Proof. unfold games_done. intros ->. by rewrite filter_app, length_app. Qed.

(** A game is processed without anything being stored, and the count it
    returns is 0. *)
Lemma process_game_stores_nothing game_id season_id c :
  let rc := process_game_play_by_play_v fetch_play_by_play handler_body
              game_id season_id c in
  stores_nothing c rc.2 ∧ games_done rc.2 = games_done c ∧
  ∀ n, rc.1 = Ok n → n = 0.
Proof.
  cbv zeta. unfold process_game_play_by_play_v, stores_nothing.
  set (pbp_data := fetch_play_by_play game_id).
  unfold get_game_teams, select_by_id, issue, get_db, lift, logger, commit,
    mbind, M_bind, mret, M_ret.
  destruct (if truthy pbp_data then _ else _) as [has_gc|x];
    [|simpl; split_and!; auto; done].
  destruct (if has_gc then _ else _) as [has_pxp|x];
    [|simpl; split_and!; auto; done].
  destruct has_pxp; simpl;
    [|split_and!; auto; [by erewrite games_done_app by done|by intros n [= <-]]].
  destruct (bind_param (VInt game_id)); simpl; [|split_and!; auto; done].
  destruct (get_table (db c) "games" !! game_id) as [r0|]; simpl;
    [|split_and!; auto; [by erewrite games_done_app by done|by intros n [= <-]]].
  match goal with |- context [if ?b then _ else _] => destruct b end; simpl;
    [split_and!; auto; [by erewrite games_done_app by done|by intros n [= <-]]|].
  all: destruct (py_item pbp_data "GC") as [gc|x]; simpl; [|split_and!; auto; done].
  all: destruct (py_item gc "Pxpverbose") as [events|x]; simpl; [|split_and!; auto; done].
  all: destruct (py_iter events) as [event_list|x]; simpl; [|split_and!; auto; done].
  all: match goal with
       | |- context [for_each (process_event _ (function_locals_v ?a ?b ?p ?h ?v ?e)) ?l ?t ?c0] =>
           pose proof (events_loop_stores_nothing a b p h v e l t c0) as H;
           cbv zeta in H;
           destruct (for_each (process_event handler_body (function_locals_v a b p h v e)) l t c0)
             as [[total|x] c2]
       end; simpl in *; destruct H as (H1 & H2 & H3 & H4 & H5 & H6).
  all: split_and!; auto; try done.
  all: try (erewrite games_done_app by done; simpl; rewrite Nat.add_0_r; exact H4).
  all: intros n [= <-]; by apply H6.
Qed.

Lemma process_listed_game_stores_nothing g total c :
  let rc := process_listed_game fetch_play_by_play handler_body g total c in
  stores_nothing c rc.2 ∧
  ∀ n, rc.1 = Ok n → n = total ∧ games_done rc.2 = S (games_done c).
Proof.
  cbv zeta. destruct g as [game_id season_id]. unfold process_listed_game.
  unfold mbind, M_bind, logger, mret, M_ret.
  destruct (process_game_stores_nothing game_id (py_of_sql season_id) c) as (Hs & Hg & Hn).
  destruct (process_game_play_by_play_v _ _ _ _ c) as [[n1|x] c1]; simpl in *; [|done].
  split; [exact Hs|]. intros n [= <-]. rewrite (Hn n1 eq_refl). split; [lia|].
  rewrite games_done_log. rewrite decide_True by done. lia.
Qed.

Lemma backlog_loop_stores_nothing l : ∀ total c,
  let rc := for_each (process_listed_game fetch_play_by_play handler_body) l total c in
  stores_nothing c rc.2 ∧
  ∀ n, rc.1 = Ok n → n = total ∧ games_done rc.2 = (games_done c + List.length l)%nat.
Proof.
  induction l as [|g l IH]; intros total c; simpl.
  - split; [apply stores_nothing_refl|]. intros n [= <-]. split; [done|lia].
  - unfold mbind, M_bind.
    destruct (process_listed_game_stores_nothing g total c) as [Hs Hn].
    destruct (process_listed_game _ _ g total c) as [[n1|x] c1]; simpl in *; [|done].
    destruct (Hn n1 eq_refl) as [-> Hg].
    destruct (IH total c1) as [Hs' Hn'].
    split; [by eapply stores_nothing_trans|].
    intros n Hr. destruct (Hn' n Hr) as [-> Hg']. split; [done|]. rewrite Hg', Hg. lia.
Qed.

Lemma get_season_id_for_game_reads game_id c :
  ∃ res ss, get_season_id_for_game game_id c = (res, add_trace c ss).
Proof.
  unfold get_season_id_for_game, select_by_id, issue, get_db, lift, mbind, M_bind,
    mret, M_ret. simpl. fold (add_trace c [SELECT "games" game_id]).
  destruct (bind_param (VInt game_id)); simpl; [|by eexists _, _].
  destruct (get_table (db c) "games" !! game_id); by eexists _, _.
Qed.

Lemma process_one_game_stores_nothing game_id c :
  let rc := process_one_game fetch_play_by_play handler_body game_id c in
  stores_nothing c rc.2 ∧ ∀ n, rc.1 = Ok n → n = 0.
Proof.
  cbv zeta. unfold process_one_game. unfold mbind, M_bind, logger, mret, M_ret.
  destruct (get_season_id_for_game_reads game_id c) as (res & ss & ->).
  assert (stores_nothing c (add_trace c ss)) as Hss
    by (split; [done|]; split; [by left|done]).
  destruct res as [season_id|x]; [|by split].
  destruct (truthy season_id).
  - destruct (process_game_stores_nothing game_id season_id (add_trace c ss)) as (Hs & _ & Hn).
    destruct (process_game_play_by_play_v _ _ _ _ _) as [[n1|x] c1]; simpl in *.
    + split; [refine (stores_nothing_trans _ _ _ Hss _); exact Hs|].
      intros n [= <-]. by rewrite (Hn n1 eq_refl).
    + split; [refine (stores_nothing_trans _ _ _ Hss _); exact Hs|done].
  - simpl. split; [exact Hss|]. by intros n [= <-].
Qed.

Lemma process_backlog_stores_nothing limit c :
  let rc := process_backlog fetch_play_by_play handler_body limit c in
  stores_nothing c rc.2 ∧
  ∀ n, rc.1 = Ok n →
    n = 0 ∧
    games_done rc.2 =
      (games_done c +
       List.length (limited limit (games_without_play_by_play (db c))))%nat.
Proof.
  cbv zeta. unfold process_backlog, get_games_without_play_by_play, issue, get_db,
    logger, mbind, M_bind, mret, M_ret. simpl.
  match goal with
  | |- context [for_each _ ?l 0 ?c0] =>
      destruct (backlog_loop_stores_nothing l 0 c0) as [Hs Hn]
  end.
  split; [exact Hs|]. intros n Hr. destruct (Hn n Hr) as [-> Hg]. split; [done|].
  rewrite Hg. f_equal. by erewrite games_done_app by done.
Qed.

Lemma length_limited {A} limit (l : list A) :
  List.length (limited limit l) = games_within limit (List.length l).
Proof.
  unfold limited, games_within, py_slice_to. destruct limit as [n|]; [|done].
  destruct (n =? 0) eqn:H0; [done|].
  destruct (0 <? n) eqn:Hpos.
  - assert ((0 <=? n) = true) as -> by lia. by rewrite length_take.
  - assert ((0 <=? n) = false) as -> by lia. rewrite length_take. lia.
Qed.

(** X6: with the dispatcher as it is, [update_play_by_play] stores nothing,
    whatever the API returns and whatever the handlers would do: on a
    connection without pending changes, the database and what is committed
    are afterwards what they were, no handler body has been entered, and
    the total it returns, when it returns, is 0; the games without
    play-by-play data are the same as before. *)
Theorem update_play_by_play_stores_nothing game_id limit c :
  committed c = db c →
  let rc := update_play_by_play fetch_play_by_play handler_body game_id limit c in
  db rc.2 = db c ∧ committed rc.2 = db c ∧ entered rc.2 = entered c ∧
  games_without_play_by_play (db rc.2) = games_without_play_by_play (db c) ∧
  ∀ n, rc.1 = Ok n → n = 0.
Proof.
  intros Hfresh. cbv zeta.
  assert (∀ body : M Z,
            (stores_nothing c (body c).2 ∧ ∀ n, (body c).1 = Ok n → n = 0) →
            let rc := try_finally
                        (try_except body
                           (λ e, logger ERROR "Error updating play-by-play data: {e}" (Some e);;
                                 rollback;; raise e)) close c in
            db rc.2 = db c ∧ committed rc.2 = db c ∧ entered rc.2 = entered c ∧
            ∀ n, rc.1 = Ok n → n = 0) as Hwrap.
  { intros body [(Hd & Hc & He) Hn]. cbv zeta.
    unfold try_finally, try_except, close, rollback, raise, logger, mbind, M_bind.
    assert (committed (body c).2 = db c) as Hc' by (destruct Hc; congruence).
    destruct (body c) as [[n1|x] c1]; simpl in *; by split_and!. }
  assert (∀ rc : result Z * conn,
            (db rc.2 = db c ∧ committed rc.2 = db c ∧ entered rc.2 = entered c ∧
             ∀ n, rc.1 = Ok n → n = 0) →
            db rc.2 = db c ∧ committed rc.2 = db c ∧ entered rc.2 = entered c ∧
            games_without_play_by_play (db rc.2) = games_without_play_by_play (db c) ∧
            ∀ n, rc.1 = Ok n → n = 0) as Hmore.
  { intros rc (Hd & Hc & He & Hn). split_and!; try done. by rewrite Hd. }
  apply Hmore. unfold update_play_by_play. apply Hwrap.
  destruct game_id as [g|].
  - destruct (g =? 0).
    + destruct (process_backlog_stores_nothing limit c) as [Hs Hn].
      split; [exact Hs|]. intros n Hr. by destruct (Hn n Hr).
    + apply process_one_game_stores_nothing.
  - destruct (process_backlog_stores_nothing limit c) as [Hs Hn].
    split; [exact Hs|]. intros n Hr. by destruct (Hn n Hr).
Qed.

(** X7: without a game id, or with game id 0, a run of
    [update_play_by_play] that returns has gone through the games without
    play-by-play data in the order of their ids: all of them when the limit
    is absent or 0, the first [limit] of them when it is positive, and all
    but the last [-limit] when it is negative. *)
Theorem update_play_by_play_limit game_id limit c n c' :
  game_id = None ∨ game_id = Some 0 →
  update_play_by_play fetch_play_by_play handler_body game_id limit c = (Ok n, c') →
  games_done c' =
    (games_done c +
     games_within limit (List.length (games_without_play_by_play (db c))))%nat.
Proof.
  intros Hg. rewrite <- length_limited.
  assert (update_play_by_play fetch_play_by_play handler_body game_id limit c
          = try_finally
              (try_except (process_backlog fetch_play_by_play handler_body limit)
                 (λ e, logger ERROR "Error updating play-by-play data: {e}" (Some e);;
                       rollback;; raise e)) close c) as ->.
  { by destruct Hg as [-> | ->]. }
  destruct (process_backlog_stores_nothing limit c) as [_ Hn].
  unfold try_finally, try_except, close, rollback, raise, logger, mbind, M_bind.
  destruct (process_backlog _ _ _ c) as [[n1|x] c1]; simpl in *; [|done].
  intros [= <- <-]. destruct (Hn n1 eq_refl) as [_ Hdone]. exact Hdone.
Qed.

End update_play_by_play_facts.

Lemma update_play_by_play_stores_nothing_witness :
  let rc := play_by_play_rest.update_play_by_play test_client any_handler
              (Some 1) None (fresh_conn test_game) in
  db rc.2 = test_game ∧ committed rc.2 = test_game ∧ entered rc.2 = [] ∧
  play_by_play.games_without_play_by_play (db rc.2)
    = play_by_play.games_without_play_by_play test_game ∧
  ∀ n, rc.1 = Ok n → n = 0.
Proof.
  apply (update_play_by_play_stores_nothing test_client any_handler (Some 1) None
           (fresh_conn test_game)).
  reflexivity.
Defined.

Lemma update_play_by_play_limit_witness :
  games_done
    (play_by_play_rest.update_play_by_play no_pbp_data any_handler None (Some (-1))
       (fresh_conn two_finished_games)).2 = 1%nat.
Proof.
  apply (update_play_by_play_limit no_pbp_data any_handler None (Some (-1))
           (fresh_conn two_finished_games) 0).
  - by left.
  - vm_compute. reflexivity.
Defined.

(** ** [update_players] *)

Section update_players_facts.
Import players players_rest.
Variable extract_hometown_parts : value → result (value * value).
Variable extract_team_id_from_url : value → result value.
Variable extract_height_weight : value → value → result (value * value).
Variable players_columns : list string.
Variable fetch_player_info : Z → value.

Local Abbreviation update_player_v :=
  (players_rest.update_player_v extract_hometown_parts extract_team_id_from_url
     extract_height_weight players_columns).
Local Abbreviation check_player :=
  (players_rest.check_player extract_hometown_parts extract_team_id_from_url
     extract_height_weight players_columns fetch_player_info).
Local Abbreviation check_one_player :=
  (players_rest.check_one_player extract_hometown_parts extract_team_id_from_url
     extract_height_weight players_columns fetch_player_info).
Local Abbreviation check_players :=
  (players_rest.check_players extract_hometown_parts extract_team_id_from_url
     extract_height_weight players_columns fetch_player_info).
Local Abbreviation update_players :=
  (players_rest.update_players extract_hometown_parts extract_team_id_from_url
     extract_height_weight players_columns fetch_player_info).

#[local] Arguments truthy : simpl never.
#[local] Arguments bind_params : simpl never.

Ltac count_tac :=
  unfold writes, players_failed; simpl; rewrite ?filter_app, ?length_app; simpl; lia.

Lemma writes_app c c' ss :
  trace c' = trace c ++ ss →
  writes c' = writes c + Z.of_nat (List.length (filter (λ s, is_write s = true) ss)).
Proof. unfold writes. intros ->. rewrite filter_app, length_app. lia. Qed.

Lemma players_failed_app c c' ls :
  logged c' = logged c ++ ls →
  players_failed c' = players_failed c +
    Z.of_nat (List.length (filter (λ r, msg r = "Error updating players: {e}") ls)).
Proof. unfold players_failed. intros ->. rewrite filter_app, length_app. lia. Qed.

(** What a call of [update_player] adds to the statements: one write when
    it returns True, none when it returns False, and at most one when it
    raises.  It reports no failure of [update_players]. *)
Lemma update_player_v_writes player_data c :
  let rc := update_player_v player_data c in
  players_failed rc.2 = players_failed c ∧
  match rc.1 with
  | Ok true => writes rc.2 = writes c + 1
  | Ok false => writes rc.2 = writes c
  | Raise _ => writes c ≤ writes rc.2 ≤ writes c + 1
  end.
Proof.
  cbv zeta. unfold players_rest.update_player_v.
  destruct (negb (truthy player_data)); [simpl; split; [reflexivity|lia]|].
  destruct player_data as [| | | | |d]; try (simpl; split; [reflexivity|lia]).
  rewrite update_player_unfold.
  destruct (players.extract_player_fields _ _ _ d) as [[fields|]|x];
    try (simpl; split; [reflexivity|lia]).
  destruct (dict_lookup fields "id") as [[| | player_id | | |]|];
    try (simpl; split; [reflexivity|lia]).
  destruct (bind_param (VInt player_id)) as [b|x]; [|split; count_tac].
  destruct (get_table (db c) "players" !! player_id) as [existing|]; cbv zeta.
  - destruct (truthy (VDict _)); [|split; count_tac].
    destruct (bind_params _) as [bs|x]; split; count_tac.
  - destruct (forallb _ _); [|split; count_tac].
    destruct (bind_params _) as [bs|x]; split; count_tac.
Qed.

Lemma check_player_counts pid st c :
  let rc := check_player pid st c in
  players_failed rc.2 = players_failed c ∧
  players_added_or_updated st ≤ players_added_or_updated rc.1.1 ∧
  match rc.1.2 with
  | None =>
      writes rc.2 = writes c +
        (players_added_or_updated rc.1.1 - players_added_or_updated st)
  | Some _ =>
      players_added_or_updated rc.1.1 = players_added_or_updated st ∧
      writes c ≤ writes rc.2 ≤ writes c + 1
  end.
Proof.
  cbv zeta. unfold players_rest.check_player.
  set (c1 := if pid `mod` 20 =? 0 then _ else c).
  assert (players_failed c1 = players_failed c ∧ writes c1 = writes c) as [Hf Hw].
  { unfold c1. destruct (pid `mod` 20 =? 0); [|done]. split; count_tac. }
  destruct (truthy (fetch_player_info pid)); [|simpl; split_and!; lia].
  destruct (update_player_v_writes (fetch_player_info pid) c1) as [Hf' Hw'].
  destruct (update_player_v _ c1) as [[[|]|x] c2]; simpl in *; split_and!; lia.
Qed.

Lemma check_players_loop_counts l : ∀ st c,
  let rc := for_each_keep check_player l st c in
  players_failed rc.2 = players_failed c ∧
  players_added_or_updated st ≤ players_added_or_updated rc.1.1 ∧
  let k := players_added_or_updated rc.1.1 - players_added_or_updated st in
  match rc.1.2 with
  | None => writes rc.2 = writes c + k
  | Some _ => writes c + k ≤ writes rc.2 ≤ writes c + k + 1
  end.
Proof.
  induction l as [|pid l IH]; intros st c; simpl; [split_and!; lia|].
  pose proof (check_player_counts pid st c) as (Hf & Hle & Hw). cbv zeta in Hf, Hle, Hw.
  destruct (check_player pid st c) as [[st1 [e|]] c1]; simpl in *.
  - split_and!; lia.
  - destruct (IH st1 c1) as (Hf' & Hle' & Hw'). cbv zeta in Hw'.
    destruct (for_each_keep _ l st1 c1) as [[st2 [e|]] c2]; simpl in *; split_and!; lia.
Qed.

Lemma check_players_counts player_id max_id c :
  let rc := check_players player_id max_id c in
  players_failed rc.2 = players_failed c ∧
  0 ≤ players_added_or_updated rc.1.1 ∧
  let k := players_added_or_updated rc.1.1 in
  match rc.1.2 with
  | None => writes rc.2 = writes c + k
  | Some _ => writes c + k ≤ writes rc.2 ≤ writes c + k + 1
  end.
Proof.
  cbv zeta. unfold players_rest.check_players. destruct player_id as [pid|].
  - unfold players_rest.check_one_player.
    destruct (truthy (fetch_player_info pid)); [|simpl; split_and!; lia].
    destruct (update_player_v_writes (fetch_player_info pid) c) as [Hf Hw].
    destruct (update_player_v _ c) as [[[|]|x] c2]; simpl in *; split_and!; lia.
  - match goal with
    | |- context [for_each_keep _ ?l ?st c] =>
        destruct (check_players_loop_counts l st c) as (Hf & Hle & Hw)
    end.
    cbv zeta in Hw. simpl in *.
    destruct (for_each_keep _ _ _ c) as [[st2 [e|]] c2]; simpl in *; split_and!; lia.
Qed.

Lemma for_each_keep_stops {A} (body : A → stats → conn → outcome) l1 l2 : ∀ st c st' e c',
  for_each_keep body l1 st c = ((st', Some e), c') →
  for_each_keep body (l1 ++ l2) st c = ((st', Some e), c').
Proof.
  induction l1 as [|x l1 IH]; intros st c st' e c'; simpl; [done|].
  destruct (body x st c) as [[st1 [e1|]] c1]; [done|]. apply IH.
Qed.

Lemma add_log_app c l1 l2 : add_log (add_log c l1) l2 = add_log c (l1 ++ l2).
Proof. unfold add_log. simpl. by rewrite <- app_assoc. Qed.

Lemma writes_close c : writes (close c).2 = writes c.
Proof. reflexivity. Qed.

Lemma writes_rollback c : writes (rollback c).2 = writes c.
Proof. reflexivity. Qed.

Lemma writes_add_log c ls : writes (add_log c ls) = writes c.
Proof. reflexivity. Qed.

Lemma players_failed_close c : players_failed (close c).2 = players_failed c.
Proof. reflexivity. Qed.

Lemma players_failed_rollback c : players_failed (rollback c).2 = players_failed c.
Proof. reflexivity. Qed.

Lemma players_failed_add_log c ls :
  players_failed (add_log c ls) = players_failed c +
    Z.of_nat (List.length (filter (λ r, msg r = "Error updating players: {e}") ls)).
Proof. by apply players_failed_app. Qed.

Lemma logger_rollback_bind {A} l m e (k : () → M A) c :
  ((logger l m e;; rollback) ≫= k) c
  = k () (rollback (add_log c [{| lvl := l; msg := m; exc := e |}])).2.
Proof. reflexivity. Qed.

Lemma logger_bind {A} l m e (k : () → M A) c :
  (logger l m e ≫= k) c = k () (add_log c [{| lvl := l; msg := m; exc := e |}]).
Proof. reflexivity. Qed.

(** What [update_players] does once the scan has ended. *)
Lemma update_players_unfold player_id max_id c :
  update_players player_id max_id c =
  let rc := check_players player_id max_id c in
  (Ok (players_added_or_updated rc.1.1),
   (close
      (add_log
         (if rc.1.2 is Some e
          then (rollback (add_log rc.2 [error_with "Error updating players: {e}" e])).2
          else rc.2)
         [info "Player data update summary:";
          info "- Time elapsed: {elapsed:.2f} seconds";
          info "- Players checked: {players_checked}";
          info "- Players found in API: {players_found}";
          info "- Players added or updated: {players_added_or_updated}"])).2).
Proof.
  unfold players_rest.update_players. cbv zeta.
  generalize (check_players player_id max_id c). intros [[st e] c1].
  cbn [fst snd].
  assert (∀ c2 : conn,
            (logger INFO "Player data update summary:" None;;
             logger INFO "- Time elapsed: {elapsed:.2f} seconds" None;;
             logger INFO "- Players checked: {players_checked}" None;;
             logger INFO "- Players found in API: {players_found}" None;;
             logger INFO "- Players added or updated: {players_added_or_updated}" None;;
             close;;
             mret (players_added_or_updated st)) c2
            = (Ok (players_added_or_updated st),
               (close
                  (add_log c2
                     [info "Player data update summary:";
                      info "- Time elapsed: {elapsed:.2f} seconds";
                      info "- Players checked: {players_checked}";
                      info "- Players found in API: {players_found}";
                      info "- Players added or updated: {players_added_or_updated}"])).2))
    as Hsummary.
  { intros c2. do 5 (rewrite logger_bind; cbv beta).
    rewrite !add_log_app. reflexivity. }
  destruct e as [e|].
  - rewrite logger_rollback_bind. cbv beta. apply Hsummary.
  - apply Hsummary.
Qed.


(** X9: the scan ends with the first player that raises: when the scan of
    the ids up to [k] ends in an exception, the scan of the ids up to any
    higher [max_id] ends in the same way, with the same counters and the
    same connection, and [update_players] returns what it returns for
    [k]. *)
Theorem update_players_stops_at_first_failure k max_id c st e c' :
  k ≤ max_id →
  check_players None k c = ((st, Some e), c') →
  check_players None max_id c = ((st, Some e), c') ∧
  update_players None max_id c = update_players None k c.
Proof.
  intros Hk Hrun.
  assert (check_players None max_id c = ((st, Some e), c')) as Hmax.
  { unfold players_rest.check_players in *.
    destruct (decide (0 ≤ k + 1)) as [Hpos|Hneg].
    - replace (max_id + 1) with ((k + 1) + (max_id - k)) by lia.
      rewrite seqZ_app by lia. by apply for_each_keep_stops.
    - rewrite seqZ_nil in Hrun by lia. done. }
  split; [done|]. unfold players_rest.update_players.
  fold (check_players None max_id c). fold (check_players None k c).
  by rewrite Hmax, Hrun.
Qed.

End update_players_facts.

Lemma update_players_stops_at_first_failure_witness :
  sample_update_players None 500 (fresh_conn jane_stored)
  = sample_update_players None 1 (fresh_conn jane_stored).
Proof.
  refine (proj2 (update_players_stops_at_first_failure sample_hometown_parts
                   sample_team_id sample_height_weight sample_columns
                   malformed_player_1 1 500 (fresh_conn jane_stored) _ _ _ _ _)).
  - lia.
  - vm_compute. reflexivity.
Defined.

(** ** The other helpers of [database/db_manager.py] *)

Section schema_facts.
Import db_manager db_manager_rest.
Variable driver_execute : string → list value → database → result Z * database.
Variable driver_commit_error : database → option exn.
Variable schema_tables : list (string * string).
Variable schema_indexes : list (string * list string).

Local Abbreviation with_transaction :=
  (db_manager_rest.with_transaction driver_execute driver_commit_error).
Local Abbreviation create_table :=
  (db_manager_rest.create_table driver_execute driver_commit_error).
Local Abbreviation create_index := (db_manager_rest.create_index driver_execute).
Local Abbreviation create_indexes :=
  (db_manager_rest.create_indexes driver_execute driver_commit_error).
Local Abbreviation setup_database :=
  (db_manager_rest.setup_database driver_execute driver_commit_error
     schema_tables schema_indexes).

(** X10: the wrapper of [with_transaction] keeps all or nothing of a
    function that does not commit by itself: when it returns, the function
    has returned the same value and everything it did is committed; when it
    raises, the database is the one that was committed when the wrapper was
    called. *)
Theorem with_transaction_all_or_nothing {A} (func : M A) c :
  (∀ c0, committed (func c0).2 = committed c0) →
  let rc := with_transaction func c in
  match rc.1 with
  | Ok a =>
      ∃ n d,
        driver_execute "BEGIN TRANSACTION" [] (db c) = (Ok n, d) ∧
        (func (with_db c d)).1 = Ok a ∧
        db rc.2 = db (func (with_db c d)).2 ∧ committed rc.2 = db rc.2
  | Raise _ => db rc.2 = committed c ∧ committed rc.2 = committed c
  end.
Proof.
  intros Hfunc. cbv zeta.
  unfold db_manager_rest.with_transaction, try_except, cursor_execute, conn_commit,
    commit, rollback, raise, mbind, M_bind, mret, M_ret.
  destruct (driver_execute _ _ _) as [[n|e] d]; simpl; [|done].
  fold (with_db c d). pose proof (Hfunc (with_db c d)) as Hc.
  destruct (func (with_db c d)) as [[a|e] c2] eqn:Hf; simpl in *; [|by rewrite Hc].
  destruct (driver_commit_error (db c2)); simpl; [by rewrite Hc|].
  exists n, d. by rewrite Hf.
Qed.

Lemma index_reports_app c c' ls :
  logged c' = logged c ++ ls →
  index_reports c' = index_reports c +
    Z.of_nat (List.length
      (filter (λ r, msg r = "Index created or already exists: {index_sql}" ∨
                    msg r = "Index creation error: {e}") ls)).
Proof. unfold index_reports. intros ->. rewrite filter_app, length_app. lia. Qed.

Lemma create_index_continues index_sql c :
  raises_sqlite3_only driver_execute →
  ∃ c', create_index index_sql () c = (Ok (), c') ∧
        committed c' = committed c ∧
        index_reports c' = index_reports c + 1.
Proof.
  intros Hsql. unfold db_manager_rest.create_index, try_except_sqlite3, cursor_execute,
    logger, mbind, M_bind.
  pose proof (Hsql index_sql [] (db c)) as He.
  destruct (driver_execute index_sql [] (db c)) as [[n|e] d]; simpl in *.
  - eexists. split; [done|]. split; [done|].
    erewrite (index_reports_app c) by reflexivity. reflexivity.
  - rewrite (He e eq_refl). eexists. split; [done|]. split; [done|].
    erewrite (index_reports_app c) by (simpl; rewrite <- app_assoc; reflexivity).
    reflexivity.
Qed.

Lemma create_indexes_loop indexes : ∀ c,
  raises_sqlite3_only driver_execute →
  ∃ c', for_each create_index indexes () c = (Ok (), c') ∧
        committed c' = committed c ∧
        index_reports c' = index_reports c + Z.of_nat (List.length indexes).
Proof.
  induction indexes as [|index_sql indexes IH]; intros c Hsql; simpl.
  - exists c. split; [done|]. split; [done|]. lia.
  - unfold mbind, M_bind.
    destruct (create_index_continues index_sql c Hsql) as (c1 & -> & Hc1 & Hr1).
    destruct (IH c1 Hsql) as (c2 & -> & Hc2 & Hr2).
    exists c2. split; [done|]. split; [congruence|]. lia.
Qed.

Lemma create_table_raises table_name schema c e :
  (create_table table_name schema c).1 = Raise e →
  (∃ d, (driver_execute schema [] d).1 = Raise e) ∨ (∃ d, driver_commit_error d = Some e).
Proof.
  unfold db_manager_rest.create_table, try_except_sqlite3, cursor_execute, conn_commit,
    commit, rollback, raise, logger, mbind, M_bind.
  destruct (driver_execute schema [] (db c)) as [[n|e'] d] eqn:Hx; simpl.
  - destruct (driver_commit_error d) as [e'|] eqn:Hc; simpl; [|done].
    destruct (is_sqlite3_error e'); simpl; intros [= <-]; right; by exists d.
  - destruct (is_sqlite3_error e'); simpl; intros [= <-]; left; exists (db c);
      by rewrite Hx.
Qed.

(** X11: [create_indexes] goes through all its statements: a statement
    that the driver refuses with a [sqlite3.Error] is logged and the next
    one is run, so that every statement is reported on once, as created or
    as failed, nothing is committed before the end, and the function can
    raise only what the final commit raises. *)
Theorem create_indexes_attempts_all indexes c :
  raises_sqlite3_only driver_execute →
  let rc := create_indexes indexes c in
  index_reports rc.2 = index_reports c + Z.of_nat (List.length indexes) ∧
  match rc.1 with
  | Ok _ => committed rc.2 = db rc.2
  | Raise e =>
      driver_commit_error (db rc.2) = Some e ∧ committed rc.2 = committed c
  end.
Proof.
  intros Hsql. cbv zeta. unfold db_manager_rest.create_indexes, mbind, M_bind.
  destruct (create_indexes_loop indexes c Hsql) as (c1 & -> & Hc1 & Hr1).
  unfold conn_commit, commit.
  destruct (driver_commit_error (db c1)) as [e|] eqn:He; simpl; by split.
Qed.


End schema_facts.

Lemma create_indexes_attempts_all_witness :
  let rc := db_manager_rest.create_indexes no_index_driver commit_succeeds
              ["CREATE INDEX a"; "CREATE INDEX b"] (fresh_conn empty_db) in
  index_reports rc.2 = 2 ∧ rc.1 = Ok ().
Proof.
  pose proof (create_indexes_attempts_all no_index_driver commit_succeeds
                ["CREATE INDEX a"; "CREATE INDEX b"] (fresh_conn empty_db)) as H.
  split.
  - apply H. intros query params d e. unfold no_index_driver.
    destruct (String.prefix _ _); [|done]. by intros [= <-].
  - reflexivity.
Defined.


Lemma with_transaction_all_or_nothing_witness :
  let rc := db_manager_rest.with_transaction no_index_driver commit_succeeds
              insert_then_fail (fresh_conn empty_db) in
  match rc.1 with
  | Ok a =>
      ∃ n d,
        no_index_driver "BEGIN TRANSACTION" [] empty_db = (Ok n, d) ∧
        (insert_then_fail (with_db (fresh_conn empty_db) d)).1 = Ok a ∧
        db rc.2 = db (insert_then_fail (with_db (fresh_conn empty_db) d)).2 ∧
        committed rc.2 = db rc.2
  | Raise _ => db rc.2 = empty_db ∧ committed rc.2 = empty_db
  end.
Proof.
  apply (with_transaction_all_or_nothing no_index_driver commit_succeeds
           insert_then_fail (fresh_conn empty_db)).
  intros c0. reflexivity.
Defined.

(** ** [extract_player_fields] *)

Section player_fields_facts.
Import players.
Variable extract_hometown_parts : value → result (value * value).
Variable extract_team_id_from_url : value → result value.
Variable extract_height_weight : value → value → result (value * value).

Local Abbreviation extract_player_fields :=
  (players.extract_player_fields extract_hometown_parts extract_team_id_from_url
     extract_height_weight).

#[local] Arguments truthy : simpl never.

Lemma py_strip_str v w : py_strip v = Ok w → is_str w.
Proof. destruct v; try done. intros [= <-]. by eexists. Qed.

(** X13: the dict that [extract_player_fields] returns has the same 22
    keys in the same order for every payload; its [id] is an integer, its
    names are strings, its jersey number is an integer or None, and its
    position class is one of G, D, F and the empty string.  It returns None
    for the empty payload only. *)
Theorem extract_player_fields_shape player_data fields :
  extract_player_fields player_data = Ok fields →
  match fields with
  | None => player_data = []
  | Some fields =>
      player_data ≠ [] ∧
      fields.*1 = player_field_names ∧
      (∃ v, dict_lookup fields "id" = Some v ∧ is_int v) ∧
      (∃ v, dict_lookup fields "first_name" = Some v ∧ is_str v) ∧
      (∃ v, dict_lookup fields "last_name" = Some v ∧ is_str v) ∧
      (∃ v, dict_lookup fields "jersey_number" = Some v ∧ (v = VNone ∨ is_int v)) ∧
      (∃ s, dict_lookup fields "position_analysis" = Some (VStr s) ∧
            s ∈ ["G"; "D"; "F"; ""])
  end.
Proof.
  unfold players.extract_player_fields.
  destruct player_data as [|kv player_data]; [by intros [= <-]|].
  replace (negb (truthy (VDict (kv :: player_data)))) with false by done.
  cbv zeta. set (player_info := dict_get _ "info" _).
  unfold mbind, result_bind.
  destruct (py_get player_info "playerId" _) as [playerId|]; [|done].
  destruct (py_int playerId) as [player_id|]; [|done].
  destruct (py_get player_info "firstName" _) as [firstName|]; [|done].
  destruct (py_strip firstName) as [first_name|] eqn:Hfirst; [|done].
  destruct (py_get player_info "lastName" _) as [lastName|]; [|done].
  destruct (py_strip lastName) as [last_name|] eqn:Hlast; [|done].
  destruct (py_get player_info "playerType" _) as [player_type|]; [|done].
  destruct (py_get player_info "position" _) as [position|]; [|done].
  set (position_analysis := if eq_str position "G" then _ else _).
  assert (position_analysis ∈ ["G"; "D"; "F"; ""]) as Hpos.
  { unfold position_analysis. repeat case_match; set_solver. }
  clearbody position_analysis.
  destruct (py_get player_info "birthDate" _) as [birth_date|]; [|done].
  destruct (py_get player_info "height" _) as [height|]; [|done].
  destruct (py_get player_info "weight" _) as [weight|]; [|done].
  destruct (py_get player_info "shoots" _) as [shoots|]; [|done].
  destruct (py_get player_info "catches" _) as [catches|]; [|done].
  destruct (py_get player_info "bio" _) as [biography|]; [|done].
  destruct (py_get player_info "jerseyNumber" _) as [jerseyNumber|]; [|done].
  match goal with
  | |- context [match ?j with Ok _ => _ | Raise _ => _ end] =>
      assert (∀ w, j = Ok w → w = VNone ∨ is_int w) as Hj;
      [|destruct j as [jersey_number|]; [|done]]
  end.
  { intros w. destruct (truthy jerseyNumber); [|intros [= <-]; by left].
    destruct (py_int jerseyNumber) as [z|[]]; intros [= <-];
      [right; by eexists|by left]. }
  destruct (py_get player_info "birthPlace" _) as [birth_place|]; [|done].
  destruct (extract_hometown_parts birth_place) as [[hometown hometown_div]|]; [|done].
  destruct (py_get player_info "nationality" _) as [nationality_obj|]; [|done].
  destruct (py_get player_info "profileImage" _) as [image_url|]; [|done].
  match goal with |- context [py_len ?m] => generalize m; intros media_images end.
  destruct (py_len media_images) as [n1|]; [|done].
  match goal with
  | |- context [match ?p with Ok _ => _ | Raise _ => _ end] =>
      destruct p as [photo_1_url|]; [|done]
  end.
  match goal with
  | |- context [match ?p with Ok _ => _ | Raise _ => _ end] =>
      destruct p as [photo_2_url|]; [|done]
  end.
  destruct (py_get player_info "teamImage" _) as [team_image_url|]; [|done].
  destruct (extract_team_id_from_url team_image_url) as [team_id|]; [|done].
  destruct (extract_height_weight height weight) as [[height_cm weight_kg]|]; [|done].
  intros [= <-]. split; [done|]. split; [done|].
  split_and!.
  - eexists. split; [done|]. by eexists.
  - eexists. split; [done|]. by eapply py_strip_str.
  - eexists. split; [done|]. by eapply py_strip_str.
  - eexists. split; [done|]. by apply Hj.
  - by exists position_analysis.
Qed.

End player_fields_facts.

Lemma extract_player_fields_shape_witness :
  jane_payload ≠ [] ∧
  jane_fields.*1 = player_field_names ∧
  (∃ v, dict_lookup jane_fields "id" = Some v ∧ is_int v) ∧
  (∃ v, dict_lookup jane_fields "first_name" = Some v ∧ is_str v) ∧
  (∃ v, dict_lookup jane_fields "last_name" = Some v ∧ is_str v) ∧
  (∃ v, dict_lookup jane_fields "jersey_number" = Some v ∧ (v = VNone ∨ is_int v)) ∧
  (∃ s, dict_lookup jane_fields "position_analysis" = Some (VStr s) ∧
        s ∈ ["G"; "D"; "F"; ""]).
Proof.
  apply (extract_player_fields_shape sample_hometown_parts sample_team_id
           sample_height_weight jane_payload (Some jane_fields)).
  vm_compute. reflexivity.
Defined.

(** ** [update_basic_info] *)

Section upsert_committed_facts.
Variable t : string.
Variable key_of : dict → result Z.
Variable cols_of : Z → dict → result (list (string * value)).
Variable extra : list (string * value).

Lemma upsert_step_committed e n c :
  committed (upsert_step t key_of cols_of extra e n c).2 = committed c.
Proof.
  rewrite upsert_step_unfold.
  destruct (key_of e) as [id|x]; [|done].
  destruct (id =? 0); [done|].
  destruct (cols_of id e) as [cv|x]; [|done].
  destruct (bind_param (VInt id)) as [b|x]; [|done].
  destruct (get_table (db c) t !! id) as [r|]; cbv zeta.
  - by destruct (bind_params cv).
  - by destruct (bind_params (cv ++ extra)).
Qed.

Lemma upsert_step_touches e n : touches t (upsert_step t key_of cols_of extra e n).
Proof. intros c. split; [apply upsert_step_frame|apply upsert_step_committed]. Qed.

End upsert_committed_facts.

Section update_basic_info_facts.
Import basic_info basic_info_rest basic_info_update.

#[local] Arguments bind_params : simpl never.

Lemma update_team_committed league_id team n c :
  committed (update_team league_id team n c).2 = committed c.
Proof.
  unfold update_team. unfold mbind, M_bind, lift. cbv beta.
  destruct (is_all_teams team) as [[|]|x]; [done| |done].
  destruct (py_int (dict_get team "id" (VInt 0))) as [team_id|e] eqn:Hid.
  2:{ destruct (py_int_raises _ _ Hid) as [->| ->]; done. }
  destruct (team_id =? 0); [done|]. cbv beta.
  destruct (team_division_id team) as [division_id|x]; [|done].
  destruct (lookup_conference_reads division_id c) as (res & ss & -> & _).
  destruct res as [conference_id|x]; [|done].
  unfold select_by_id, exec_update, exec_insert, issue, get_db, put_db, raise, lift,
    mbind, M_bind, mret, M_ret. simpl.
  destruct (bind_param (VInt team_id)); simpl; [|done].
  match goal with |- context [bind_params ?l] => set (cols := l) end.
  destruct (get_table (db c) "teams" !! team_id) as [r|] eqn:Hr; simpl.
  - destruct (bind_params cols) as [bs|x]; simpl; [|done]. by rewrite Hr.
  - destruct (bind_params cols) as [bs|x]; simpl; [|done]. by rewrite Hr.
Qed.

Lemma update_team_touches league_id team n : touches "teams" (update_team league_id team n).
Proof. intros c. split; [apply update_team_frame|apply update_team_committed]. Qed.

Lemma value_loop_touches t body payload :
  (∀ d n, touches t (body d n)) → touches t (value_loop body payload).
Proof.
  intros Hbody c. unfold value_loop, mbind, M_bind, lift.
  destruct (py_iter payload) as [entries|x];
    [|split; [apply only_table_changed_refl|done]].
  generalize 0. revert c.
  induction entries as [|entry entries IH]; intros c n; simpl.
  - split; [apply only_table_changed_refl|done].
  - unfold mbind, M_bind.
    assert (only_table_changed t c (on_dict body entry n c).2 ∧
            committed (on_dict body entry n c).2 = committed c) as [Hf Hc].
    { destruct entry as [| | | | |d]; try (split; [apply only_table_changed_refl|done]).
      apply Hbody. }
    destruct (on_dict body entry n c) as [[n1|x] c1]; simpl in *; [|done].
    destruct (IH c1 n1) as [Hf' Hc']. split; [|congruence].
    by eapply only_table_changed_trans.
Qed.

(** An updater changes its table only, and what is committed afterwards is
    what was committed before or what the updater leaves. *)
Lemma logged_loop_effect t pre post loop c :
  touches t loop →
  let c' := (logged_loop pre post loop c).2 in
  only_table_changed t c c' ∧ (committed c' = committed c ∨ committed c' = db c').
Proof.
  intros Hloop. cbv zeta.
  unfold logged_loop, mbind, M_bind, logger, commit, mret, M_ret. simpl.
  destruct (Hloop (add_log c [info pre])) as [Hf Hc]. unfold add_log, info in Hf, Hc.
  destruct (loop _) as [[n|e] c1]; simpl in *.
  - split; [exact Hf|by right].
  - split; [exact Hf|by left].
Qed.

Lemma agrees_outside_step ts d0 t c c' :
  t ∈ ts →
  only_table_changed t c c' →
  committed c' = committed c ∨ committed c' = db c' →
  agrees_outside ts d0 (db c) → agrees_outside ts d0 (committed c) →
  agrees_outside ts d0 (db c') ∧ agrees_outside ts d0 (committed c').
Proof.
  intros Ht [Hf Hp] Hc [Hd Hdp] Hcm.
  assert (agrees_outside ts d0 (db c')) as Hd'.
  { split; [|congruence]. intros t' Ht'. rewrite Hf; [by apply Hd|].
    intros ->. done. }
  split; [done|]. by destruct Hc as [-> | ->].
Qed.

Lemma logged_loop_kept ts d0 t pre post loop c :
  t ∈ ts → touches t loop →
  kept_outside ts d0 c → kept_outside ts d0 (logged_loop pre post loop c).2.
Proof.
  intros Ht Hloop [Hd Hc].
  destruct (logged_loop_effect t pre post loop c Hloop) as [Hf Hcm].
  by eapply agrees_outside_step.
Qed.

Lemma update_leagues_v_shape payload :
  update_leagues_v payload =
  logged_loop "Updating leagues..." "Updated {updated_count} leagues"
    (value_loop update_league payload).
Proof. reflexivity. Qed.

Lemma update_conferences_v_shape payload :
  update_conferences_v payload =
  logged_loop "Updating conferences..." "Updated {updated_count} conferences"
    (value_loop update_conference payload).
Proof. reflexivity. Qed.

Lemma update_divisions_v_shape payload :
  update_divisions_v payload =
  logged_loop "Updating divisions..." "Updated {updated_count} divisions"
    (value_loop update_division payload).
Proof. reflexivity. Qed.

Lemma update_seasons_v_shape payload :
  update_seasons_v payload =
  logged_loop "Updating seasons..." "Updated {updated_count} seasons"
    (current_season_id ← lift (current_season_id_of_v payload);
     value_loop (update_season current_season_id) payload).
Proof. reflexivity. Qed.

Lemma update_teams_v_shape payload season_id league_id :
  update_teams_v payload season_id league_id =
  logged_loop "Updating teams for season {season_id}..." "Updated {updated_count} teams"
    (value_loop (update_team league_id) payload).
Proof. reflexivity. Qed.

Lemma update_leagues_v_kept ts d0 payload c :
  "leagues" ∈ ts →
  kept_outside ts d0 c → kept_outside ts d0 (update_leagues_v payload c).2.
Proof.
  intros Ht. rewrite update_leagues_v_shape. apply (logged_loop_kept _ _ _ _ _ _ _ Ht).
  apply value_loop_touches. intros d n. rewrite update_league_shape.
  apply upsert_step_touches.
Qed.

Lemma update_conferences_v_kept ts d0 payload c :
  "conferences" ∈ ts →
  kept_outside ts d0 c → kept_outside ts d0 (update_conferences_v payload c).2.
Proof.
  intros Ht. rewrite update_conferences_v_shape.
  apply (logged_loop_kept _ _ _ _ _ _ _ Ht).
  apply value_loop_touches. intros d n. rewrite update_conference_shape.
  apply upsert_step_touches.
Qed.

Lemma update_divisions_v_kept ts d0 payload c :
  "divisions" ∈ ts →
  kept_outside ts d0 c → kept_outside ts d0 (update_divisions_v payload c).2.
Proof.
  intros Ht. rewrite update_divisions_v_shape.
  apply (logged_loop_kept _ _ _ _ _ _ _ Ht).
  apply value_loop_touches. intros d n. rewrite update_division_shape.
  apply upsert_step_touches.
Qed.

Lemma update_seasons_v_kept ts d0 payload c :
  "seasons" ∈ ts →
  kept_outside ts d0 c → kept_outside ts d0 (update_seasons_v payload c).2.
Proof.
  intros Ht. rewrite update_seasons_v_shape.
  apply (logged_loop_kept _ _ _ _ _ _ _ Ht).
  intros c0. unfold mbind at 1, M_bind at 1, lift at 1.
  destruct (current_season_id_of_v payload) as [cur|x];
    [|split; [apply only_table_changed_refl|done]].
  apply value_loop_touches. intros d n. rewrite update_season_shape.
  apply upsert_step_touches.
Qed.

Lemma update_teams_v_kept ts d0 payload season_id league_id c :
  "teams" ∈ ts →
  kept_outside ts d0 c →
  kept_outside ts d0 (update_teams_v payload season_id league_id c).2.
Proof.
  intros Ht. rewrite update_teams_v_shape.
  apply (logged_loop_kept _ _ _ _ _ _ _ Ht).
  apply value_loop_touches. intros d n. apply update_team_touches.
Qed.

Section client_facts.
Variable fetch_basic_info : value.
Variable fetch_seasons_list : value.

Lemma update_bootstrap_kept ts d0 c :
  "leagues" ∈ ts → "conferences" ∈ ts → "divisions" ∈ ts →
  kept_outside ts d0 c →
  kept_outside ts d0 (update_bootstrap fetch_basic_info c).2.
Proof.
  intros Hl Hc Hd Hk. unfold update_bootstrap. cbv zeta.
  destruct (truthy fetch_basic_info); [|exact Hk].
  unfold mbind, M_bind, lift, mret, M_ret.
  destruct (py_get fetch_basic_info "leagues" _) as [leagues_data|x]; [|exact Hk].
  pose proof (update_leagues_v_kept ts d0 leagues_data c Hl Hk) as Hk1.
  destruct (update_leagues_v leagues_data c) as [[n1|x] c1]; [|exact Hk1].
  destruct (py_get fetch_basic_info "conferences" _) as [conferences_data|x];
    [|exact Hk1].
  pose proof (update_conferences_v_kept ts d0 conferences_data c1 Hc Hk1) as Hk2.
  destruct (update_conferences_v conferences_data c1) as [[n2|x] c2]; [|exact Hk2].
  destruct (py_get fetch_basic_info "divisions" _) as [divisions_data|x]; [|exact Hk2].
  pose proof (update_divisions_v_kept ts d0 divisions_data c2 Hd Hk2) as Hk3.
  destruct (update_divisions_v divisions_data c2) as [[n3|x] c3]; [|exact Hk3].
  destruct (py_get fetch_basic_info "current_league_id" _) as [current_league_id|x];
    [|exact Hk3].
  destruct (py_int current_league_id); exact Hk3.
Qed.

Lemma update_seasons_list_kept ts d0 total c :
  "seasons" ∈ ts →
  kept_outside ts d0 c →
  kept_outside ts d0 (update_seasons_list fetch_seasons_list total c).2.
Proof.
  intros Hs Hk. unfold update_seasons_list. cbv zeta.
  destruct (truthy fetch_seasons_list); [|exact Hk].
  unfold mbind, M_bind, lift, mret, M_ret.
  destruct (py_get fetch_seasons_list "seasons" _) as [seasons_data|x]; [|exact Hk].
  pose proof (update_seasons_v_kept ts d0 seasons_data c Hs Hk) as Hk1.
  destruct (update_seasons_v seasons_data c) as [[n1|x] c1]; exact Hk1.
Qed.

Lemma get_current_season_id_reads c :
  ∃ res, get_current_season_id c = (Ok res, c).
Proof.
  unfold get_current_season_id, get_db, mbind, M_bind, mret, M_ret.
  destruct (select_current_ids (db c)); by eexists.
Qed.

Lemma update_current_teams_kept fetch_teams_by_season ts d0 total league_id c :
  "teams" ∈ ts →
  kept_outside ts d0 c →
  kept_outside ts d0 (update_current_teams fetch_teams_by_season total league_id c).2.
Proof.
  intros Ht Hk. unfold update_current_teams. unfold mbind at 1, M_bind at 1.
  destruct (get_current_season_id_reads c) as [res ->].
  destruct res as [season_id|]; [|exact Hk].
  destruct (season_id =? 0); [exact Hk|]. cbv zeta.
  destruct (truthy (fetch_teams_by_season season_id)); [|exact Hk].
  unfold mbind, M_bind, lift, mret, M_ret.
  destruct (py_get _ "teams" _) as [teams_data|x]; [|exact Hk].
  pose proof (update_teams_v_kept ts d0 teams_data season_id league_id c Ht Hk) as Hk1.
  destruct (update_teams_v teams_data season_id league_id c) as [[n1|x] c1]; exact Hk1.
Qed.

(** X14: [update_basic_info] changes the five tables of the basic
    information and nothing else: what the connection sees and what is
    committed outside these tables, and in the play-by-play tables, is
    afterwards what it was, whatever the API returns and whether the
    function returns or raises. *)
Theorem update_basic_info_changes_basic_tables_only fetch_teams_by_season d0 c :
  kept_outside basic_tables d0 c →
  kept_outside basic_tables d0
    (update_basic_info fetch_basic_info fetch_seasons_list fetch_teams_by_season c).2.
Proof.
  intros Hk.
  assert ("leagues" ∈ basic_tables ∧ "conferences" ∈ basic_tables ∧
          "divisions" ∈ basic_tables ∧ "seasons" ∈ basic_tables ∧
          "teams" ∈ basic_tables) as (Hl & Hc & Hd & Hs & Ht).
  { unfold basic_tables. split_and!; set_solver. }
  assert (∀ c0, kept_outside basic_tables d0 c0 →
                kept_outside basic_tables d0 (close c0).2 ∧
                kept_outside basic_tables d0 (rollback c0).2) as Hend.
  { intros c0 [H1 H2]. by split. }
  unfold update_basic_info, try_finally, try_except.
  unfold mbind at 1, M_bind at 1.
  pose proof (update_bootstrap_kept basic_tables d0 c Hl Hc Hd Hk) as Hk1.
  destruct (update_bootstrap fetch_basic_info c) as [[[total league_id]|x] c1].
  - unfold mbind at 1, M_bind at 1.
    pose proof (update_seasons_list_kept basic_tables d0 total c1 Hs Hk1) as Hk2.
    destruct (update_seasons_list fetch_seasons_list total c1) as [[total'|x] c2].
    + pose proof (update_current_teams_kept fetch_teams_by_season basic_tables d0
                    total' league_id c2 Ht Hk2) as Hk3.
      destruct (update_current_teams _ total' league_id c2) as [[n|x] c3].
      * by apply Hend.
      * apply (Hend (rollback (add_log c3 _)).2). by apply Hend.
    + apply (Hend (rollback (add_log c2 _)).2). by apply Hend.
  - apply (Hend (rollback (add_log c1 _)).2). by apply Hend.
Qed.

End client_facts.

Lemma update_v_writes_only t pre post body payload :
  (∀ d n, touches t (body d n)) →
  writes_only t (logged_loop pre post (value_loop body payload)).
Proof.
  intros Hbody. apply logged_loop_frame. intros c.
  by apply (value_loop_touches t body payload Hbody c).
Qed.

Lemma find_current_v_dicts l : find_current_v (VDict <$> l) = find_current l.
Proof.
  induction l as [|season l IH]; simpl; [done|].
  destruct (flagged_current season); [done|]. exact IH.
Qed.

Lemma season_ids_v_dicts l : season_ids_v (VDict <$> l) = season_ids l.
Proof.
  induction l as [|season l IH]; [done|].
  change (season_ids_v (VDict <$> season :: l))
    with (id ← py_int (dict_get season "id" (VInt 0));
          ids ← season_ids_v (VDict <$> l);
          mret (id :: ids)).
  by rewrite IH.
Qed.

Lemma current_season_id_of_v_dicts l :
  current_season_id_of_v (VList (VDict <$> l)) = current_season_id_of l.
Proof.
  unfold current_season_id_of_v, current_season_id_of. simpl.
  rewrite find_current_v_dicts. unfold mbind, result_bind.
  destruct (find_current l) as [[id|]|x]; [done| |done].
  destruct l as [|season l]; [done|].
  change (truthy (VList (VDict <$> season :: l))) with true. cbv iota.
  by rewrite season_ids_v_dicts.
Qed.

Lemma for_each_on_dict (body : dict → Z → M Z) l : ∀ n c,
  for_each (on_dict body) (VDict <$> l) n c = for_each body l n c.
Proof.
  induction l as [|d l IH]; intros n c; simpl; [done|].
  unfold mbind, M_bind. destruct (body d n c) as [[n1|x] c1]; [apply IH|done].
Qed.

(** On a list of dicts the updater of the seasons is the function of the
    signature. *)
Lemma update_seasons_v_dicts l c :
  update_seasons_v (VList (VDict <$> l)) c = update_seasons l c.
Proof.
  unfold update_seasons_v, update_seasons, mbind, M_bind, lift, logger, commit,
    mret, M_ret.
  rewrite current_season_id_of_v_dicts.
  destruct (current_season_id_of l) as [cur|x]; [|done].
  simpl. by rewrite for_each_on_dict.
Qed.

Lemma update_current_teams_at fetch_teams_by_season total league_id c cur :
  get_current_season_id c = (Ok (Some cur), c) →
  cur ≠ 0 →
  update_current_teams fetch_teams_by_season total league_id c =
  (if truthy (fetch_teams_by_season cur) then
     teams_data ← lift (py_get (fetch_teams_by_season cur) "teams" (VList []));
     teams ← update_teams_v teams_data cur league_id;
     mret (total + teams)
   else
     logger ERROR "Failed to fetch teams data for season {current_season_id}" None;;
     mret total) c.
Proof.
  intros Hnow Hnz. unfold update_current_teams. unfold mbind at 1, M_bind at 1.
  rewrite Hnow. by apply Z.eqb_neq in Hnz as ->.
Qed.

Section teams_request_facts.
Variable fetch_basic_info : value.
Variable fetch_seasons_list : value.

Lemma update_bootstrap_seasons c :
  get_table (db (update_bootstrap fetch_basic_info c).2) "seasons"
  = get_table (db c) "seasons".
Proof.
  assert (∀ t pre post body payload c0 c1,
            (∀ d n, touches t (body d n)) → t ≠ "seasons" →
            get_table (db c0) "seasons" = get_table (db c) "seasons" →
            c1 = (logged_loop pre post (value_loop body payload) c0).2 →
            get_table (db c1) "seasons" = get_table (db c) "seasons") as Hstep.
  { intros t pre post body payload c0 c1 Hbody Hne H0 ->.
    destruct (update_v_writes_only t pre post body payload Hbody c0) as [Hf _].
    rewrite Hf by done. exact H0. }
  unfold update_bootstrap. cbv zeta.
  destruct (truthy fetch_basic_info); [|done].
  unfold mbind, M_bind, lift, mret, M_ret.
  destruct (py_get fetch_basic_info "leagues" _) as [leagues_data|x]; [|done].
  assert (get_table (db (update_leagues_v leagues_data c).2) "seasons"
          = get_table (db c) "seasons") as H1.
  { eapply (Hstep "leagues"); [|done|done|by rewrite update_leagues_v_shape].
    intros d n. rewrite update_league_shape. apply upsert_step_touches. }
  destruct (update_leagues_v leagues_data c) as [[n1|x] c1]; [|exact H1].
  simpl in H1.
  destruct (py_get fetch_basic_info "conferences" _) as [conferences_data|x];
    [|exact H1].
  assert (get_table (db (update_conferences_v conferences_data c1).2) "seasons"
          = get_table (db c) "seasons") as H2.
  { eapply (Hstep "conferences"); [|done|exact H1|by rewrite update_conferences_v_shape].
    intros d n. rewrite update_conference_shape. apply upsert_step_touches. }
  destruct (update_conferences_v conferences_data c1) as [[n2|x] c2]; [|exact H2].
  simpl in H2.
  destruct (py_get fetch_basic_info "divisions" _) as [divisions_data|x]; [|exact H2].
  assert (get_table (db (update_divisions_v divisions_data c2).2) "seasons"
          = get_table (db c) "seasons") as H3.
  { eapply (Hstep "divisions"); [|done|exact H2|by rewrite update_divisions_v_shape].
    intros d n. rewrite update_division_shape. apply upsert_step_touches. }
  destruct (update_divisions_v divisions_data c2) as [[n3|x] c3]; [|exact H3].
  simpl in H3.
  destruct (py_get fetch_basic_info "current_league_id" _) as [current_league_id|x];
    [|exact H3].
  destruct (py_int current_league_id); exact H3.
Qed.


Lemma logged_loop_commits pre post loop c n c' :
  logged_loop pre post loop c = (Ok n, c') → committed c' = db c'.
Proof.
  unfold logged_loop, mbind, M_bind, logger, commit, mret, M_ret. simpl.
  destruct (loop _) as [[n1|x] c1]; [|done]. by intros [= _ <-].
Qed.

Lemma update_bootstrap_commits c x c1 :
  committed c = db c →
  update_bootstrap fetch_basic_info c = (Ok x, c1) →
  committed c1 = db c1.
Proof.
  intros Hfresh. unfold update_bootstrap. cbv zeta.
  destruct (truthy fetch_basic_info).
  2:{ unfold mbind, M_bind, logger, mret, M_ret. simpl. by intros [= _ <-]. }
  unfold mbind, M_bind, lift, mret, M_ret.
  destruct (py_get fetch_basic_info "leagues" _) as [leagues_data|e]; [|done].
  destruct (update_leagues_v leagues_data c) as [[n1|e] c2]; [|done].
  destruct (py_get fetch_basic_info "conferences" _) as [conferences_data|e]; [|done].
  destruct (update_conferences_v conferences_data c2) as [[n2|e] c3]; [|done].
  destruct (py_get fetch_basic_info "divisions" _) as [divisions_data|e]; [|done].
  destruct (update_divisions_v divisions_data c3) as [[n3|e] c4] eqn:Hdiv; [|done].
  destruct (py_get fetch_basic_info "current_league_id" _) as [current_league_id|e];
    [|done].
  destruct (py_int current_league_id); [|done].
  intros [= _ <-]. rewrite update_divisions_v_shape in Hdiv.
  by eapply logged_loop_commits.
Qed.

(** X16: [update_basic_info] is not one transaction: each updater commits
    its table.  Once the bootstrap data has been stored, the tables of the
    leagues, conferences and divisions are afterwards what that step has
    left, also when the seasons or the teams raise and are rolled back. *)
Theorem update_basic_info_keeps_bootstrap fetch_teams_by_season c x c1 :
  committed c = db c →
  update_bootstrap fetch_basic_info c = (Ok x, c1) →
  kept_outside ["seasons"; "teams"] (db c1)
    (update_basic_info fetch_basic_info fetch_seasons_list fetch_teams_by_season c).2.
Proof.
  intros Hfresh Hboot.
  assert (kept_outside ["seasons"; "teams"] (db c1) c1) as Hk1.
  { split; [done|]. by rewrite (update_bootstrap_commits _ _ _ Hfresh Hboot). }
  assert ("seasons" ∈ ["seasons"; "teams"] ∧ "teams" ∈ ["seasons"; "teams"])
    as [Hs Ht] by (split; set_solver).
  assert (∀ c0, kept_outside ["seasons"; "teams"] (db c1) c0 →
                kept_outside ["seasons"; "teams"] (db c1) (close c0).2 ∧
                kept_outside ["seasons"; "teams"] (db c1) (rollback c0).2) as Hend.
  { intros c0 [H1 H2]. by split. }
  unfold update_basic_info, try_finally, try_except.
  unfold mbind at 1, M_bind at 1. rewrite Hboot. destruct x as [total league_id].
  unfold mbind at 1, M_bind at 1.
  pose proof (update_seasons_list_kept fetch_seasons_list _ _ total c1 Hs Hk1) as Hk2.
  destruct (update_seasons_list fetch_seasons_list total c1) as [[total'|e] c2].
  - pose proof (update_current_teams_kept fetch_teams_by_season _ _
                  total' league_id c2 Ht Hk2) as Hk3.
    destruct (update_current_teams _ total' league_id c2) as [[n|e] c3].
    + by apply Hend.
    + apply (Hend (rollback (add_log c3 _)).2). by apply Hend.
  - apply (Hend (rollback (add_log c2 _)).2). by apply Hend.
Qed.

End teams_request_facts.

End update_basic_info_facts.

Lemma update_basic_info_changes_basic_tables_only_witness :
  kept_outside basic_tables test_game
    (basic_info_update.update_basic_info VNone seasons_response_5_6 teams_of_season
       (fresh_conn test_game)).2.
Proof.
  apply (update_basic_info_changes_basic_tables_only VNone seasons_response_5_6
           teams_of_season test_game (fresh_conn test_game)).
  by split.
Defined.


Lemma update_basic_info_keeps_bootstrap_witness :
  let c := fresh_conn seasons_5_current in
  let c1 := (basic_info_update.update_bootstrap bootstrap_1 c).2 in
  kept_outside ["seasons"; "teams"] (db c1)
    (basic_info_update.update_basic_info bootstrap_1 (VInt 1) no_teams c).2 ∧
  (basic_info_update.update_basic_info bootstrap_1 (VInt 1) no_teams c).1
    = Raise AttributeError ∧
  select_columns ["id"; "name"] (get_table (db c1) "leagues") = [[SInt 1; SText "PWHL"]].
Proof.
  split; [|split; vm_compute; reflexivity].
  apply (update_basic_info_keeps_bootstrap bootstrap_1 (VInt 1) no_teams
           (fresh_conn seasons_5_current) (1, 1)).
  - reflexivity.
  - vm_compute. reflexivity.
Defined.
